(** * Project Timeline Tracker: the status-derivation engine of [app.py]

    A shallow embedding of the Flask application's routes and helpers.

    - A [datetime.date] is its proleptic ordinal, an integer; Python's
      date comparisons are the integer ones.
    - A status, a name and a priority are strings, as the columns are.
    - The two tables are finite maps from the primary key to the row.
    - A route is a computation over the SQLAlchemy session: attribute
      assignments change the session's objects, [db.session.commit()]
      writes them to the store, and a request that returns without
      committing leaves the store as it was.
    - Python's [float] is IEEE 754 binary64, taken from the standard
      library's [SpecFloat]. *)

From Stdlib Require Import ZArith NArith Ascii String List Bool Lia.
From Stdlib Require Import Floats.SpecFloat.
From stdpp Require Import base option list gmap strings.
Import ListNotations.

Open Scope string_scope.
Open Scope Z_scope.

(** ** Dates *)

(** [date.toordinal()] of a [datetime.date]. *)
Definition date := Z.

(** ** The models (lines 68-102) *)

(** [class Milestone(db.Model)]; the primary key [id] is the key of the
    table the row lives in. *)
Module Milestone.
Record t := mk {
  project_id : Z;
  milestone_name : string;
  start_date : date;
  end_date : date;
  status : string;
  priority : string
}.

Definition set_milestone_name (v : string) (m : t) : t :=
  mk (project_id m) v (start_date m) (end_date m) (status m) (priority m).
Definition set_start_date (v : date) (m : t) : t :=
  mk (project_id m) (milestone_name m) v (end_date m) (status m) (priority m).
Definition set_end_date (v : date) (m : t) : t :=
  mk (project_id m) (milestone_name m) (start_date m) v (status m) (priority m).
Definition set_status (v : string) (m : t) : t :=
  mk (project_id m) (milestone_name m) (start_date m) (end_date m) v (priority m).
Definition set_priority (v : string) (m : t) : t :=
  mk (project_id m) (milestone_name m) (start_date m) (end_date m) (status m) v.
End Milestone.

(** [class Project(db.Model)]. The column [created_at], which no route
    reads or assigns, is left out; [milestones] is the relationship,
    read from the milestone table (see [Project_milestones]). *)
Module Project.
Record t := mk {
  project_name : string;
  client_name : string;
  start_date : date;
  end_date : date;
  status : string
}.

Definition set_project_name (v : string) (p : t) : t :=
  mk v (client_name p) (start_date p) (end_date p) (status p).
Definition set_client_name (v : string) (p : t) : t :=
  mk (project_name p) v (start_date p) (end_date p) (status p).
Definition set_start_date (v : date) (p : t) : t :=
  mk (project_name p) (client_name p) v (end_date p) (status p).
Definition set_end_date (v : date) (p : t) : t :=
  mk (project_name p) (client_name p) (start_date p) v (status p).
Definition set_status (v : string) (p : t) : t :=
  mk (project_name p) (client_name p) (start_date p) (end_date p) v.
End Project.

(** ** Milestone status (lines 34-58) *)

(** [get_milestone_status(milestone, today=None)]; [now] is
    [datetime.now().date()], read when [today] is [None]. *)
Definition get_milestone_status (now : date) (milestone : Milestone.t)
    (today : option date) : string :=
  let today := match today with None => now | Some d => d end in
  if String.eqb (Milestone.status milestone) "Completed" then "Completed"
  else if String.eqb (Milestone.status milestone) "In Progress" then
    if Milestone.end_date milestone <? today then "Overdue" else "In Progress"
  else if today <? Milestone.start_date milestone then "Not Started"
  else if today >? Milestone.end_date milestone then "Overdue"
  else "In Progress".

(** The reference definition of the specification: the four effective
    statuses and the three rules, in the specification's words. *)
Inductive EffectiveStatus := NotStarted | InProgress | Overdue | Completed.

Definition status_label (s : EffectiveStatus) : string :=
  match s with
  | NotStarted => "Not Started"
  | InProgress => "In Progress"
  | Overdue => "Overdue"
  | Completed => "Completed"
  end.

Definition effective_status_spec (stored : string) (start_date end_date today : date)
    : EffectiveStatus :=
  if decide (stored = "Completed") then Completed
  else if decide (stored = "In Progress") then
    if decide (today > end_date) then Overdue else InProgress
  else
    if decide (today < start_date) then NotStarted
    else if decide (today > end_date) then Overdue
    else InProgress.

(** ** Python's numbers *)

(** binary64 *)
Definition prec : Z := 53.
Definition emax : Z := 1024.

(** [float(n)] for an [int]: the nearest binary64 value. *)
Definition float_of_int (n : Z) : spec_float := binary_normalize prec emax n 0 false.

(** [a / b] on two [int]s: the correctly rounded quotient, which below
    2^53 is the binary64 quotient of the two exact conversions.
    Division by zero raises; the callers guard against it. *)
Definition int_truediv (a b : Z) : spec_float :=
  SFdiv prec emax (float_of_int a) (float_of_int b).

(** [x * n] for a [float] and an [int]. *)
Definition float_mul_int (x : spec_float) (n : Z) : spec_float :=
  SFmul prec emax x (float_of_int n).

(** [int(x)]: truncation towards zero; raises on an infinity or a NaN
    ([None]). *)
Definition py_int (x : spec_float) : option Z :=
  match x with
  | S754_zero _ => Some 0
  | S754_finite s m e =>
      let a := if 0 <=? e then Zpos m * 2 ^ e else Zpos m / 2 ^ (- e) in
      Some (if s then - a else a)
  | S754_infinity _ | S754_nan => None
  end.

(** [round(x)] with one argument: the nearest integer, ties to the even
    one; raises on an infinity or a NaN ([None]). *)
Definition py_round (x : spec_float) : option Z :=
  match x with
  | S754_zero _ => Some 0
  | S754_finite s m e =>
      let a :=
        if 0 <=? e then Zpos m * 2 ^ e
        else
          let d := 2 ^ (- e) in
          let q := Zpos m / d in
          let r := Zpos m mod d in
          match 2 * r ?= d with
          | Lt => q
          | Gt => q + 1
          | Eq => if Z.even q then q else q + 1
          end in
      Some (if s then - a else a)
  | S754_infinity _ | S754_nan => None
  end.

(** ** Completion percentage (lines 26-32, 80-86) *)

(** [sum(1 for m in milestones if m.status == 'Completed')] *)
Definition completed_count (milestones : list Milestone.t) : Z :=
  Z.of_nat (length (List.filter (fun m => String.eqb (Milestone.status m) "Completed") milestones)).

(** [calculate_completion_percentage(project)], on [project.milestones];
    the property [Project.completion_percentage] has the same body. *)
Definition calculate_completion_percentage (milestones : list Milestone.t) : option Z :=
  match milestones with
  | [] => Some 0
  | _ =>
      let completed := completed_count milestones in
      py_int (float_mul_int (int_truediv completed (Z.of_nat (length milestones))) 100)
  end.

Definition completion_percentage := calculate_completion_percentage.

(** The percentage of [view_project] (lines 249-252), from its two
    counters. *)
Definition view_completion_percentage (completed_milestones_count total_milestones : Z)
    : option Z :=
  if total_milestones >? 0 then
    py_round (float_mul_int (int_truediv completed_milestones_count total_milestones) 100)
  else Some 0.

(** ** The store and the session *)

(** The two tables of [timeline_tracker.db], keyed by [id]. *)
Record Database := mkDatabase {
  projects : gmap Z Project.t;
  milestones : gmap Z Milestone.t
}.

(** [db.session]: [objects] is the state of the mapped objects as the
    request sees and assigns them, [store] what has been committed. *)
Record Session := mkSession {
  store : Database;
  objects : Database
}.

(** The messages of the checks, rendered back with the form or passed
    to [flash]; the two nesting messages carry the project's date. *)
Inductive Error :=
  | ProjectNameExists (project_name : string)
  | MilestoneStartBeforeProjectStart (project_start_date : date)
  | MilestoneEndAfterProjectEnd (project_end_date : date)
  | MilestoneStartAfterEnd
  | ProjectStartAfterEnd
  | ProjectEndBeforeStart.

(** The specification's three kinds of validation failure. *)
Inductive ErrorKind := NestingViolation | RangeViolation | UniquenessViolation.

Definition error_kind (e : Error) : ErrorKind :=
  match e with
  | ProjectNameExists _ => UniquenessViolation
  | MilestoneStartBeforeProjectStart _ | MilestoneEndAfterProjectEnd _ => NestingViolation
  | MilestoneStartAfterEnd | ProjectStartAfterEnd | ProjectEndBeforeStart => RangeViolation
  end.

(** The counters handed to [dashboard.html]. *)
Record DashboardStats := mkStats {
  active_projects : Z;
  overdue_count : Z;
  completed_milestones : Z;
  pending_milestones : Z
}.

(** What a view function returns (or raises). *)
Inductive Response :=
  | redirect (endpoint : string) (id : option Z)
  | render_template (template : string) (error : option Error)
  | render_view_project (completed_milestones total_milestones completion_percentage : Z)
  | render_dashboard (total_projects : Z) (stats : DashboardStats)
  | abort (code : Z)
  | raise (exception : string).

(** A view function: it runs on the session and either leaves early
    with a response ([return] in the middle of the body, [abort], an
    uncaught exception) or goes on with a value. *)
Definition View (A : Type) : Type := Session -> (Response + A) * Session.

#[global] Instance View_ret : MRet View := fun A (a : A) (s : Session) => (inr a, s).

#[global] Instance View_bind : MBind View :=
  fun A B (k : A -> View B) (c : View A) (s : Session) =>
    match c s with
    | (inl r, s') => (inl r, s')
    | (inr a, s') => k a s'
    end.

Definition leave {A : Type} (r : Response) : View A := fun s => (inl r, s).

(** [for x in xs: body], with the local variables the body assigns
    threaded through as [acc]. *)
Fixpoint for_each {A L : Type} (xs : list A) (acc : L) (body : A -> L -> View L) : View L :=
  match xs with
  | [] => mret acc
  | x :: xs' => acc' ← body x acc; for_each xs' acc' body
  end.

(** A request starts on a session that mirrors the store; when it ends
    the session is removed, so what was not committed is dropped. *)
Definition serve (view : View Response) (db : Database) : Response * Database :=
  let '(r, s) := view (mkSession db db) in
  (match r with inl r => r | inr r => r end, store s).

(** [db.session.commit()] *)
Definition commit : View unit := fun s => (inr tt, mkSession (objects s) (objects s)).

(** [Project.query.get_or_404(id)], [Milestone.query.get_or_404(id)] *)
Definition Project_get_or_404 (id : Z) : View Project.t := fun s =>
  match projects (objects s) !! id with
  | Some p => (inr p, s)
  | None => (inl (abort 404), s)
  end.

Definition Milestone_get_or_404 (id : Z) : View Milestone.t := fun s =>
  match milestones (objects s) !! id with
  | Some m => (inr m, s)
  | None => (inl (abort 404), s)
  end.

(** [Project.query.all()], as the rows with their keys. *)
Definition Project_query_all : View (list (Z * Project.t)) := fun s =>
  (inr (map_to_list (projects (objects s))), s).

(** [project.milestones]: the rows of the milestone table whose
    [project_id] is the project's [id]. *)
Definition Project_milestones (db : Database) (project_id : Z) : list (Z * Milestone.t) :=
  List.filter (fun km => Milestone.project_id km.2 =? project_id) (map_to_list (milestones db)).

Definition milestones_of (project_id : Z) : View (list (Z * Milestone.t)) := fun s =>
  (inr (Project_milestones (objects s) project_id), s).

(** The row of least primary key among [rows].  A query with no
    [ORDER BY] on a table with no index on the filtered column is
    answered by SQLite with a scan of the table in [id] order, so
    [.first()] is the matching row of least [id]. *)
Fixpoint first_row {A : Type} (rows : list (Z * A)) : option (Z * A) :=
  match rows with
  | [] => None
  | row :: rest =>
      match first_row rest with
      | Some best => if best.1 <? row.1 then Some best else Some row
      | None => Some row
      end
  end.

(** [Project.query.filter_by(project_name=name).first()] *)
Definition Project_first_by_name (db : Database) (name : string) : option (Z * Project.t) :=
  first_row (List.filter (fun kp => String.eqb (Project.project_name kp.2) name)
               (map_to_list (projects db))).

Definition filter_by_project_name (name : string) : View (option (Z * Project.t)) := fun s =>
  (inr (Project_first_by_name (objects s) name), s).

(** An assignment [project.attr = v] or [milestone.attr = v] on the
    object with key [id]. *)
Definition assign_project (id : Z) (f : Project.t -> Project.t) : View unit := fun s =>
  (inr tt, mkSession (store s)
             (mkDatabase (alter f id (projects (objects s))) (milestones (objects s)))).

Definition assign_milestone (id : Z) (f : Milestone.t -> Milestone.t) : View unit := fun s =>
  (inr tt, mkSession (store s)
             (mkDatabase (projects (objects s)) (alter f id (milestones (objects s))))).

(** The key the store gives a new row: one more than the largest. *)
Definition next_id {A : Type} (table : gmap Z A) : Z :=
  1 + map_fold (fun k _ acc => Z.max k acc) 0 table.

(** [db.session.add(row)] *)
Definition add_project_row (p : Project.t) : View unit := fun s =>
  (inr tt, mkSession (store s)
             (mkDatabase (<[next_id (projects (objects s)) := p]> (projects (objects s)))
                (milestones (objects s)))).

Definition add_milestone_row (m : Milestone.t) : View unit := fun s =>
  (inr tt, mkSession (store s)
             (mkDatabase (projects (objects s))
                (<[next_id (milestones (objects s)) := m]> (milestones (objects s))))).

(** ** Requests *)

(** [request.method] with [request.form]; anything that is not a POST
    takes the views' last line. *)
Inductive Request (F : Type) := GET | POST (form : F).
Arguments GET {F}.
Arguments POST {F} form.

(** The fields of the project forms. A date field holds what
    [datetime.strptime(text, '%Y-%m-%d').date()] gives, [None] when it
    raises [ValueError]. *)
Record ProjectForm := mkProjectForm {
  form_project_name : string;
  form_client_name : string;
  form_start_date : option date;
  form_end_date : option date
}.

(** The fields of the milestone forms; [priority] may be absent. *)
Record MilestoneForm := mkMilestoneForm {
  form_milestonename : string;
  form_startdate : option date;
  form_enddate : option date;
  form_status : string;
  form_priority : option string
}.

Definition strptime (field : option date) : View date :=
  match field with
  | Some d => mret d
  | None => leave (raise "ValueError")
  end.

(** An [int] or [round] that raised on a value that is not finite. *)
Definition or_raise (x : option Z) : View Z :=
  match x with
  | Some v => mret v
  | None => leave (raise "OverflowError")
  end.

(** [flash(message, category)].  [flash] stores the message in Flask's
    session; the application never sets [secret_key], so the session is
    the null session, whose item assignment raises [RuntimeError]. *)
Definition flash (message : Error) (category : string) : View unit :=
  leave (raise "RuntimeError").

(** ** The routes *)

Section Routes.

(** [text.strip().title()], the two built-in string methods. *)
Variable strip_title : string -> string.

(** [to_title_case(text)] (lines 20-24) *)
Definition to_title_case (text : string) : string :=
  if String.eqb text "" then text else strip_title text.

(** The body of the first loop of [dashboard] (lines 116-124). *)
Definition dashboard_update_status (today : date) (row : Z * Project.t) (_ : unit)
    : View unit :=
  let '(id, project) := row in
  if negb (String.eqb (Project.status project) "Completed") then
    if Project.end_date project <? today then
      assign_project id (Project.set_status "Overdue")
    else if Project.start_date project <=? today then
      assign_project id (Project.set_status "In Progress")
    else
      assign_project id (Project.set_status "Not Started")
  else mret tt.

(** The body of the loop over a project's milestones (lines 137-145). *)
Definition dashboard_count_milestone (today : date) (row : Z * Milestone.t)
    (stats : DashboardStats) : View DashboardStats :=
  let '(mid, milestone) := row in
  let stats :=
    if String.eqb (Milestone.status milestone) "Completed" then
      mkStats (active_projects stats) (overdue_count stats)
        (completed_milestones stats + 1) (pending_milestones stats)
    else
      mkStats (active_projects stats) (overdue_count stats)
        (completed_milestones stats) (pending_milestones stats + 1) in
  (if (Milestone.end_date milestone <? today)
      && negb (String.eqb (Milestone.status milestone) "Completed")
   then assign_milestone mid (Milestone.set_status "Overdue")
   else mret tt);;
  mret stats.

(** The body of the second loop of [dashboard] (lines 128-147). *)
Definition dashboard_count_project (today : date) (row : Z * Project.t)
    (stats : DashboardStats) : View DashboardStats :=
  let '(id, project) := row in
  let stats :=
    if negb (String.eqb (Project.status project) "Completed") then
      mkStats (active_projects stats + 1) (overdue_count stats)
        (completed_milestones stats) (pending_milestones stats)
    else stats in
  let stats :=
    if String.eqb (Project.status project) "Overdue" then
      mkStats (active_projects stats) (overdue_count stats + 1)
        (completed_milestones stats) (pending_milestones stats)
    else stats in
  project_milestones ← milestones_of id;
  stats ← for_each project_milestones stats (dashboard_count_milestone today);
  commit;;
  mret stats.

(** [dashboard()] (lines 106-156). The second loop runs over the
    objects of the first, which carry the statuses just assigned. *)
Definition dashboard (now : date) : View Response :=
  projects ← Project_query_all;
  let total_projects := Z.of_nat (length projects) in
  let today := now in
  for_each projects tt (dashboard_update_status today);;
  commit;;
  projects ← Project_query_all;
  stats ← for_each projects (mkStats 0 0 0 0) (dashboard_count_project today);
  mret (render_dashboard total_projects stats).

(** [add_project()] (lines 159-189) *)
Definition add_project (request : Request ProjectForm) : View Response :=
  match request with
  | POST form =>
      let project_name := to_title_case (form_project_name form) in
      let client_name := to_title_case (form_client_name form) in
      start_date ← strptime (form_start_date form);
      end_date ← strptime (form_end_date form);
      existing_project ← filter_by_project_name project_name;
      match existing_project with
      | Some _ =>
          flash (ProjectNameExists project_name) "warning";;
          mret (render_template "add_project.html" None)
      | None =>
          add_project_row
            (Project.mk project_name client_name start_date end_date "Not Completed");;
          commit;;
          mret (redirect "dashboard" None)
      end
  | GET => mret (render_template "add_project.html" None)
  end.

(** The loop of [toggle_status] (lines 209-214), with its [break]. *)
Fixpoint all_completed (now today : date) (project_milestones : list (Z * Milestone.t))
    : bool :=
  match project_milestones with
  | [] => true
  | (_, milestone) :: rest =>
      let actual_status := get_milestone_status now milestone (Some today) in
      if negb (String.eqb actual_status "Completed") then false
      else all_completed now today rest
  end.

(** [toggle_status(project_id)] (lines 191-224) *)
Definition toggle_status (now : date) (project_id : Z) : View Response :=
  project ← Project_get_or_404 project_id;
  let today := now in
  (if String.eqb (Project.status project) "Completed" then
     assign_project project_id (Project.set_status "Not Completed");;
     if Project.end_date project <? today then
       assign_project project_id (Project.set_status "Overdue")
     else if Project.start_date project <=? today then
       assign_project project_id (Project.set_status "In Progress")
     else
       assign_project project_id (Project.set_status "Not Started")
   else
     project_milestones ← milestones_of project_id;
     if all_completed now today project_milestones then
       assign_project project_id (Project.set_status "Completed")
     else mret tt);;
  commit;;
  mret (redirect "view_project" (Some project_id)).

(** The body of the loop of [view_project] (lines 235-245). *)
Definition view_project_milestone (now today : date) (row : Z * Milestone.t)
    (completed_milestones_count : Z) : View Z :=
  let '(mid, milestone) := row in
  let actual_status := get_milestone_status now milestone (Some today) in
  (if negb (String.eqb (Milestone.status milestone) actual_status) then
     assign_milestone mid (Milestone.set_status actual_status)
   else mret tt);;
  mret (if String.eqb actual_status "Completed"
        then completed_milestones_count + 1 else completed_milestones_count).

(** [view_project(project_id)] (lines 226-259) *)
Definition view_project (now : date) (project_id : Z) : View Response :=
  project ← Project_get_or_404 project_id;
  let today := now in
  project_milestones ← milestones_of project_id;
  let total_milestones := Z.of_nat (length project_milestones) in
  completed_milestones_count ←
    for_each project_milestones 0 (view_project_milestone now today);
  commit;;
  completion_percentage ←
    or_raise (view_completion_percentage completed_milestones_count total_milestones);
  mret (render_view_project completed_milestones_count total_milestones
          completion_percentage).

(** [add_milestone(project_id)] (lines 263-301) *)
Definition add_milestone (project_id : Z) (request : Request MilestoneForm)
    : View Response :=
  project ← Project_get_or_404 project_id;
  match request with
  | POST form =>
      let milestone_name := to_title_case (form_milestonename form) in
      start_date ← strptime (form_startdate form);
      end_date ← strptime (form_enddate form);
      let status := form_status form in
      let priority := default "Medium" (form_priority form) in
      if start_date <? Project.start_date project then
        leave (render_template "add_milestone.html"
                 (Some (MilestoneStartBeforeProjectStart (Project.start_date project))))
      else if end_date >? Project.end_date project then
        leave (render_template "add_milestone.html"
                 (Some (MilestoneEndAfterProjectEnd (Project.end_date project))))
      else if start_date >? end_date then
        leave (render_template "add_milestone.html" (Some MilestoneStartAfterEnd))
      else
        add_milestone_row
          (Milestone.mk project_id milestone_name start_date end_date status priority);;
        commit;;
        mret (redirect "view_project" (Some project_id))
  | GET => mret (render_template "add_milestone.html" None)
  end.

(** [edit_milestone(milestone_id)] (lines 304-345) *)
Definition edit_milestone (milestone_id : Z) (request : Request MilestoneForm)
    : View Response :=
  milestone ← Milestone_get_or_404 milestone_id;
  let project_id := Milestone.project_id milestone in
  project ← Project_get_or_404 project_id;
  match request with
  | POST form =>
      let old_status := Milestone.status milestone in
      assign_milestone milestone_id
        (Milestone.set_milestone_name (to_title_case (form_milestonename form)));;
      start_date ← strptime (form_startdate form);
      end_date ← strptime (form_enddate form);
      let new_status := form_status form in
      assign_milestone milestone_id
        (Milestone.set_priority (default "Medium" (form_priority form)));;
      if start_date <? Project.start_date project then
        leave (render_template "edit_milestone.html"
                 (Some (MilestoneStartBeforeProjectStart (Project.start_date project))))
      else if end_date >? Project.end_date project then
        leave (render_template "edit_milestone.html"
                 (Some (MilestoneEndAfterProjectEnd (Project.end_date project))))
      else if start_date >? end_date then
        leave (render_template "edit_milestone.html" (Some MilestoneStartAfterEnd))
      else
        assign_milestone milestone_id (Milestone.set_start_date start_date);;
        assign_milestone milestone_id (Milestone.set_end_date end_date);;
        assign_milestone milestone_id (Milestone.set_status new_status);;
        commit;;
        (if String.eqb old_status "Completed" && negb (String.eqb new_status "Completed")
         then
           assign_project project_id (Project.set_status "Not Completed");;
           commit
         else mret tt);;
        mret (redirect "view_project" (Some project_id))
  | GET => mret (render_template "edit_milestone.html" None)
  end.

(** [edit_project(project_id)] (lines 348-388) *)
Definition edit_project (project_id : Z) (request : Request ProjectForm)
    : View Response :=
  project ← Project_get_or_404 project_id;
  match request with
  | POST form =>
      let new_project_name := to_title_case (form_project_name form) in
      let new_client_name := to_title_case (form_client_name form) in
      (if negb (String.eqb new_project_name (Project.project_name project)) then
         existing_project ← filter_by_project_name new_project_name;
         match existing_project with
         | Some _ =>
             flash (ProjectNameExists new_project_name) "warning";;
             leave (render_template "edit_project.html"
                      (Some (ProjectNameExists new_project_name)))
         | None => mret tt
         end
       else mret tt);;
      assign_project project_id (Project.set_project_name new_project_name);;
      assign_project project_id (Project.set_client_name new_client_name);;
      start_date ← strptime (form_start_date form);
      end_date ← strptime (form_end_date form);
      if start_date >? end_date then
        leave (render_template "edit_project.html" (Some ProjectStartAfterEnd))
      else if end_date <? start_date then
        leave (render_template "edit_project.html" (Some ProjectEndBeforeStart))
      else
        assign_project project_id (Project.set_start_date start_date);;
        assign_project project_id (Project.set_end_date end_date);;
        commit;;
        mret (redirect "view_project" (Some project_id))
  | GET => mret (render_template "edit_project.html" None)
  end.

(** The create and edit operations, as the URL map routes them. *)
Inductive WriteOperation :=
  | AddProject (request : Request ProjectForm)
  | EditProject (project_id : Z) (request : Request ProjectForm)
  | AddMilestone (project_id : Z) (request : Request MilestoneForm)
  | EditMilestone (milestone_id : Z) (request : Request MilestoneForm).

Definition route (op : WriteOperation) : View Response :=
  match op with
  | AddProject request => add_project request
  | EditProject project_id request => edit_project project_id request
  | AddMilestone project_id request => add_milestone project_id request
  | EditMilestone milestone_id request => edit_milestone milestone_id request
  end.

End Routes.

(** ** Reference definitions of the specification *)

(** The automatic rule for a project's status. *)
Definition automatic_status_spec (project : Project.t) (today : date) : string :=
  if decide (today > Project.end_date project) then "Overdue"
  else if decide (Project.start_date project <= today) then "In Progress"
  else "Not Started".

(** The automatic rule applied to a stored project: a Completed project
    is skipped. *)
Definition recompute_project (today : date) (project : Project.t) : Project.t :=
  if decide (Project.status project = "Completed") then project
  else Project.set_status (automatic_status_spec project today) project.

(** Write-time validation of a milestone's dates against its project:
    the three checks in their fixed order, the first failure reported. *)
Definition milestone_validation_spec (project : Project.t) (start_date end_date : date)
    : option Error :=
  if decide (start_date < Project.start_date project) then
    Some (MilestoneStartBeforeProjectStart (Project.start_date project))
  else if decide (end_date > Project.end_date project) then
    Some (MilestoneEndAfterProjectEnd (Project.end_date project))
  else if decide (start_date > end_date) then
    Some MilestoneStartAfterEnd
  else None.

(** ** Worked data *)

(** [str.strip().title()] on ASCII text, for the worked requests. *)
Definition is_ascii_lower (c : ascii) : bool :=
  let n := N_of_ascii c in (97 <=? n)%N && (n <=? 122)%N.
Definition is_ascii_upper (c : ascii) : bool :=
  let n := N_of_ascii c in (65 <=? n)%N && (n <=? 90)%N.
Definition is_ascii_space (c : ascii) : bool :=
  let n := N_of_ascii c in
  ((9 <=? n)%N && (n <=? 13)%N) || ((28 <=? n)%N && (n <=? 32)%N).

Fixpoint lstrip (s : string) : string :=
  match s with
  | String c rest => if is_ascii_space c then lstrip rest else s
  | EmptyString => s
  end.

Fixpoint title_from (previous_is_cased : bool) (s : string) : string :=
  match s with
  | EmptyString => EmptyString
  | String c rest =>
      if is_ascii_lower c then
        String (if previous_is_cased then c else ascii_of_N (N_of_ascii c - 32))
          (title_from true rest)
      else if is_ascii_upper c then
        String (if previous_is_cased then ascii_of_N (N_of_ascii c + 32) else c)
          (title_from true rest)
      else String c (title_from false rest)
  end.

Definition ascii_strip_title (s : string) : string :=
  title_from false (String.rev (lstrip (String.rev (lstrip s)))).

(** 2024-01-01, 2024-06-30, 2024-08-01 and 2024-12-31 as ordinals. *)
Definition d2024_01_01 : date := 738886.
Definition d2024_06_30 : date := 739067.
Definition d2024_08_01 : date := 739099.
Definition d2024_12_31 : date := 739251.

Definition project_P : Project.t :=
  Project.mk "Acme Site" "Acme Corp" d2024_01_01 d2024_12_31 "In Progress".

Definition milestone_M : Milestone.t :=
  Milestone.mk 1 "Design" d2024_01_01 d2024_06_30 "In Progress" "Medium".

Definition milestone_done : Milestone.t :=
  Milestone.mk 1 "Kickoff" d2024_01_01 d2024_06_30 "Completed" "High".

(** One project with an unfinished and a finished milestone. *)
Definition db_one : Database :=
  mkDatabase {[ 1 := project_P ]} (<[ 2 := milestone_done ]> {[ 1 := milestone_M ]}).

(** One project, no milestone. *)
Definition db_bare : Database := mkDatabase {[ 1 := project_P ]} ∅.

(** A finished project with its one milestone finished. *)
Definition project_finished : Project.t :=
  Project.mk "Acme Launch" "Acme Corp" d2024_01_01 d2024_06_30 "Completed".

Definition db_finished : Database :=
  mkDatabase {[ 1 := project_finished ]} {[ 1 := milestone_done ]}.

(** The empty store. *)
Definition db_empty : Database := mkDatabase ∅ ∅.

(** Fifty milestones of one project, twenty-nine of them completed. *)
Definition fifty_milestones : list Milestone.t :=
  repeat milestone_done 29 ++ repeat milestone_M 21.

(** A project form whose dates are the wrong way round. *)
Definition form_backwards : ProjectForm :=
  mkProjectForm "  late project " "acme corp" (Some d2024_12_31) (Some d2024_01_01).

(** A milestone form that starts the day before [project_P] does. *)
Definition form_too_early : MilestoneForm :=
  mkMilestoneForm "design review" (Some (d2024_01_01 - 1)) (Some d2024_06_30)
    "Not Started" (Some "Low").

(** A milestone form inside [project_P], reopening the milestone. *)
Definition form_reopen : MilestoneForm :=
  mkMilestoneForm "kickoff" (Some d2024_01_01) (Some d2024_06_30) "In Progress" None.

(** Two projects, and a project form that carries the name of the
    first in another case. *)
Definition db_pair : Database :=
  mkDatabase {[ 1 := project_P; 2 := project_finished ]} {[ 1 := milestone_done ]}.

Definition form_rename : ProjectForm :=
  mkProjectForm "acme SITE" "acme corp" (Some d2024_01_01) (Some d2024_06_30).

(** Three projects, the last two of one name. *)
Definition db_namesakes : Database :=
  mkDatabase {[ 1 := project_finished; 2 := project_P; 3 := project_P ]} ∅.

(** ** The deleting routes, the status route and the name check *)

(** [db.session.delete(milestone)] *)
Definition delete_milestone_row (id : Z) : View unit := fun s =>
  (inr tt, mkSession (store s)
             (mkDatabase (projects (objects s)) (delete id (milestones (objects s))))).

(** [db.session.delete(project)]: the relationship of line 78 cascades
    ['all, delete-orphan'], so the project's milestones are deleted
    with it. *)
Definition delete_project_row (id : Z) : View unit := fun s =>
  (inr tt, mkSession (store s)
             (mkDatabase (delete id (projects (objects s)))
                (filter (fun km => Milestone.project_id km.2 <> id)
                   (milestones (objects s))))).

(** [delete_project(project_id)] (lines 511-516) *)
Definition delete_project (project_id : Z) : View Response :=
  project ← Project_get_or_404 project_id;
  delete_project_row project_id;;
  commit;;
  mret (redirect "dashboard" None).

(** [delete_milestone(milestone_id)] (lines 519-525) *)
Definition delete_milestone (milestone_id : Z) : View Response :=
  milestone ← Milestone_get_or_404 milestone_id;
  let project_id := Milestone.project_id milestone in
  delete_milestone_row milestone_id;;
  commit;;
  mret (redirect "view_project" (Some project_id)).

(** [update_milestone_status(milestone_id)] (lines 572-579);
    [status] is [request.form.get('status')]. *)
Definition update_milestone_status (milestone_id : Z) (status : option string)
    : View Response :=
  milestone ← Milestone_get_or_404 milestone_id;
  let new_status := status in
  (match new_status with
   | Some v =>
       if negb (String.eqb v "") then
         assign_milestone milestone_id (Milestone.set_status v);;
         commit
       else mret tt
   | None => mret tt
   end);;
  mret (redirect "view_project" (Some (Milestone.project_id milestone))).

(** The JSON of [check_project_exists]: [exists] with the name in the
    message and the id, or [{'exists': False}]. *)
Inductive ExistsReply :=
  | exists_true (project_name_title : string) (project_id : Z)
  | exists_false.

(** [check_project_exists()] (lines 488-505); [name] is
    [request.args.get('name', '')] before the default. *)
Definition check_project_exists (strip_title : string -> string) (name : option string)
    : View ExistsReply :=
  let project_name := default "" name in
  if negb (String.eqb project_name "") then
    let project_name_title := to_title_case strip_title project_name in
    existing_project ← filter_by_project_name project_name_title;
    match existing_project with
    | Some (id, _) => mret (exists_true project_name_title id)
    | None => mret exists_false
    end
  else mret exists_false.

(** The modelled routes of the URL map. *)
Inductive Operation :=
  | Dashboard
  | ToggleStatus (project_id : Z)
  | ViewProject (project_id : Z)
  | Write (op : WriteOperation)
  | DeleteProject (project_id : Z)
  | DeleteMilestone (milestone_id : Z)
  | UpdateMilestoneStatus (milestone_id : Z) (status : option string).

Definition app (strip_title : string -> string) (now : date) (op : Operation)
    : View Response :=
  match op with
  | Dashboard => dashboard now
  | ToggleStatus project_id => toggle_status now project_id
  | ViewProject project_id => view_project now project_id
  | Write op => route strip_title op
  | DeleteProject project_id => delete_project project_id
  | DeleteMilestone milestone_id => delete_milestone milestone_id
  | UpdateMilestoneStatus milestone_id status => update_milestone_status milestone_id status
  end.

(** ** Reference forms of the stored effects *)

(** The position of a derived status in a milestone's life. *)
Definition status_rank (s : string) : Z :=
  if String.eqb s "Not Started" then 0
  else if String.eqb s "In Progress" then 1
  else if String.eqb s "Overdue" then 2
  else 3.

(** What [view_project] stores for a milestone: its derived status. *)
Definition refresh_milestone (now today : date) (m : Milestone.t) : Milestone.t :=
  Milestone.set_status (get_milestone_status now m (Some today)) m.

(** What [dashboard] stores for a milestone it visits (lines 144-145). *)
Definition flag_overdue (today : date) (m : Milestone.t) : Milestone.t :=
  if (Milestone.end_date m <? today) && negb (String.eqb (Milestone.status m) "Completed")
  then Milestone.set_status "Overdue" m
  else m.

(** Every milestone has its project. *)
Definition referential_integrity (db : Database) : Prop :=
  forall mid m, milestones db !! mid = Some m ->
                is_Some (projects db !! Milestone.project_id m).

(** No two projects share a name. *)
Definition unique_project_names (db : Database) : Prop :=
  forall i j p q, projects db !! i = Some p -> projects db !! j = Some q ->
                  Project.project_name p = Project.project_name q -> i = j.

(** Every milestone lies within its project, start before end. *)
Definition nested_in (project : Project.t) (m : Milestone.t) : Prop :=
  Project.start_date project <= Milestone.start_date m
  /\ Milestone.start_date m <= Milestone.end_date m
  /\ Milestone.end_date m <= Project.end_date project.

(** The expression of [calculate_completion_percentage] on the two
    counts. *)
Definition truncated_percentage (completed total : Z) : option Z :=
  py_int (float_mul_int (int_truediv completed total) 100).

(** Both percentages against the exact quotient [100 * c / t]: the
    truncated one is its floor or one less and lies in 0..100, the
    rounded one is a nearest integer. *)
Definition percentage_close (c t : Z) : bool :=
  match truncated_percentage c t, view_completion_percentage c t with
  | Some a, Some b =>
      ((a =? 100 * c / t) || (a =? 100 * c / t - 1))
      && (0 <=? a) && (a <=? 100)
      && (Z.abs (2 * (b * t - 100 * c)) <=? t)
  | _, _ => false
  end.

(** [percentage_close] for every [c <= t] with [t] from 1 to [bound]. *)
Definition percentage_close_upto (bound : nat) : bool :=
  forallb (fun t => forallb (fun c => percentage_close (Z.of_nat c) (Z.of_nat t))
                      (seq 0 (S t)))
    (seq 1 bound).

(** The row a route looks up first is not in the store. *)
Definition target_missing (db : Database) (op : Operation) : Prop :=
  match op with
  | Dashboard | Write (AddProject _) => False
  | ToggleStatus id | ViewProject id | DeleteProject id
  | Write (EditProject id _) | Write (AddMilestone id _) =>
      projects db !! id = None
  | DeleteMilestone id | UpdateMilestoneStatus id _ =>
      milestones db !! id = None
  | Write (EditMilestone id _) =>
      match milestones db !! id with
      | None => True
      | Some m => projects db !! Milestone.project_id m = None
      end
  end.

(** The routes that store derived statuses while they render a page. *)
Definition is_page (op : Operation) : bool :=
  match op with
  | Dashboard | ViewProject _ => true
  | _ => false
  end.

(** ** The ways the store changes *)

(** No project of the table has the name. *)
Definition name_free (P : gmap Z Project.t) (name : string) : Prop :=
  forall j q, P !! j = Some q -> Project.project_name q <> name.

(** A uniqueness violation, as the routes look for it: the submitted
    name, normalised, is the name of a stored project [q]; on an edit,
    of a project that exists, it is also not that project's own name,
    so that [q] is another project. *)
Definition uniqueness_violation (strip_title : string -> string) (db : Database)
    (op : WriteOperation) : Prop :=
  match op with
  | AddProject (POST form) =>
      exists j q,
        projects db !! j = Some q
        /\ Project.project_name q = to_title_case strip_title (form_project_name form)
  | EditProject project_id (POST form) =>
      exists project j q,
        projects db !! project_id = Some project
        /\ to_title_case strip_title (form_project_name form) <> Project.project_name project
        /\ projects db !! j = Some q
        /\ Project.project_name q = to_title_case strip_title (form_project_name form)
  | _ => False
  end.

(** The same keys, and under each key a project of the same name. *)
Definition same_names (P P' : gmap Z Project.t) : Prop :=
  forall j, match P' !! j, P !! j with
            | Some p', Some p => Project.project_name p' = Project.project_name p
            | None, None => True
            | _, _ => False
            end.

(** The same keys, and under each key a milestone of the same project. *)
Definition same_parents (M M' : gmap Z Milestone.t) : Prop :=
  forall k, match M' !! k, M !! k with
            | Some m', Some m => Milestone.project_id m' = Milestone.project_id m
            | None, None => True
            | _, _ => False
            end.

(** One request takes the store from the first state to the second in
    one of these ways, or in several of them one after the other. *)
Inductive Effect : Database -> Database -> Prop :=
  | Effect_none db :
      Effect db db
  | Effect_projects_kept db P' :
      same_names (projects db) P' ->
      Effect db (mkDatabase P' (milestones db))
  | Effect_milestones_kept db M' :
      same_parents (milestones db) M' ->
      Effect db (mkDatabase (projects db) M')
  | Effect_project_edited db id p p' :
      projects db !! id = Some p ->
      Project.project_name p' = Project.project_name p
      \/ name_free (projects db) (Project.project_name p') ->
      Effect db (mkDatabase (<[id := p']> (projects db)) (milestones db))
  | Effect_project_added db id p :
      projects db !! id = None ->
      name_free (projects db) (Project.project_name p) ->
      Effect db (mkDatabase (<[id := p]> (projects db)) (milestones db))
  | Effect_milestone_added db k m :
      milestones db !! k = None ->
      is_Some (projects db !! Milestone.project_id m) ->
      Effect db (mkDatabase (projects db) (<[k := m]> (milestones db)))
  | Effect_project_deleted db id :
      Effect db (mkDatabase (delete id (projects db))
                   (filter (fun km => Milestone.project_id km.2 <> id) (milestones db)))
  | Effect_milestone_deleted db k :
      Effect db (mkDatabase (projects db) (delete k (milestones db)))
  | Effect_then db db1 db2 :
      Effect db db1 -> Effect db1 db2 -> Effect db db2.

(** ** The counters of the dashboard, replayed without the store *)

(** The counting of one milestone (lines 138-141). *)
Definition tally_milestone (m : Milestone.t) (stats : DashboardStats) : DashboardStats :=
  if String.eqb (Milestone.status m) "Completed" then
    mkStats (active_projects stats) (overdue_count stats)
      (completed_milestones stats + 1) (pending_milestones stats)
  else
    mkStats (active_projects stats) (overdue_count stats)
      (completed_milestones stats) (pending_milestones stats + 1).

(** The counting of one project and its milestones (lines 130-141). *)
Definition tally_project (db : Database) (stats : DashboardStats) (row : Z * Project.t)
    : DashboardStats :=
  let stats :=
    if negb (String.eqb (Project.status row.2) "Completed") then
      mkStats (active_projects stats + 1) (overdue_count stats)
        (completed_milestones stats) (pending_milestones stats)
    else stats in
  let stats :=
    if String.eqb (Project.status row.2) "Overdue" then
      mkStats (active_projects stats) (overdue_count stats + 1)
        (completed_milestones stats) (pending_milestones stats)
    else stats in
  foldl (fun a (r : Z * Milestone.t) => tally_milestone r.2 a) stats
    (Project_milestones db row.1).

(** The number of rows of a list that pass a test. *)
Definition count_rows {A : Type} (test : A -> bool) (l : list A) : Z :=
  Z.of_nat (length (List.filter test l)).

(** The number of rows of a table with a property. *)
Definition count_where {A : Type} (Q : Z * A -> Prop) `{!forall x, Decision (Q x)}
    (table : gmap Z A) : Z :=
  Z.of_nat (size (filter Q table)).

(** A Completed project has only Completed milestones. *)
Definition completion_consistent (db : Database) : Prop :=
  forall id p mid m,
    projects db !! id = Some p -> Project.status p = "Completed" ->
    milestones db !! mid = Some m -> Milestone.project_id m = id ->
    Milestone.status m = "Completed".

(** The routes that write a milestone's status without looking at its
    project. *)
Definition writes_status_unchecked (op : Operation) : bool :=
  match op with
  | Write (AddMilestone _ _) | UpdateMilestoneStatus _ _ => true
  | _ => false
  end.

(** * Properties *)

(** ** Milestone status *)

Lemma eqb_string_decide (a b : string) :
  String.eqb a b = bool_decide (a = b).
Proof.
  destruct (String.eqb_spec a b) as [E | E].
  - by rewrite bool_decide_eq_true_2.
  - by rewrite bool_decide_eq_false_2.
Qed.

(** C1. For every milestone and reference date, [get_milestone_status]
    returns the effective status of the three-rule reference
    definition: Completed stays Completed; In Progress is Overdue past
    the end date and In Progress otherwise; any other stored status is
    Not Started before the start date, Overdue past the end date and
    In Progress in between. *)
Theorem get_milestone_status_refines_spec (now : date) (milestone : Milestone.t)
    (today : date) :
  get_milestone_status now milestone (Some today)
  = status_label
      (effective_status_spec (Milestone.status milestone)
         (Milestone.start_date milestone) (Milestone.end_date milestone) today).
Proof.
  unfold get_milestone_status, effective_status_spec.
  rewrite !eqb_string_decide.
  destruct (decide (Milestone.status milestone = "Completed")) as [Hc | Hc].
  { by rewrite bool_decide_eq_true_2. }
  rewrite (bool_decide_eq_false_2 _ Hc).
  destruct (decide (Milestone.status milestone = "In Progress")) as [Hp | Hp].
  { rewrite (bool_decide_eq_true_2 _ Hp).
    destruct (Z.ltb_spec (Milestone.end_date milestone) today);
      destruct (decide (today > Milestone.end_date milestone)); try lia; reflexivity. }
  rewrite (bool_decide_eq_false_2 _ Hp).
  destruct (Z.ltb_spec today (Milestone.start_date milestone));
    destruct (decide (today < Milestone.start_date milestone)); try lia; try reflexivity.
  rewrite Z.gtb_ltb.
  destruct (Z.ltb_spec (Milestone.end_date milestone) today);
    destruct (decide (today > Milestone.end_date milestone)); try lia; reflexivity.
Qed.

(** The scenario of the specification: an In Progress milestone that
    ended on 2024-06-30 is Overdue on 2024-08-01. *)
Example get_milestone_status_scenario :
  get_milestone_status d2024_08_01 milestone_M (Some d2024_08_01) = "Overdue"
  /\ get_milestone_status d2024_08_01 milestone_M None = "Overdue".
Proof. split; reflexivity. Qed.

(** The derivation returns Completed exactly for a stored Completed. *)
Lemma get_milestone_status_completed (now : date) (milestone : Milestone.t)
    (today : option date) :
  get_milestone_status now milestone today = "Completed"
  <-> Milestone.status milestone = "Completed".
Proof.
  unfold get_milestone_status.
  destruct (String.eqb_spec (Milestone.status milestone) "Completed") as [E | E].
  - tauto.
  - split; [| tauto].
    repeat match goal with |- context [if ?b then _ else _] => destruct b end;
      discriminate.
Qed.

(** C4. For a milestone whose start date is not after its end date, any
    stored status and any reference date, storing the derived status
    back and deriving again at the same date gives the same status. *)
Theorem get_milestone_status_fixed_point (now : date) (milestone : Milestone.t)
    (today : date) :
  Milestone.start_date milestone <= Milestone.end_date milestone ->
  get_milestone_status now
    (Milestone.set_status (get_milestone_status now milestone (Some today)) milestone)
    (Some today)
  = get_milestone_status now milestone (Some today).
Proof.
  intros Hrange.
  destruct milestone as [pid name sd ed st pr]. simpl in Hrange.
  unfold get_milestone_status, Milestone.set_status. simpl.
  rewrite Z.gtb_ltb.
  destruct (String.eqb st "Completed"); simpl; [reflexivity |].
  destruct (String.eqb st "In Progress"); simpl.
  - destruct (Z.ltb_spec ed today) as [Hl | Hl]; simpl.
    + destruct (Z.ltb_spec today sd); [lia |].
      destruct (Z.ltb_spec ed today); [reflexivity | lia].
    + destruct (Z.ltb_spec ed today); [lia | reflexivity].
  - destruct (Z.ltb_spec today sd) as [Hs | Hs]; simpl.
    + destruct (Z.ltb_spec today sd); [reflexivity | lia].
    + destruct (Z.ltb_spec ed today) as [He | He]; simpl.
      * destruct (Z.ltb_spec today sd); [lia |].
        destruct (Z.ltb_spec ed today); [reflexivity | lia].
      * destruct (Z.ltb_spec ed today); [lia | reflexivity].
Qed.

Lemma get_milestone_status_fixed_point_witness :
  Milestone.start_date milestone_M <= Milestone.end_date milestone_M
  /\ get_milestone_status d2024_08_01
       (Milestone.set_status
          (get_milestone_status d2024_08_01 milestone_M (Some d2024_08_01)) milestone_M)
       (Some d2024_08_01)
     = get_milestone_status d2024_08_01 milestone_M (Some d2024_08_01).
Proof.
  split.
  - vm_compute. discriminate.
  - apply (get_milestone_status_fixed_point d2024_08_01 milestone_M d2024_08_01).
    vm_compute. discriminate.
Defined.

(** Without the order of the two dates the fixed point fails: stored
    In Progress, end date before start date, today in between. *)
Example get_milestone_status_not_fixed_backwards :
  let m := Milestone.mk 1 "Design" 10 5 "In Progress" "Medium" in
  get_milestone_status 7 m (Some 7) = "Overdue"
  /\ get_milestone_status 7 (Milestone.set_status "Overdue" m) (Some 7) = "Not Started".
Proof. split; reflexivity. Qed.

(** ** The store *)

Lemma alter_as_insert {A : Type} (f : A -> A) (i : Z) (x : A) (m : gmap Z A) :
  m !! i = Some x -> alter f i m = <[i := f x]> m.
Proof.
  intros Hi. apply map_eq. intros j.
  destruct (decide (i = j)) as [-> | Hne].
  - by rewrite lookup_alter_eq, lookup_insert_eq, Hi.
  - by rewrite lookup_alter_ne, lookup_insert_ne.
Qed.

Lemma in_Project_milestones (db : Database) (project_id mid : Z) (m : Milestone.t) :
  In (mid, m) (Project_milestones db project_id)
  <-> milestones db !! mid = Some m /\ Milestone.project_id m = project_id.
Proof.
  unfold Project_milestones. rewrite filter_In. simpl.
  rewrite <- list_elem_of_In, elem_of_map_to_list, Z.eqb_eq. tauto.
Qed.

Lemma all_completed_true (now today : date) (l : list (Z * Milestone.t)) :
  all_completed now today l = true
  <-> forall mid m, In (mid, m) l -> get_milestone_status now m (Some today) = "Completed".
Proof.
  induction l as [| [k m] l IH]; simpl.
  - split; [intros _ ? ? [] | reflexivity].
  - destruct (String.eqb_spec (get_milestone_status now m (Some today)) "Completed")
      as [E | E]; simpl.
    + rewrite IH. split.
      * intros H mid m' [[= <- <-] | Hin]; [exact E | eauto].
      * intros H mid m' Hin. apply (H mid m'). by right.
    + split; [discriminate |].
      intros H. exfalso. apply E, (H k m). by left.
Qed.

(** Running a view: unfold the session's operations and reduce. *)
Ltac run_view :=
  cbv beta iota delta
    [serve mbind mret View_bind View_ret leave commit Project_get_or_404
     Milestone_get_or_404 Project_query_all milestones_of filter_by_project_name
     assign_project assign_milestone add_project_row add_milestone_row strptime or_raise
     flash];
  cbn [store objects projects milestones fst snd negb andb].

(** ** Toggling a project *)

(** What [toggle_status] does to the store of a project that is not
    Completed, by the outcome of its loop. *)
Lemma toggle_status_not_completed (now : date) (db : Database) (project_id : Z)
    (project : Project.t) :
  projects db !! project_id = Some project ->
  Project.status project <> "Completed" ->
  serve (toggle_status now project_id) db
  = (redirect "view_project" (Some project_id),
     if all_completed now now (Project_milestones db project_id)
     then mkDatabase (<[project_id := Project.set_status "Completed" project]> (projects db))
            (milestones db)
     else db).
Proof.
  intros Hp Hs.
  unfold toggle_status. run_view. rewrite Hp.
  destruct (String.eqb_spec (Project.status project) "Completed") as [E | _]; [done |].
  run_view.
  destruct (all_completed now now (Project_milestones db project_id)); run_view.
  - by rewrite (alter_as_insert _ _ _ _ Hp).
  - by destruct db.
Qed.

(** C2. Toggling a project whose stored status is not Completed sets it
    to Completed if and only if every one of its milestones has the
    effective status Completed at today; otherwise the toggle changes
    nothing in the store, and in both cases the caller gets the same
    redirect to the project's page, not an error. *)
Theorem toggle_status_completes_iff_all_completed (now : date) (db : Database) (project_id : Z)
    (project : Project.t) :
  projects db !! project_id = Some project ->
  Project.status project <> "Completed" ->
  let every_milestone_completed :=
    forall mid m, milestones db !! mid = Some m -> Milestone.project_id m = project_id ->
                  get_milestone_status now m (Some now) = "Completed" in
  let response := fst (serve (toggle_status now project_id) db) in
  let db' := snd (serve (toggle_status now project_id) db) in
  response = redirect "view_project" (Some project_id)
  /\ (every_milestone_completed ->
      db' = mkDatabase (<[project_id := Project.set_status "Completed" project]> (projects db))
              (milestones db))
  /\ (~ every_milestone_completed -> db' = db)
  /\ (Project.status <$> projects db' !! project_id = Some "Completed"
      <-> every_milestone_completed).
Proof.
  intros Hp Hs every response db'. subst response db'.
  rewrite (toggle_status_not_completed now db project_id project Hp Hs). simpl.
  assert (Hiff : all_completed now now (Project_milestones db project_id) = true <-> every).
  { rewrite all_completed_true. subst every. split.
    - intros H mid m Hm Hpid. apply (H mid m), in_Project_milestones. done.
    - intros H mid m Hin. apply in_Project_milestones in Hin as [Hm Hpid]. eauto. }
  destruct (all_completed now now (Project_milestones db project_id)).
  - assert (He : every) by (by apply Hiff).
    repeat split; try done.
    simpl. by rewrite lookup_insert_eq.
  - assert (He : ~ every) by (intros He; apply Hiff in He; discriminate).
    repeat split; try done.
    + rewrite Hp. simpl. intros [= E]. done.
Qed.

Lemma toggle_status_completes_iff_all_completed_witness :
  fst (serve (toggle_status d2024_08_01 1) db_one) = redirect "view_project" (Some 1)
  /\ snd (serve (toggle_status d2024_08_01 1) db_one) = db_one.
Proof.
  assert (Hp : projects db_one !! 1 = Some project_P) by reflexivity.
  assert (Hs : Project.status project_P <> "Completed") by (vm_compute; discriminate).
  destruct (toggle_status_completes_iff_all_completed d2024_08_01 db_one 1 project_P Hp Hs)
    as (Hr & _ & Hno & _).
  split; [exact Hr |].
  apply Hno. intros H.
  specialize (H 1 milestone_M eq_refl eq_refl). vm_compute in H. discriminate.
Defined.

(** C9. Toggling a project with no milestones whose stored status is
    not Completed always sets it to Completed: the status stored under
    the project's id afterwards is 'Completed', its other fields and
    every other row are as before, and the caller is redirected to the
    project's page.  The loop over an empty collection finds nothing
    unfinished, although the completion percentage of such a project
    is 0. *)
Theorem toggle_status_no_milestones (now : date) (db : Database) (project_id : Z)
    (project : Project.t) :
  projects db !! project_id = Some project ->
  Project.status project <> "Completed" ->
  Project_milestones db project_id = [] ->
  let response := fst (serve (toggle_status now project_id) db) in
  let db' := snd (serve (toggle_status now project_id) db) in
  response = redirect "view_project" (Some project_id)
  /\ Project.status <$> projects db' !! project_id = Some "Completed"
  /\ db' = mkDatabase
             (<[project_id :=
                  Project.mk (Project.project_name project) (Project.client_name project)
                    (Project.start_date project) (Project.end_date project) "Completed"]>
                (projects db))
             (milestones db)
  /\ calculate_completion_percentage (Project_milestones db project_id).*2 = Some 0.
Proof.
  intros Hp Hs Hnil response db'. subst response db'.
  rewrite (toggle_status_not_completed now db project_id project Hp Hs), Hnil.
  cbn [all_completed fst snd projects].
  rewrite lookup_insert_eq. repeat split.
Qed.

Lemma toggle_status_no_milestones_witness :
  Project.status project_P = "In Progress"
  /\ Project.status <$> projects (snd (serve (toggle_status d2024_08_01 1) db_bare)) !! 1
     = Some "Completed"
  /\ snd (serve (toggle_status d2024_08_01 1) db_bare)
     = mkDatabase
         {[ 1 := Project.mk "Acme Site" "Acme Corp" d2024_01_01 d2024_12_31 "Completed" ]} ∅
  /\ calculate_completion_percentage (Project_milestones db_bare 1).*2 = Some 0.
Proof.
  split; [reflexivity |].
  destruct (toggle_status_no_milestones d2024_08_01 db_bare 1 project_P)
    as (_ & Hstatus & Hstore & Hpct).
  - reflexivity.
  - vm_compute. discriminate.
  - reflexivity.
  - split; [exact Hstatus |]. split; [| exact Hpct].
    rewrite Hstore. vm_compute. reflexivity.
Defined.

(** ** Recomputing a project's status *)

Lemma automatic_status_code (project : Project.t) (today : date) :
  (if Project.end_date project <? today then "Overdue"
   else if Project.start_date project <=? today then "In Progress"
   else "Not Started")
  = automatic_status_spec project today.
Proof.
  unfold automatic_status_spec.
  destruct (Z.ltb_spec (Project.end_date project) today);
    destruct (decide (today > Project.end_date project)); try lia; try reflexivity.
  destruct (Z.leb_spec (Project.start_date project) today);
    destruct (decide (Project.start_date project <= today)); try lia; reflexivity.
Qed.

(** One round of the first loop of [dashboard] on a row that the
    session holds. *)
Lemma dashboard_update_status_run (today : date) (id : Z) (project : Project.t)
    (s : Session) :
  projects (objects s) !! id = Some project ->
  dashboard_update_status today (id, project) tt s
  = (inr tt,
     mkSession (store s)
       (mkDatabase (<[id := recompute_project today project]> (projects (objects s)))
          (milestones (objects s)))).
Proof.
  intros Hp. unfold dashboard_update_status, recompute_project.
  rewrite <- automatic_status_code, eqb_string_decide.
  destruct (decide (Project.status project = "Completed")) as [E | E].
  - rewrite (bool_decide_eq_true_2 _ E). run_view. simpl.
    rewrite (insert_id _ _ _ Hp). by destruct s as [? []].
  - rewrite (bool_decide_eq_false_2 _ E). simpl.
    destruct (Project.end_date project <? today);
      [| destruct (Project.start_date project <=? today)];
      run_view; by rewrite (alter_as_insert _ _ _ _ Hp).
Qed.

Lemma dashboard_first_loop (today : date) (l : list (Z * Project.t)) (s : Session) :
  NoDup l.*1 ->
  (forall id p, In (id, p) l -> projects (objects s) !! id = Some p) ->
  exists P' : gmap Z Project.t,
    for_each l tt (dashboard_update_status today) s
    = (inr tt, mkSession (store s) (mkDatabase P' (milestones (objects s))))
    /\ forall i, P' !! i
                 = if decide (i ∈ l.*1)
                   then recompute_project today <$> projects (objects s) !! i
                   else projects (objects s) !! i.
Proof.
  revert s. induction l as [| [k p] l IH]; intros s Hnd Hl.
  - exists (projects (objects s)). split.
    + simpl. run_view. by destruct s as [? []].
    + intros i. rewrite decide_False; [done | apply not_elem_of_nil].
  - rewrite fmap_cons, NoDup_cons in Hnd. destruct Hnd as [Hk Hnd]. simpl in Hk.
    assert (Hp : projects (objects s) !! k = Some p) by (apply Hl; by left).
    cbn [for_each]. unfold mbind at 1, View_bind at 1.
    rewrite (dashboard_update_status_run today k p s Hp).
    destruct (IH (mkSession (store s)
                    (mkDatabase (<[k := recompute_project today p]> (projects (objects s)))
                       (milestones (objects s)))) Hnd) as (P' & Hrun & Hlook).
    { intros id q Hin. simpl. rewrite lookup_insert_ne.
      - apply Hl. by right.
      - intros ->. apply Hk. apply list_elem_of_fmap. exists (id, q).
        split; [done | by apply list_elem_of_In]. }
    exists P'. split; [exact Hrun |].
    intros i. rewrite Hlook. simpl.
    destruct (decide (i = k)) as [-> | Hne].
    + rewrite decide_False by done.
      rewrite decide_True by apply list_elem_of_here.
      by rewrite lookup_insert_eq, Hp.
    + rewrite lookup_insert_ne by done.
      destruct (decide (i ∈ l.*1)) as [Hi | Hi].
      * rewrite decide_True by (by apply list_elem_of_further).
        done.
      * rewrite decide_False; [done |].
        rewrite elem_of_cons. tauto.
Qed.

(** The loops over milestones assign milestones only, and run to their
    end. *)
Lemma dashboard_milestone_loop (today : date) (l : list (Z * Milestone.t))
    (stats : DashboardStats) (s : Session) :
  exists stats' M',
    for_each l stats (dashboard_count_milestone today) s
    = (inr stats', mkSession (store s) (mkDatabase (projects (objects s)) M')).
Proof.
  revert stats s. induction l as [| [k m] l IH]; intros stats s.
  - exists stats, (milestones (objects s)). simpl. run_view. by destruct s as [? []].
  - cbn [for_each]. unfold mbind at 1, View_bind at 1.
    unfold dashboard_count_milestone at 1.
    destruct ((Milestone.end_date m <? today)
              && negb (String.eqb (Milestone.status m) "Completed")); run_view.
    + match goal with |- context [for_each l ?a _ ?s'] =>
        destruct (IH a s') as (stats' & M' & ->) end.
      by exists stats', M'.
    + match goal with |- context [for_each l ?a _ ?s'] =>
        destruct (IH a s') as (stats' & M' & ->) end.
      exists stats', M'. by destruct s as [? []].
Qed.

Lemma dashboard_second_loop (today : date) (l : list (Z * Project.t))
    (stats : DashboardStats) (s : Session) :
  projects (store s) = projects (objects s) ->
  exists stats' s',
    for_each l stats (dashboard_count_project today) s = (inr stats', s')
    /\ projects (store s') = projects (objects s).
Proof.
  revert stats s. induction l as [| [k p] l IH]; intros stats s Hs.
  - exists stats, s. split; [reflexivity | exact Hs].
  - cbn [for_each]. unfold mbind at 1, View_bind at 1.
    unfold dashboard_count_project at 1. run_view.
    match goal with |- context [for_each ?ms ?a (dashboard_count_milestone today) s] =>
      destruct (dashboard_milestone_loop today ms a s) as (st1 & M1 & ->) end.
    run_view.
    match goal with |- context [for_each l ?a _ ?s1] =>
      destruct (IH a s1 eq_refl) as (stats' & s' & -> & Hst) end.
    exists stats', s'. split; [reflexivity | exact Hst].
Qed.

(** The projects [dashboard] leaves in the store. *)
Lemma dashboard_projects (now : date) (db : Database) :
  projects (snd (serve (dashboard now) db)) = recompute_project now <$> projects db.
Proof.
  unfold dashboard. run_view.
  destruct (dashboard_first_loop now (map_to_list (projects db)) (mkSession db db))
    as (P' & -> & Hlook).
  { apply NoDup_fst_map_to_list. }
  { intros id p Hin. simpl. by apply elem_of_map_to_list, list_elem_of_In. }
  run_view.
  match goal with |- context [for_each ?l ?a (dashboard_count_project now) ?s1] =>
    destruct (dashboard_second_loop now l a s1 eq_refl) as (stats' & s' & -> & Hst) end.
  simpl. rewrite Hst. simpl.
  apply map_eq. intros i. rewrite Hlook, lookup_fmap. simpl.
  destruct (decide (i ∈ (map_to_list (projects db)).*1)) as [Hin | Hin]; [done |].
  destruct (projects db !! i) as [p |] eqn:Hp; [| done].
  exfalso. apply Hin. apply list_elem_of_fmap. exists (i, p).
  split; [done | by apply elem_of_map_to_list].
Qed.

(** C3. Whenever a project's status is recomputed automatically, on
    the dashboard pass for a project that is not Completed and when a
    Completed project is toggled, the status stored under the project's
    id afterwards is Overdue if today is past the end date, else
    In Progress if the start date is not after today, else Not Started;
    the other fields of the row stay. *)
Theorem automatic_project_status (now : date) (db : Database) (project_id : Z)
    (project : Project.t) :
  projects db !! project_id = Some project ->
  let automatic :=
    if decide (now > Project.end_date project) then "Overdue"
    else if decide (Project.start_date project <= now) then "In Progress"
    else "Not Started" in
  let recomputed :=
    Project.mk (Project.project_name project) (Project.client_name project)
      (Project.start_date project) (Project.end_date project) automatic in
  (Project.status project <> "Completed" ->
   let db' := snd (serve (dashboard now) db) in
   Project.status <$> projects db' !! project_id = Some automatic
   /\ projects db' !! project_id = Some recomputed)
  /\ (Project.status project = "Completed" ->
      let db' := snd (serve (toggle_status now project_id) db) in
      Project.status <$> projects db' !! project_id = Some automatic
      /\ projects db' !! project_id = Some recomputed).
Proof.
  intros Hp automatic recomputed.
  assert (Hauto : automatic = automatic_status_spec project now) by reflexivity.
  split; intros Hs db'; subst db'.
  - rewrite dashboard_projects, lookup_fmap, Hp. simpl.
    unfold recompute_project. rewrite decide_False by done. by rewrite Hauto.
  - unfold toggle_status. run_view. rewrite Hp, Hs. simpl. run_view.
    subst recomputed. rewrite Hauto, <- automatic_status_code.
    destruct (Project.end_date project <? now);
      [| destruct (Project.start_date project <=? now)];
      run_view; rewrite !lookup_alter_eq, Hp; split; reflexivity.
Qed.

Lemma automatic_project_status_witness :
  (Project.status project_P = "In Progress"
   /\ Project.status <$> projects (snd (serve (dashboard d2024_12_31) db_one)) !! 1
      = Some "In Progress"
   /\ Project.status <$> projects (snd (serve (dashboard (d2024_12_31 + 1)) db_one)) !! 1
      = Some "Overdue"
   /\ Project.status <$> projects (snd (serve (dashboard (d2024_01_01 - 1)) db_one)) !! 1
      = Some "Not Started")
  /\ (Project.status project_finished = "Completed"
      /\ Project.status <$> projects (snd (serve (toggle_status d2024_06_30 1) db_finished)) !! 1
         = Some "In Progress"
      /\ projects (snd (serve (toggle_status d2024_08_01 1) db_finished)) !! 1
         = Some (Project.mk "Acme Launch" "Acme Corp" d2024_01_01 d2024_06_30 "Overdue")).
Proof.
  assert (Hopen : Project.status project_P <> "Completed") by (vm_compute; discriminate).
  split; [split; [reflexivity | split; [| split]] | split; [reflexivity | split]].
  - exact (proj1 (proj1 (automatic_project_status d2024_12_31 db_one 1 project_P
                           eq_refl) Hopen)).
  - exact (proj1 (proj1 (automatic_project_status (d2024_12_31 + 1) db_one 1 project_P
                           eq_refl) Hopen)).
  - exact (proj1 (proj1 (automatic_project_status (d2024_01_01 - 1) db_one 1 project_P
                           eq_refl) Hopen)).
  - exact (proj1 (proj2 (automatic_project_status d2024_06_30 db_finished 1 project_finished
                           eq_refl) eq_refl)).
  - exact (proj2 (proj2 (automatic_project_status d2024_08_01 db_finished 1
                           project_finished eq_refl) eq_refl)).
Defined.

(** ** Write-time validation *)

Lemma milestone_validation_code (project : Project.t) (start_date end_date : date)
    (A : Type) (a b c d : A) :
  (if start_date <? Project.start_date project then a
   else if end_date >? Project.end_date project then b
   else if start_date >? end_date then c
   else d)
  = match milestone_validation_spec project start_date end_date with
    | Some (MilestoneStartBeforeProjectStart _) => a
    | Some (MilestoneEndAfterProjectEnd _) => b
    | Some _ => c
    | None => d
    end.
Proof.
  unfold milestone_validation_spec. rewrite !Z.gtb_ltb.
  destruct (Z.ltb_spec start_date (Project.start_date project));
    destruct (decide (start_date < Project.start_date project)); try lia; try reflexivity.
  destruct (Z.ltb_spec (Project.end_date project) end_date);
    destruct (decide (end_date > Project.end_date project)); try lia; try reflexivity.
  destruct (Z.ltb_spec end_date start_date);
    destruct (decide (start_date > end_date)); try lia; reflexivity.
Qed.

(** C6. Creating or editing a milestone validates in a fixed order and
    reports the first failing check only: start date before the
    project's start date, then end date after the project's end date,
    then start date after end date; a start date equal to the
    project's start date passes the first check.  Creating needs the
    project only, so the first milestone of a project is covered;
    editing is of any milestone of the project. *)
Theorem milestone_validation_order (strip_title : string -> string) (db : Database)
    (project_id : Z) (project : Project.t) (form : MilestoneForm)
    (start_date end_date : date) :
  projects db !! project_id = Some project ->
  form_startdate form = Some start_date ->
  form_enddate form = Some end_date ->
  let outcome (template : string) :=
    match milestone_validation_spec project start_date end_date with
    | Some e => render_template template (Some e)
    | None => redirect "view_project" (Some project_id)
    end in
  fst (serve (add_milestone strip_title project_id (POST form)) db)
  = outcome "add_milestone.html"
  /\ (forall milestone_id milestone,
        milestones db !! milestone_id = Some milestone ->
        Milestone.project_id milestone = project_id ->
        fst (serve (edit_milestone strip_title milestone_id (POST form)) db)
        = outcome "edit_milestone.html")
  /\ (forall e, milestone_validation_spec project start_date end_date = Some e ->
      error_kind e
      = if decide (start_date < Project.start_date project
                   \/ end_date > Project.end_date project)
        then NestingViolation else RangeViolation)
  /\ (start_date = Project.start_date project ->
      forall template d,
        outcome template
        <> render_template template (Some (MilestoneStartBeforeProjectStart d)))
  /\ (start_date = Project.start_date project ->
      start_date <= end_date -> end_date <= Project.end_date project ->
      forall template, outcome template = redirect "view_project" (Some project_id)).
Proof.
  intros Hp Hs He outcome. subst outcome. repeat split.
  - unfold add_milestone. run_view. rewrite Hp, Hs, He. run_view.
    rewrite milestone_validation_code.
    unfold milestone_validation_spec. repeat case_decide; reflexivity.
  - intros milestone_id milestone Hm Hpid.
    unfold edit_milestone. run_view. rewrite Hm. run_view. rewrite Hpid, Hp, Hs, He.
    run_view. rewrite milestone_validation_code.
    unfold milestone_validation_spec. repeat case_decide; try reflexivity.
    destruct (String.eqb (Milestone.status milestone) "Completed"
              && negb (String.eqb (form_status form) "Completed")); reflexivity.
  - intros e. unfold milestone_validation_spec.
    repeat case_decide; intros [= <-]; try reflexivity; tauto.
  - intros -> template d. unfold milestone_validation_spec.
    rewrite decide_False by lia. repeat case_decide; discriminate.
  - intros -> Hle Hin template. unfold milestone_validation_spec.
    by rewrite !decide_False by lia.
Qed.

Lemma milestone_validation_order_witness :
  Project_milestones db_bare 1 = []
  /\ fst (serve (add_milestone ascii_strip_title 1 (POST form_too_early)) db_bare)
     = render_template "add_milestone.html"
         (Some (MilestoneStartBeforeProjectStart d2024_01_01))
  /\ fst (serve (add_milestone ascii_strip_title 1 (POST form_reopen)) db_bare)
     = redirect "view_project" (Some 1)
  /\ fst (serve (edit_milestone ascii_strip_title 2 (POST form_too_early)) db_one)
     = render_template "edit_milestone.html"
         (Some (MilestoneStartBeforeProjectStart d2024_01_01)).
Proof.
  split; [reflexivity |].
  destruct (milestone_validation_order ascii_strip_title db_bare 1 project_P
              form_too_early (d2024_01_01 - 1) d2024_06_30 eq_refl eq_refl eq_refl)
    as (Hadd & _).
  destruct (milestone_validation_order ascii_strip_title db_bare 1 project_P
              form_reopen d2024_01_01 d2024_06_30 eq_refl eq_refl eq_refl)
    as (Hfirst & _ & _ & _ & Hboundary).
  destruct (milestone_validation_order ascii_strip_title db_one 1 project_P
              form_too_early (d2024_01_01 - 1) d2024_06_30 eq_refl eq_refl eq_refl)
    as (_ & Hedit & _).
  split; [exact Hadd |]. split.
  - rewrite Hfirst. apply Hboundary; [reflexivity | vm_compute; discriminate ..].
  - exact (Hedit 2 milestone_done eq_refl eq_refl).
Defined.

(** ** The name lookup *)

(** [first_row] answers with a row exactly when there is one, with a
    row of the list, and with one of least key. *)
Lemma first_row_None {A : Type} (rows : list (Z * A)) :
  first_row rows = None <-> rows = [].
Proof.
  destruct rows as [| row rest]; simpl; [done |].
  split; [| discriminate].
  destruct (first_row rest) as [best |]; [| discriminate].
  destruct (best.1 <? row.1); discriminate.
Qed.

Lemma first_row_In {A : Type} (rows : list (Z * A)) (row : Z * A) :
  first_row rows = Some row -> In row rows.
Proof.
  revert row. induction rows as [| r rest IH]; simpl; intros row; [discriminate |].
  destruct (first_row rest) as [best |].
  - destruct (best.1 <? r.1); intros [= <-]; [right; by apply IH | by left].
  - intros [= <-]. by left.
Qed.

Lemma first_row_least {A : Type} (rows : list (Z * A)) (row other : Z * A) :
  first_row rows = Some row -> In other rows -> row.1 <= other.1.
Proof.
  revert row. induction rows as [| r rest IH]; simpl; intros row; [discriminate |].
  destruct (first_row rest) as [best |] eqn:Hbest.
  - destruct (Z.ltb_spec best.1 r.1); intros [= <-] [<- | Hin].
    + lia.
    + by apply IH.
    + lia.
    + specialize (IH best eq_refl Hin). lia.
  - apply first_row_None in Hbest as ->. intros [= <-] [<- | []]. lia.
Qed.

Lemma in_projects_by_name (db : Database) (name : string) (id : Z) (p : Project.t) :
  In (id, p) (List.filter (fun kp => String.eqb (Project.project_name kp.2) name)
                (map_to_list (projects db)))
  <-> projects db !! id = Some p /\ Project.project_name p = name.
Proof.
  rewrite filter_In, <- list_elem_of_In, elem_of_map_to_list. simpl.
  by rewrite String.eqb_eq.
Qed.

Lemma Project_first_by_name_None (db : Database) (name : string) :
  Project_first_by_name db name = None <-> name_free (projects db) name.
Proof.
  unfold Project_first_by_name, name_free. rewrite first_row_None. split.
  - intros Hnil j q Hq Hname.
    assert (Hin : In (j, q) (List.filter
                               (fun kp => String.eqb (Project.project_name kp.2) name)
                               (map_to_list (projects db))))
      by (by apply in_projects_by_name).
    by rewrite Hnil in Hin.
  - intros Hfree.
    destruct (List.filter _ _) as [| [j q] l] eqn:Hl; [done |].
    exfalso.
    assert (Hin : In (j, q) ((j, q) :: l)) by (by left).
    rewrite <- Hl in Hin. apply in_projects_by_name in Hin as [Hin Hname].
    by apply (Hfree j q Hin).
Qed.

Lemma Project_first_by_name_Some (db : Database) (name : string) (id : Z)
    (p : Project.t) :
  Project_first_by_name db name = Some (id, p) ->
  projects db !! id = Some p /\ Project.project_name p = name.
Proof.
  unfold Project_first_by_name. intros Hfirst.
  by apply in_projects_by_name, first_row_In.
Qed.

Lemma Project_first_by_name_least (db : Database) (name : string) (id : Z)
    (p : Project.t) (j : Z) (q : Project.t) :
  Project_first_by_name db name = Some (id, p) ->
  projects db !! j = Some q ->
  Project.project_name q = name ->
  id <= j.
Proof.
  unfold Project_first_by_name. intros Hfirst Hq Hname.
  apply (first_row_least _ (id, p) (j, q) Hfirst).
  by apply in_projects_by_name.
Qed.

(** Breaking a view down to its branches. *)
Ltac split_view :=
  repeat (run_view;
          match goal with
          | |- context [match ?x !! ?i with _ => _ end] => destruct (x !! i) eqn:?
          | |- context [match Project_first_by_name ?d ?n with _ => _ end] =>
              destruct (Project_first_by_name d n) eqn:?
          | |- context [match form_startdate ?f with _ => _ end] =>
              destruct (form_startdate f) eqn:?
          | |- context [match form_enddate ?f with _ => _ end] =>
              destruct (form_enddate f) eqn:?
          | |- context [match form_start_date ?f with _ => _ end] =>
              destruct (form_start_date f) eqn:?
          | |- context [match form_end_date ?f with _ => _ end] =>
              destruct (form_end_date f) eqn:?
          | |- context [if ?b then _ else _] => destruct b eqn:?
          end).

(** C8. When a create or edit operation fails validation the store
    is left exactly as it was: no field of any project or milestone is
    written.  A failed date check (nesting or date order) is the form
    rendered again with its message; a uniqueness violation is a
    submitted name that another project has, which stops the route at
    its [flash] call. *)
Theorem validation_failure_no_write (strip_title : string -> string) (db : Database)
    (op : WriteOperation) :
  (exists template e,
      fst (serve (route strip_title op) db) = render_template template (Some e))
  \/ uniqueness_violation strip_title db op ->
  snd (serve (route strip_title op) db) = db
  /\ forall endpoint id, fst (serve (route strip_title op) db) <> redirect endpoint id.
Proof.
  intros [(template & e & H) | Hdup].
  - split; [| rewrite H; discriminate]. revert H.
    destruct op as [[| form] | project_id [| form] | project_id [| form]
                   | milestone_id [| form]];
      unfold route, add_project, edit_project, add_milestone, edit_milestone;
      split_view; simpl; intros H; try reflexivity; discriminate H.
  - destruct op as [[| form] | project_id [| form] | project_id [| form]
                   | milestone_id [| form]]; try contradiction; simpl in Hdup.
    + destruct Hdup as (j & q & Hq & Hn).
      unfold route, add_project.
      set (name := to_title_case strip_title (form_project_name form)) in *.
      destruct (Project_first_by_name db name) as [row |] eqn:Hrow;
        [| apply Project_first_by_name_None in Hrow; by destruct (Hrow j q Hq)].
      split_view; simpl; split; first [reflexivity | discriminate | congruence].
    + destruct Hdup as (project & j & q & Hp & Hne & Hq & Hn).
      unfold route, edit_project. run_view. rewrite Hp. run_view.
      set (name := to_title_case strip_title (form_project_name form)) in *.
      rewrite eqb_string_decide, (bool_decide_eq_false_2 _ Hne). run_view.
      destruct (Project_first_by_name db name) as [row |] eqn:Hrow;
        [| apply Project_first_by_name_None in Hrow; by destruct (Hrow j q Hq)].
      run_view. split; [reflexivity | discriminate].
Qed.

Lemma validation_failure_no_write_witness :
  (fst (serve (route ascii_strip_title (EditMilestone 2 (POST form_too_early))) db_one)
   = render_template "edit_milestone.html"
       (Some (MilestoneStartBeforeProjectStart d2024_01_01))
   /\ snd (serve (route ascii_strip_title (EditMilestone 2 (POST form_too_early))) db_one)
      = db_one)
  /\ (fst (serve (route ascii_strip_title (EditProject 2 (POST form_rename))) db_pair)
      = raise "RuntimeError"
      /\ snd (serve (route ascii_strip_title (EditProject 2 (POST form_rename))) db_pair)
         = db_pair)
  /\ (fst (serve (route ascii_strip_title (AddProject (POST form_rename))) db_pair)
      = raise "RuntimeError"
      /\ snd (serve (route ascii_strip_title (AddProject (POST form_rename))) db_pair)
         = db_pair).
Proof.
  split; [| split]; (split; [reflexivity |]).
  - refine (proj1 (validation_failure_no_write ascii_strip_title db_one
                     (EditMilestone 2 (POST form_too_early)) _)).
    left. exists "edit_milestone.html", (MilestoneStartBeforeProjectStart d2024_01_01).
    reflexivity.
  - refine (proj1 (validation_failure_no_write ascii_strip_title db_pair
                     (EditProject 2 (POST form_rename)) _)).
    right. exists project_finished, 1, project_P.
    split; [reflexivity |]. split; [vm_compute; discriminate |]. split; reflexivity.
  - refine (proj1 (validation_failure_no_write ascii_strip_title db_pair
                     (AddProject (POST form_rename)) _)).
    right. exists 1, project_P. split; reflexivity.
Defined.

(** What a rejected edit leaves behind: the session's milestone carries
    the submitted name and priority, assigned before the checks, and is
    rendered back with the form; the store keeps the old row. *)
Example edit_milestone_rejected_session :
  edit_milestone ascii_strip_title 2 (POST form_too_early) (mkSession db_one db_one)
  = (inl (render_template "edit_milestone.html"
            (Some (MilestoneStartBeforeProjectStart d2024_01_01))),
     mkSession db_one
       (mkDatabase (projects db_one)
          (<[2 := Milestone.mk 1 "Design Review" d2024_01_01 d2024_06_30 "Completed" "Low"]>
             (milestones db_one)))).
Proof. vm_compute. reflexivity. Qed.

(** [edit_project] never stores a submission whose start date is after
    its end date: a new name that is taken stops it at [flash], and
    otherwise the first date check answers with the range message. *)
Lemma edit_project_rejects_backwards (strip_title : string -> string) (db : Database)
    (project_id : Z) (project : Project.t) (form : ProjectForm) (start_date end_date : date) :
  projects db !! project_id = Some project ->
  form_start_date form = Some start_date ->
  form_end_date form = Some end_date ->
  start_date > end_date ->
  serve (edit_project strip_title project_id (POST form)) db
  = (if decide (to_title_case strip_title (form_project_name form)
                <> Project.project_name project
                /\ is_Some (Project_first_by_name db
                              (to_title_case strip_title (form_project_name form))))
     then raise "RuntimeError"
     else render_template "edit_project.html" (Some ProjectStartAfterEnd),
     db).
Proof.
  intros Hp Hs He Hgt. unfold edit_project. run_view. rewrite Hp. run_view.
  rewrite eqb_string_decide.
  destruct (decide (to_title_case strip_title (form_project_name form)
                    = Project.project_name project)) as [E | E].
  - rewrite (bool_decide_eq_true_2 _ E). run_view. rewrite Hs, He. run_view.
    rewrite decide_False by tauto.
    destruct (Z.gtb_spec start_date end_date); [reflexivity | lia].
  - rewrite (bool_decide_eq_false_2 _ E). run_view.
    destruct (Project_first_by_name db _) as [row |] eqn:Hrow; run_view.
    + rewrite decide_True; [reflexivity |]. split; [done | by eexists].
    + rewrite Hs, He. run_view.
      rewrite decide_False by (intros [_ [? [=]]]).
      destruct (Z.gtb_spec start_date end_date); [reflexivity | lia].
Qed.

(** C7, on the code. [add_project] makes no date check: a submission
    whose start date is after its end date and whose name is free is
    stored as it is, where [edit_project] answers the same form with
    the range message and writes nothing. *)
Theorem add_project_stores_backwards_range :
  serve (add_project ascii_strip_title (POST form_backwards)) db_empty
  = (redirect "dashboard" None,
     mkDatabase
       {[ 1 := Project.mk "Late Project" "Acme Corp" d2024_12_31 d2024_01_01 "Not Completed" ]}
       ∅)
  /\ d2024_12_31 > d2024_01_01
  /\ serve (edit_project ascii_strip_title 1 (POST form_backwards)) db_bare
     = (render_template "edit_project.html" (Some ProjectStartAfterEnd), db_bare).
Proof. repeat split; vm_compute; reflexivity. Qed.

(** [add_project] on any store: with a free name and two dates that
    parse the row is added, whatever the order of the dates. *)
Lemma add_project_accepts_any_range (strip_title : string -> string) (db : Database)
    (form : ProjectForm) (start_date end_date : date) :
  form_start_date form = Some start_date ->
  form_end_date form = Some end_date ->
  Project_first_by_name db (to_title_case strip_title (form_project_name form)) = None ->
  serve (add_project strip_title (POST form)) db
  = (redirect "dashboard" None,
     mkDatabase
       (<[next_id (projects db) :=
            Project.mk (to_title_case strip_title (form_project_name form))
              (to_title_case strip_title (form_client_name form))
              start_date end_date "Not Completed"]> (projects db))
       (milestones db)).
Proof.
  intros Hs He Hfree. unfold add_project. run_view. rewrite Hs, He. run_view.
  rewrite Hfree. run_view. reflexivity.
Qed.

(** ** Editing a milestone *)

(** C10. Editing a milestone whose stored status was Completed to any
    other status sets the parent project's stored status to
    'Not Completed' whatever the parent's status was, Completed or
    not: the status stored under the parent's id afterwards is
    'Not Completed', and its other fields stay. *)
Theorem edit_milestone_resets_project (strip_title : string -> string) (db : Database)
    (milestone_id : Z) (milestone : Milestone.t) (project : Project.t)
    (form : MilestoneForm) (start_date end_date : date) :
  milestones db !! milestone_id = Some milestone ->
  projects db !! Milestone.project_id milestone = Some project ->
  Milestone.status milestone = "Completed" ->
  form_status form <> "Completed" ->
  form_startdate form = Some start_date ->
  form_enddate form = Some end_date ->
  milestone_validation_spec project start_date end_date = None ->
  let db' := snd (serve (edit_milestone strip_title milestone_id (POST form)) db) in
  Project.status <$> projects db' !! Milestone.project_id milestone = Some "Not Completed"
  /\ projects db' !! Milestone.project_id milestone
     = Some (Project.mk (Project.project_name project) (Project.client_name project)
               (Project.start_date project) (Project.end_date project) "Not Completed").
Proof.
  intros Hm Hp Hold Hnew Hs He Hvalid db'. subst db'.
  unfold edit_milestone. run_view. rewrite Hm. run_view. rewrite Hp, Hs, He. run_view.
  rewrite milestone_validation_code, Hvalid. run_view.
  rewrite Hold. rewrite (eqb_string_decide (form_status form)).
  rewrite (bool_decide_eq_false_2 _ Hnew). simpl. run_view. simpl.
  rewrite lookup_alter_eq, Hp. split; reflexivity.
Qed.

Lemma edit_milestone_resets_project_witness :
  Project.status project_P = "In Progress"
  /\ Project.status
       <$> projects (snd (serve (edit_milestone ascii_strip_title 2 (POST form_reopen))
                            db_one)) !! 1
     = Some "Not Completed"
  /\ projects (snd (serve (edit_milestone ascii_strip_title 2 (POST form_reopen)) db_one))
       !! 1
     = Some (Project.mk "Acme Site" "Acme Corp" d2024_01_01 d2024_12_31 "Not Completed").
Proof.
  split; [reflexivity |].
  exact (edit_milestone_resets_project ascii_strip_title db_one 2 milestone_done project_P
           form_reopen d2024_01_01 d2024_06_30
           eq_refl eq_refl eq_refl ltac:(vm_compute; discriminate) eq_refl eq_refl eq_refl).
Defined.

(** ** Completion percentage *)

(** [view_project] on the worked store: one of two milestones counts,
    the unfinished one is stored as Overdue, the percentage is 50. *)
Example view_project_db_one :
  serve (view_project d2024_08_01 1) db_one
  = (render_view_project 1 2 50,
     mkDatabase (projects db_one)
       (<[1 := Milestone.set_status "Overdue" milestone_M]> (milestones db_one))).
Proof. vm_compute. reflexivity. Qed.

(** [dashboard] on the same store: one active project, none overdue,
    one completed and one pending milestone; the unfinished milestone
    is flagged Overdue. *)
Example dashboard_db_one :
  serve (dashboard d2024_08_01) db_one
  = (render_dashboard 1 (mkStats 1 0 1 1),
     mkDatabase (projects db_one)
       (<[1 := Milestone.set_status "Overdue" milestone_M]> (milestones db_one))).
Proof. vm_compute. reflexivity. Qed.

Lemma calculate_completion_percentage_empty :
  calculate_completion_percentage [] = Some 0
  /\ view_completion_percentage 0 0 = Some 0.
Proof. split; reflexivity. Qed.

(** C5, on the code. With twenty-nine of fifty milestones Completed the
    exact percentage is 58, an integer, so truncation and rounding
    agree on it; [calculate_completion_percentage] returns 57, because
    the binary64 quotient 29/50 times 100 lies just below 58 before
    [int] truncates; the rounding of [view_project] gives 58. *)
Theorem calculate_completion_percentage_fifty :
  length fifty_milestones = 50%nat
  /\ completed_count fifty_milestones = 29
  /\ 100 * 29 = 58 * 50
  /\ calculate_completion_percentage fifty_milestones = Some 57
  /\ view_completion_percentage 29 50 = Some 58.
Proof. repeat split; vm_compute; reflexivity. Qed.


(** *** Conversions and quotients that are exact *)

Lemma digits2_pos_iter_xO (p k : positive) :
  digits2_pos (Pos.iter xO p k) = (digits2_pos p + k)%positive.
Proof.
  induction k as [| k IH] using Pos.peano_ind.
  - simpl. by rewrite Pos.add_1_r.
  - rewrite Pos.iter_succ. simpl. rewrite IH. by rewrite Pos.add_succ_r.
Qed.

Lemma digits2_pos_lower_bound (p : positive) :
  2 ^ (Zpos (digits2_pos p) - 1) <= Zpos p.
Proof.
  induction p as [q IH | q IH |]; simpl digits2_pos.
  - rewrite Pos2Z.inj_succ.
    replace (Z.succ (Zpos (digits2_pos q)) - 1) with (Z.succ (Zpos (digits2_pos q) - 1))
      by lia.
    rewrite Z.pow_succ_r by lia. lia.
  - rewrite Pos2Z.inj_succ.
    replace (Z.succ (Zpos (digits2_pos q)) - 1) with (Z.succ (Zpos (digits2_pos q) - 1))
      by lia.
    rewrite Z.pow_succ_r by lia. lia.
  - reflexivity.
Qed.

Lemma digits2_pos_below (p : positive) :
  Zpos p < 2 ^ 53 -> Zpos (digits2_pos p) <= 53.
Proof.
  intros Hp. destruct (Z.le_gt_cases (Zpos (digits2_pos p)) 53) as [H | H]; [exact H |].
  exfalso. pose proof (digits2_pos_lower_bound p) as Hlow.
  assert (2 ^ 53 <= 2 ^ (Zpos (digits2_pos p) - 1)) by (apply Z.pow_le_mono_r; lia).
  lia.
Qed.

(** A mantissa of 53 bits with an exponent in range is already a
    binary64 value: rounding leaves it as it is. *)
Lemma binary_round_aux_exact (mz : positive) (ez : Z) :
  Zpos (digits2_pos mz) = 53 -> -1074 <= ez <= 971 ->
  binary_round_aux prec emax false (Zpos mz) ez loc_Exact = S754_finite false mz ez.
Proof.
  intros Hd He.
  assert (Hf : fexp prec emax (Zdigits2 (Zpos mz) + ez) - ez = 0).
  { unfold fexp, emin, prec, emax. cbn [Zdigits2]. rewrite Hd. lia. }
  unfold binary_round_aux, shr_fexp. rewrite Hf.
  cbn [shr shr_record_of_loc loc_of_shr_record shr_m round_nearest_even].
  rewrite Hf. cbn [shr shr_m].
  unfold prec, emax. destruct (Z.leb_spec ez (1024 - 53)); [reflexivity | lia].
Qed.

(** [float(n)] is finite for a positive [n] below 2^53. *)
Lemma float_of_int_finite (p : positive) :
  Zpos (digits2_pos p) <= 53 ->
  exists m e, float_of_int (Zpos p) = S754_finite false m e.
Proof.
  intros Hd. unfold float_of_int, binary_normalize, binary_round.
  assert (Hfexp : fexp prec emax (Zpos (digits2_pos p) + 0) = Zpos (digits2_pos p) - 53).
  { unfold fexp, emin, prec, emax. lia. }
  rewrite Hfexp. unfold shl_align. rewrite Z.sub_0_r.
  destruct (Zpos (digits2_pos p) - 53) as [| k | k] eqn:Hk; try lia.
  - exists p, 0. apply binary_round_aux_exact; lia.
  - exists (Pos.iter xO p k), (Zneg k). apply binary_round_aux_exact; [| lia].
    rewrite digits2_pos_iter_xO. lia.
Qed.

(** A finite value divided by itself is 1.0. *)
Lemma SFdiv_same (m : positive) (e : Z) :
  SFdiv prec emax (S754_finite false m e) (S754_finite false m e)
  = S754_finite false 4503599627370496 (-52).
Proof.
  unfold SFdiv, SFdiv_core_binary.
  rewrite !Z.sub_diag.
  change (Z.min (fexp prec emax 0) 0) with (-53).
  change (0 - -53) with 53.
  cbv beta iota zeta.
  destruct (Z.div_eucl (Z.shiftl (Zpos m) 53) (Zpos m)) as [q r] eqn:Hqr.
  assert (Hq : q = 2 ^ 53).
  { transitivity (Z.shiftl (Zpos m) 53 / Zpos m).
    - unfold Z.div. by rewrite Hqr.
    - rewrite Z.shiftl_mul_pow2 by lia. rewrite Z.mul_comm. apply Z.div_mul. lia. }
  assert (Hr : r = 0).
  { transitivity (Z.shiftl (Zpos m) 53 mod Zpos m).
    - unfold Z.modulo. by rewrite Hqr.
    - rewrite Z.shiftl_mul_pow2 by lia. rewrite Z.mul_comm. apply Z.mod_mul. lia. }
  subst q r.
  assert (Hloc : new_location (Zpos m) 0 = loc_Exact).
  { unfold new_location, new_location_even, new_location_odd.
    destruct (Z.even (Zpos m)); reflexivity. }
  rewrite Hloc. vm_compute. reflexivity.
Qed.

Lemma completed_count_all (milestones : list Milestone.t) :
  Forall (fun m => Milestone.status m = "Completed") milestones ->
  completed_count milestones = Z.of_nat (length milestones).
Proof.
  intros Hall. unfold completed_count. f_equal. f_equal.
  induction Hall as [| m l Hm _ IH]; [reflexivity |].
  simpl. rewrite Hm. simpl. by rewrite IH.
Qed.

(** With every milestone Completed both computations give exactly 100
    (for fewer than 2^53 milestones, where the counts convert to
    binary64 exactly). *)
Lemma completion_percentage_all_completed (milestones : list Milestone.t) :
  milestones <> [] ->
  Z.of_nat (length milestones) < 2 ^ 53 ->
  Forall (fun m => Milestone.status m = "Completed") milestones ->
  calculate_completion_percentage milestones = Some 100
  /\ view_completion_percentage (completed_count milestones)
       (Z.of_nat (length milestones)) = Some 100.
Proof.
  intros Hne Hlen Hall.
  rewrite (completed_count_all milestones Hall).
  unfold calculate_completion_percentage, view_completion_percentage.
  rewrite (completed_count_all milestones Hall).
  destruct milestones as [| m0 l]; [done |].
  set (n := Z.of_nat (length (m0 :: l))) in *.
  assert (Hpos : 0 < n) by (subst n; simpl; lia).
  destruct n as [| p | p] eqn:Hn; try lia.
  assert (Hd : Zpos (digits2_pos p) <= 53) by (apply digits2_pos_below; lia).
  destruct (float_of_int_finite p Hd) as (m & e & Hfin).
  unfold int_truediv. rewrite Hfin, SFdiv_same.
  split; [| destruct (Z.gtb_spec (Zpos p) 0); [| lia]]; vm_compute; reflexivity.
Qed.

Lemma completion_percentage_all_completed_witness :
  calculate_completion_percentage [milestone_done; milestone_done; milestone_done]
  = Some 100.
Proof.
  apply (completion_percentage_all_completed [milestone_done; milestone_done; milestone_done]).
  - discriminate.
  - reflexivity.
  - repeat constructor.
Defined.

(** * Further properties of the routes *)

(** ** Milestone status over time *)

(** X1. As the reference date moves forward the derived status of a
    milestone never moves back: Not Started, In Progress, Overdue come
    in this order, and Completed stays. *)
Theorem get_milestone_status_monotone (now : date) (milestone : Milestone.t)
    (today1 today2 : date) :
  today1 <= today2 ->
  status_rank (get_milestone_status now milestone (Some today1))
  <= status_rank (get_milestone_status now milestone (Some today2)).
Proof.
  intros Hle. unfold get_milestone_status. rewrite !Z.gtb_ltb.
  destruct (String.eqb (Milestone.status milestone) "Completed"); [reflexivity |].
  destruct (String.eqb (Milestone.status milestone) "In Progress").
  - destruct (Z.ltb_spec (Milestone.end_date milestone) today1);
      destruct (Z.ltb_spec (Milestone.end_date milestone) today2);
      try lia; vm_compute; discriminate.
  - destruct (Z.ltb_spec today1 (Milestone.start_date milestone));
      destruct (Z.ltb_spec today2 (Milestone.start_date milestone));
      destruct (Z.ltb_spec (Milestone.end_date milestone) today1);
      destruct (Z.ltb_spec (Milestone.end_date milestone) today2);
      try lia; vm_compute; discriminate.
Qed.

Lemma get_milestone_status_monotone_witness :
  status_rank (get_milestone_status d2024_01_01 milestone_M (Some d2024_01_01))
  <= status_rank (get_milestone_status d2024_01_01 milestone_M (Some d2024_08_01)).
Proof.
  apply (get_milestone_status_monotone d2024_01_01 milestone_M d2024_01_01 d2024_08_01).
  vm_compute. discriminate.
Defined.

(** A status derived on one day and stored does not change what a
    later day derives. *)
Lemma get_milestone_status_refresh (now : date) (milestone : Milestone.t)
    (today1 today2 : date) :
  Milestone.start_date milestone <= Milestone.end_date milestone ->
  today1 <= today2 ->
  get_milestone_status now (refresh_milestone now today1 milestone) (Some today2)
  = get_milestone_status now milestone (Some today2).
Proof.
  intros Hrange Hle.
  destruct milestone as [pid name sd ed st pr]. simpl in Hrange.
  unfold refresh_milestone, get_milestone_status, Milestone.set_status. simpl.
  rewrite !Z.gtb_ltb.
  destruct (String.eqb st "Completed") eqn:Ec; simpl; [reflexivity |].
  destruct (String.eqb st "In Progress") eqn:Ep; simpl.
  - destruct (Z.ltb_spec ed today1); simpl.
    + destruct (Z.ltb_spec today2 sd); [lia |].
      destruct (Z.ltb_spec ed today2); [reflexivity | lia].
    + reflexivity.
  - destruct (Z.ltb_spec today1 sd); simpl.
    + reflexivity.
    + destruct (Z.ltb_spec ed today1); simpl.
      * reflexivity.
      * destruct (Z.ltb_spec today2 sd); [lia | reflexivity].
Qed.

(** X2. For a milestone whose start date is not after its end date, a
    status derived and stored on one day gives, on any later day, the
    same derived status as the original stored status would have. *)
Theorem get_milestone_status_stored_then_later (now : date) (milestone : Milestone.t)
    (today1 today2 : date) :
  Milestone.start_date milestone <= Milestone.end_date milestone ->
  today1 <= today2 ->
  get_milestone_status now
    (Milestone.set_status (get_milestone_status now milestone (Some today1)) milestone)
    (Some today2)
  = get_milestone_status now milestone (Some today2).
Proof. apply get_milestone_status_refresh. Qed.

Lemma get_milestone_status_stored_then_later_witness :
  get_milestone_status d2024_01_01
    (Milestone.set_status
       (get_milestone_status d2024_01_01 milestone_M (Some d2024_01_01)) milestone_M)
    (Some d2024_08_01)
  = get_milestone_status d2024_01_01 milestone_M (Some d2024_08_01).
Proof.
  apply (get_milestone_status_stored_then_later d2024_01_01 milestone_M
           d2024_01_01 d2024_08_01); vm_compute; discriminate.
Defined.

(** X3. Whatever string is stored, the derived status is one of the
    four labels, and it is Completed exactly when the stored status is
    Completed, at every reference date and with the clock's date. *)
Theorem get_milestone_status_range (now : date) (milestone : Milestone.t)
    (today : option date) :
  (exists e, get_milestone_status now milestone today = status_label e)
  /\ (get_milestone_status now milestone today = "Completed"
      <-> Milestone.status milestone = "Completed").
Proof.
  split; [| apply get_milestone_status_completed].
  unfold get_milestone_status.
  repeat match goal with |- context [if ?b then _ else _] => destruct b end;
    first [by exists Completed | by exists Overdue | by exists InProgress
          | by exists NotStarted].
Qed.

(** ** Loops over a project's milestones *)

Lemma NoDup_fst_filter {A : Type} (keep : Z * A -> bool) (l : list (Z * A)) :
  NoDup l.*1 -> NoDup (List.filter keep l).*1.
Proof.
  induction l as [| [k x] l IH]; simpl; intros Hnd; [constructor |].
  apply NoDup_cons in Hnd as [Hk Hnd].
  destruct (keep (k, x)); [| by apply IH].
  simpl. apply NoDup_cons. split; [| by apply IH].
  intros Hin. apply Hk.
  apply list_elem_of_fmap in Hin as ([k' x'] & -> & Hin).
  apply list_elem_of_In, filter_In in Hin as [Hin _].
  apply list_elem_of_fmap. exists (k', x'). split; [done | by apply list_elem_of_In].
Qed.

Lemma Project_milestones_NoDup (db : Database) (project_id : Z) :
  NoDup (Project_milestones db project_id).*1.
Proof. apply NoDup_fst_filter, NoDup_fst_map_to_list. Qed.

Lemma elem_of_Project_milestones_keys (db : Database) (project_id i : Z) :
  i ∈ (Project_milestones db project_id).*1
  <-> exists m, milestones db !! i = Some m /\ Milestone.project_id m = project_id.
Proof.
  rewrite list_elem_of_fmap. split.
  - intros ([k m] & -> & Hin). exists m.
    by apply in_Project_milestones, list_elem_of_In.
  - intros (m & Hm & Hpid). exists (i, m). split; [done |].
    by apply list_elem_of_In, in_Project_milestones.
Qed.

Section MilestoneLoop.

Context {L : Type}.
Variable f : Milestone.t -> Milestone.t.
Variable g : Milestone.t -> L -> L.
Variable body : Z * Milestone.t -> L -> View L.

(** One round assigns the row's own object and updates the locals. *)
Hypothesis body_run : forall k m acc s,
  milestones (objects s) !! k = Some m ->
  body (k, m) acc s
  = (inr (g m acc),
     mkSession (store s)
       (mkDatabase (projects (objects s)) (<[k := f m]> (milestones (objects s))))).

Lemma milestone_loop (l : list (Z * Milestone.t)) (acc : L) (s : Session) :
  NoDup l.*1 ->
  (forall k m, In (k, m) l -> milestones (objects s) !! k = Some m) ->
  exists M' : gmap Z Milestone.t,
    for_each l acc body s
    = (inr (foldl (fun a row => g row.2 a) acc l),
       mkSession (store s) (mkDatabase (projects (objects s)) M'))
    /\ forall i, M' !! i
                 = if decide (i ∈ l.*1)
                   then f <$> milestones (objects s) !! i
                   else milestones (objects s) !! i.
Proof.
  revert acc s. induction l as [| [k m] l IH]; intros acc s Hnd Hl.
  - exists (milestones (objects s)). split.
    + simpl. run_view. by destruct s as [? []].
    + intros i. rewrite decide_False; [done | apply not_elem_of_nil].
  - rewrite fmap_cons, NoDup_cons in Hnd. destruct Hnd as [Hk Hnd]. simpl in Hk.
    assert (Hm : milestones (objects s) !! k = Some m) by (apply Hl; by left).
    cbn [for_each foldl]. unfold mbind at 1, View_bind at 1.
    rewrite (body_run k m acc s Hm).
    destruct (IH (g m acc)
                (mkSession (store s)
                   (mkDatabase (projects (objects s))
                      (<[k := f m]> (milestones (objects s))))) Hnd)
      as (M' & Hrun & Hlook).
    { intros k' m' Hin. simpl. rewrite lookup_insert_ne.
      - apply Hl. by right.
      - intros ->. apply Hk. apply list_elem_of_fmap. exists (k', m').
        split; [done | by apply list_elem_of_In]. }
    exists M'. split; [exact Hrun |].
    intros i. rewrite Hlook. simpl.
    destruct (decide (i = k)) as [-> | Hne].
    + rewrite decide_False by done.
      rewrite decide_True by apply list_elem_of_here.
      by rewrite lookup_insert_eq, Hm.
    + rewrite lookup_insert_ne by done.
      destruct (decide (i ∈ l.*1)) as [Hi | Hi].
      * rewrite decide_True by (by apply list_elem_of_further). done.
      * rewrite decide_False; [done |]. rewrite elem_of_cons. tauto.
Qed.

(** Over the milestones of one project the loop stores [f] of each of
    them and leaves the other rows. *)
Lemma milestone_loop_project (project_id : Z) (acc : L) (s : Session) :
  exists M' : gmap Z Milestone.t,
    for_each (Project_milestones (objects s) project_id) acc body s
    = (inr (foldl (fun a row => g row.2 a) acc (Project_milestones (objects s) project_id)),
       mkSession (store s) (mkDatabase (projects (objects s)) M'))
    /\ M' = (fun m => if decide (Milestone.project_id m = project_id) then f m else m)
            <$> milestones (objects s).
Proof.
  destruct (milestone_loop (Project_milestones (objects s) project_id) acc s)
    as (M' & Hrun & Hlook).
  { apply Project_milestones_NoDup. }
  { intros k m Hin. by apply in_Project_milestones in Hin as [Hm _]. }
  exists M'. split; [exact Hrun |].
  apply map_eq. intros i. rewrite Hlook, lookup_fmap.
  destruct (milestones (objects s) !! i) as [m |] eqn:Hm; simpl.
  - destruct (decide (Milestone.project_id m = project_id)) as [Hp | Hp].
    + rewrite decide_True; [done |].
      apply elem_of_Project_milestones_keys. eauto.
    + rewrite decide_False; [done |].
      intros Hin. apply elem_of_Project_milestones_keys in Hin as (m' & Hm' & Hp').
      congruence.
  - by destruct (decide _).
Qed.

End MilestoneLoop.

Lemma Milestone_set_status_same (m : Milestone.t) :
  Milestone.set_status (Milestone.status m) m = m.
Proof. by destruct m. Qed.

(** ** Viewing a project *)

Lemma view_project_milestone_run (now today : date) (k : Z) (m : Milestone.t) (count : Z)
    (s : Session) :
  milestones (objects s) !! k = Some m ->
  view_project_milestone now today (k, m) count s
  = (inr (if String.eqb (Milestone.status m) "Completed" then count + 1 else count),
     mkSession (store s)
       (mkDatabase (projects (objects s))
          (<[k := refresh_milestone now today m]> (milestones (objects s))))).
Proof.
  intros Hm. unfold view_project_milestone, refresh_milestone. cbv zeta.
  assert (Hc : String.eqb (get_milestone_status now m (Some today)) "Completed"
               = String.eqb (Milestone.status m) "Completed").
  { rewrite !eqb_string_decide. apply bool_decide_ext, get_milestone_status_completed. }
  destruct (String.eqb_spec (Milestone.status m) (get_milestone_status now m (Some today)))
    as [E | E]; run_view; rewrite Hc.
  - rewrite <- E, Milestone_set_status_same, (insert_id _ _ _ Hm).
    by destruct s as [? []].
  - by rewrite (alter_as_insert _ _ _ _ Hm).
Qed.

Lemma count_completed_foldl (l : list (Z * Milestone.t)) (count : Z) :
  foldl (fun a (row : Z * Milestone.t) =>
           if String.eqb (Milestone.status row.2) "Completed" then a + 1 else a) count l
  = count + completed_count l.*2.
Proof.
  revert count. unfold completed_count.
  induction l as [| [k m] l IH]; intros count; [simpl; lia |].
  rewrite fmap_cons. cbn [foldl List.filter snd]. rewrite IH.
  destruct (String.eqb (Milestone.status m) "Completed"); cbn [length]; lia.
Qed.

(** The response and the store of [view_project]. *)
Lemma view_project_run (now : date) (db : Database) (project_id : Z)
    (project : Project.t) :
  projects db !! project_id = Some project ->
  let rows := Project_milestones db project_id in
  let completed := completed_count rows.*2 in
  let total := Z.of_nat (length rows) in
  serve (view_project now project_id) db
  = (match view_completion_percentage completed total with
     | Some percentage => render_view_project completed total percentage
     | None => raise "OverflowError"
     end,
     mkDatabase (projects db)
       ((fun m => if decide (Milestone.project_id m = project_id)
                  then refresh_milestone now now m else m) <$> milestones db)).
Proof.
  intros Hp rows completed total. subst rows completed total.
  unfold view_project. run_view. rewrite Hp. run_view.
  destruct (milestone_loop_project (refresh_milestone now now)
              (fun m count => if String.eqb (Milestone.status m) "Completed"
                              then count + 1 else count)
              (view_project_milestone now now)
              (view_project_milestone_run now now) project_id 0 (mkSession db db))
    as (M' & Hrun & ->).
  cbn [objects] in Hrun. rewrite Hrun. run_view.
  rewrite count_completed_foldl, Z.add_0_l.
  destruct (view_completion_percentage _ _); reflexivity.
Qed.



(** X5. For a project whose milestones all start no later than they
    end, viewing it on one day and again on the same or a later day
    leaves the store as viewing it on the later day alone does; in
    particular a second view on the same day changes nothing. *)
Theorem view_project_again (now1 now2 : date) (db : Database) (project_id : Z)
    (project : Project.t) :
  projects db !! project_id = Some project ->
  (forall mid m, milestones db !! mid = Some m -> Milestone.project_id m = project_id ->
                 Milestone.start_date m <= Milestone.end_date m) ->
  now1 <= now2 ->
  snd (serve (view_project now2 project_id) (snd (serve (view_project now1 project_id) db)))
  = snd (serve (view_project now2 project_id) db).
Proof.
  intros Hp Hrange Hle.
  rewrite (view_project_run now1 db project_id project Hp). cbn [snd].
  rewrite (view_project_run now2 db project_id project Hp). cbn [snd].
  rewrite (view_project_run now2
             (mkDatabase (projects db)
                ((fun m => if decide (Milestone.project_id m = project_id)
                           then refresh_milestone now1 now1 m else m) <$> milestones db))
             project_id project Hp).
  cbn [snd projects milestones].
  f_equal. rewrite <- map_fmap_compose. apply map_fmap_ext.
  intros mid m Hm. simpl.
  destruct (decide (Milestone.project_id m = project_id)) as [E | E].
  - rewrite decide_True by done.
    assert (Hlater : get_milestone_status now2 (refresh_milestone now1 now1 m) (Some now2)
                     = get_milestone_status now2 m (Some now2)).
    { apply (get_milestone_status_refresh now1 m now1 now2); eauto. }
    unfold refresh_milestone at 1 3. rewrite Hlater. by destruct m.
  - by rewrite decide_False.
Qed.

Lemma view_project_again_witness :
  snd (serve (view_project d2024_08_01 1)
         (snd (serve (view_project d2024_01_01 1) db_one)))
  = snd (serve (view_project d2024_08_01 1) db_one).
Proof.
  apply (view_project_again d2024_01_01 d2024_08_01 db_one 1 project_P).
  - reflexivity.
  - assert (Hall : map_Forall (fun _ m => Milestone.start_date m <= Milestone.end_date m)
                     (milestones db_one))
      by (apply (bool_decide_unpack _); vm_compute; exact I).
    intros mid m Hm _. exact (Hall mid m Hm).
  - vm_compute. discriminate.
Defined.

(** ** The dashboard pass *)

Lemma flag_overdue_project_id (today : date) (m : Milestone.t) :
  Milestone.project_id (flag_overdue today m) = Milestone.project_id m.
Proof. unfold flag_overdue. by destruct (_ && _). Qed.

Lemma flag_overdue_again (today : date) (m : Milestone.t) :
  flag_overdue today (flag_overdue today m) = flag_overdue today m.
Proof.
  unfold flag_overdue. destruct m as [pid name sd ed st pr]. simpl.
  destruct ((ed <? today) && negb (String.eqb st "Completed")) eqn:E; simpl;
    [| by rewrite E].
  apply andb_true_iff in E as [-> _]. reflexivity.
Qed.

Lemma recompute_project_again (today : date) (p : Project.t) :
  recompute_project today (recompute_project today p) = recompute_project today p.
Proof.
  unfold recompute_project.
  destruct (decide (Project.status p = "Completed")) as [E | E].
  - by rewrite decide_True.
  - rewrite decide_False; [reflexivity |].
    unfold automatic_status_spec. simpl. repeat case_decide; discriminate.
Qed.

Lemma dashboard_count_milestone_run (today : date) (k : Z) (m : Milestone.t)
    (stats : DashboardStats) (s : Session) :
  milestones (objects s) !! k = Some m ->
  dashboard_count_milestone today (k, m) stats s
  = (inr (if String.eqb (Milestone.status m) "Completed"
          then mkStats (active_projects stats) (overdue_count stats)
                 (completed_milestones stats + 1) (pending_milestones stats)
          else mkStats (active_projects stats) (overdue_count stats)
                 (completed_milestones stats) (pending_milestones stats + 1)),
     mkSession (store s)
       (mkDatabase (projects (objects s))
          (<[k := flag_overdue today m]> (milestones (objects s))))).
Proof.
  intros Hm. unfold dashboard_count_milestone, flag_overdue. cbv zeta.
  destruct ((Milestone.end_date m <? today)
            && negb (String.eqb (Milestone.status m) "Completed")); run_view.
  - by rewrite (alter_as_insert _ _ _ _ Hm).
  - rewrite (insert_id _ _ _ Hm). by destruct s as [? []].
Qed.

(** The second loop flags the milestones of the projects it visits and
    commits. *)
Lemma dashboard_second_loop_store (today : date) (l : list (Z * Project.t))
    (stats : DashboardStats) (s : Session) :
  NoDup l.*1 ->
  store s = objects s ->
  exists stats',
    for_each l stats (dashboard_count_project today) s
    = (inr stats',
       let db' :=
         mkDatabase (projects (objects s))
           ((fun m => if decide (Milestone.project_id m ∈ l.*1)
                      then flag_overdue today m else m) <$> milestones (objects s)) in
       mkSession db' db').
Proof.
  revert stats s. induction l as [| [k p] l IH]; intros stats s Hnd Hs.
  - exists stats. cbn [for_each]. run_view. f_equal.
    destruct s as [st [P M]]. simpl in Hs. subst st. cbv zeta. cbn [objects projects milestones].
    assert (HM : (fun m => if decide (Milestone.project_id m ∈ ([] : list (Z * Project.t)).*1)
                           then flag_overdue today m else m) <$> M = M).
    { rewrite <- (map_fmap_id M) at 2. apply map_fmap_ext. intros i m _.
      rewrite decide_False; [done | apply not_elem_of_nil]. }
    by rewrite HM.
  - rewrite fmap_cons, NoDup_cons in Hnd. destruct Hnd as [Hk Hnd]. simpl in Hk.
    cbn [for_each]. unfold mbind at 1, View_bind at 1.
    unfold dashboard_count_project at 1. run_view.
    match goal with |- context [for_each (Project_milestones (objects s) k) ?a _ s] =>
      destruct (milestone_loop_project (flag_overdue today) _
                  (dashboard_count_milestone today)
                  (dashboard_count_milestone_run today) k a s) as (M1 & Hrun & ->)
    end.
    rewrite Hrun. run_view.
    match goal with |- context [for_each l ?a _ ?s1] =>
      destruct (IH a s1 Hnd eq_refl) as (stats' & ->) end.
    exists stats'. f_equal. cbv zeta. cbn [objects projects milestones].
    assert (HM : (fun m => if decide (Milestone.project_id m ∈ l.*1)
                           then flag_overdue today m else m)
                 <$> ((fun m => if decide (Milestone.project_id m = k)
                                then flag_overdue today m else m)
                      <$> milestones (objects s))
                 = (fun m => if decide (Milestone.project_id m ∈ ((k, p) :: l).*1)
                             then flag_overdue today m else m) <$> milestones (objects s)).
    { rewrite <- map_fmap_compose. apply map_fmap_ext. intros i m _. simpl.
      destruct (decide (Milestone.project_id m = k)) as [E | E].
      - rewrite flag_overdue_project_id, E.
        rewrite decide_False by done.
        rewrite decide_True by apply list_elem_of_here. done.
      - destruct (decide (Milestone.project_id m ∈ l.*1)) as [Hin | Hin].
        + rewrite decide_True by (by apply list_elem_of_further). done.
        + rewrite decide_False; [done |]. rewrite elem_of_cons. tauto. }
    by rewrite HM.
Qed.

(** The store [dashboard] leaves, and the shape of its page. *)
Lemma dashboard_run (now : date) (db : Database) :
  exists stats,
    serve (dashboard now) db
    = (render_dashboard (Z.of_nat (size (projects db))) stats,
       mkDatabase (recompute_project now <$> projects db)
         ((fun m => if decide (is_Some (projects db !! Milestone.project_id m))
                    then flag_overdue now m else m) <$> milestones db)).
Proof.
  unfold dashboard. run_view.
  destruct (dashboard_first_loop now (map_to_list (projects db)) (mkSession db db))
    as (P' & -> & Hlook).
  { apply NoDup_fst_map_to_list. }
  { intros id p Hin. simpl. by apply elem_of_map_to_list, list_elem_of_In. }
  run_view.
  assert (HP : P' = recompute_project now <$> projects db).
  { apply map_eq. intros i. rewrite Hlook, lookup_fmap. simpl.
    destruct (decide (i ∈ (map_to_list (projects db)).*1)) as [Hin | Hin]; [done |].
    destruct (projects db !! i) as [p |] eqn:Hp; [| done].
    exfalso. apply Hin. apply list_elem_of_fmap. exists (i, p).
    split; [done | by apply elem_of_map_to_list]. }
  subst P'.
  match goal with |- context [for_each ?l ?a (dashboard_count_project now) ?s1] =>
    destruct (dashboard_second_loop_store now l a s1) as (stats' & ->) end.
  { apply NoDup_fst_map_to_list. }
  { reflexivity. }
  exists stats'. cbv zeta. cbn [objects projects milestones store].
  rewrite length_map_to_list. f_equal. f_equal.
  apply map_fmap_ext. intros i m _.
  destruct (decide (is_Some (projects db !! Milestone.project_id m))) as [[p Hp] | Hno].
  - rewrite decide_True; [done |].
    apply list_elem_of_fmap. exists (Milestone.project_id m, recompute_project now p).
    split; [done |]. apply elem_of_map_to_list. by rewrite lookup_fmap, Hp.
  - rewrite decide_False; [done |].
    intros Hin. apply Hno.
    apply list_elem_of_fmap in Hin as ([k p'] & Hk & Hin). simpl in Hk. subst k.
    apply elem_of_map_to_list in Hin. rewrite lookup_fmap in Hin.
    destruct (projects db !! Milestone.project_id m); [by eexists | discriminate].
Qed.


(** X7. Loading the dashboard twice on the same day stores what
    loading it once does. *)
Theorem dashboard_again (now : date) (db : Database) :
  snd (serve (dashboard now) (snd (serve (dashboard now) db)))
  = snd (serve (dashboard now) db).
Proof.
  destruct (dashboard_run now db) as (stats & ->). cbn [snd].
  match goal with |- context [serve (dashboard now) ?d] =>
    destruct (dashboard_run now d) as (stats' & ->) end.
  cbn [snd projects milestones]. f_equal.
  - rewrite <- map_fmap_compose. apply map_fmap_ext. intros i p _. simpl.
    apply recompute_project_again.
  - rewrite <- map_fmap_compose. apply map_fmap_ext. intros i m _. simpl.
    destruct (decide (is_Some (projects db !! Milestone.project_id m))) as [Hp | Hp].
    + rewrite flag_overdue_project_id.
      rewrite decide_True by (rewrite lookup_fmap; by apply fmap_is_Some).
      apply flag_overdue_again.
    + rewrite decide_False; [done |].
      rewrite lookup_fmap. by rewrite fmap_is_Some.
Qed.

(** X8. After [dashboard] every project carries one of the four status
    labels, whatever was stored before (the 'Not Completed' of a new or
    reopened project included), and every milestone of an existing
    project that is past its end date is Completed or Overdue. *)
Theorem dashboard_normalises (now : date) (db : Database) :
  let db' := snd (serve (dashboard now) db) in
  (forall id p, projects db' !! id = Some p -> exists e, Project.status p = status_label e)
  /\ (forall mid m, milestones db' !! mid = Some m ->
                    is_Some (projects db' !! Milestone.project_id m) ->
                    Milestone.end_date m < now ->
                    Milestone.status m = "Completed" \/ Milestone.status m = "Overdue").
Proof.
  destruct (dashboard_run now db) as (stats & ->). cbn [snd]. split.
  - intros id p'. cbn [projects]. rewrite lookup_fmap.
    destruct (projects db !! id) as [p |]; [| discriminate].
    intros [= <-]. unfold recompute_project.
    destruct (decide (Project.status p = "Completed")) as [E | E].
    + exists Completed. exact E.
    + unfold automatic_status_spec. simpl.
      repeat case_decide;
        first [by exists Overdue | by exists InProgress | by exists NotStarted].
  - intros mid m'. cbn [projects milestones]. rewrite !lookup_fmap.
    destruct (milestones db !! mid) as [m |]; [| discriminate].
    intros [= <-] Hparent.
    assert (Hsome : is_Some (projects db !! Milestone.project_id m)).
    { destruct (decide (is_Some (projects db !! Milestone.project_id m))) as [H | H].
      - exact H.
      - rewrite fmap_is_Some in Hparent. exact Hparent. }
    rewrite decide_True by exact Hsome.
    unfold flag_overdue.
    destruct (Z.ltb_spec (Milestone.end_date m) now) as [Hlt | Hge];
      destruct (String.eqb_spec (Milestone.status m) "Completed") as [Hc | Hc];
      simpl; intros Hend; try lia; tauto.
Qed.

(** ** Toggling, again *)

Lemma toggle_status_completed (now : date) (db : Database) (project_id : Z)
    (project : Project.t) :
  projects db !! project_id = Some project ->
  Project.status project = "Completed" ->
  serve (toggle_status now project_id) db
  = (redirect "view_project" (Some project_id),
     mkDatabase
       (<[project_id := Project.set_status (automatic_status_spec project now) project]>
          (projects db))
       (milestones db)).
Proof.
  intros Hp Hs. unfold toggle_status. run_view. rewrite Hp, Hs. simpl. run_view.
  rewrite <- automatic_status_code.
  destruct (Project.end_date project <? now);
    [| destruct (Project.start_date project <=? now)];
    run_view; rewrite (alter_as_insert _ _ _ _ Hp), alter_insert_eq; reflexivity.
Qed.

Lemma toggle_status_missing (now : date) (db : Database) (project_id : Z) :
  projects db !! project_id = None ->
  serve (toggle_status now project_id) db = (abort 404, db).
Proof. intros Hp. unfold toggle_status. run_view. by rewrite Hp. Qed.

(** X9. [toggle_status] writes nothing but the status of the project it
    is called on: the milestones and the other projects are as before,
    and the project itself is still stored under its id with its name,
    client and dates, whatever the outcome; a project that was not
    there is not created. *)
Theorem toggle_status_frame (now : date) (db : Database) (project_id : Z) :
  let db' := snd (serve (toggle_status now project_id) db) in
  milestones db' = milestones db
  /\ (forall j, j <> project_id -> projects db' !! j = projects db !! j)
  /\ (forall p, projects db !! project_id = Some p ->
                exists v, projects db' !! project_id
                          = Some (Project.mk (Project.project_name p) (Project.client_name p)
                                    (Project.start_date p) (Project.end_date p) v))
  /\ (projects db !! project_id = None -> projects db' !! project_id = None).
Proof.
  destruct (projects db !! project_id) as [p |] eqn:Hp.
  - assert (Hrun : exists v,
               serve (toggle_status now project_id) db
               = (redirect "view_project" (Some project_id),
                  mkDatabase (<[project_id := Project.set_status v p]> (projects db))
                    (milestones db))).
    { destruct (decide (Project.status p = "Completed")) as [E | E].
      - eexists. by apply toggle_status_completed.
      - rewrite (toggle_status_not_completed now db project_id p Hp E).
        destruct (all_completed _ _ _).
        + by eexists.
        + exists (Project.status p). f_equal.
          destruct db as [P M]. simpl in *. f_equal.
          rewrite insert_id; [done |]. rewrite Hp. by destruct p. }
    destruct Hrun as (v & ->). cbn [snd projects milestones].
    split; [reflexivity |]. split; [| split].
    + intros j Hj. by rewrite lookup_insert_ne.
    + intros q [= <-]. exists v. by rewrite lookup_insert_eq.
    + discriminate.
  - rewrite (toggle_status_missing now db project_id Hp). cbn [snd].
    split; [reflexivity |]. split; [reflexivity |]. split; [| done].
    intros q. rewrite Hp. discriminate.
Qed.

(** X10. Toggling a Completed project twice on the same day: when every
    milestone of the project is Completed the second toggle restores
    the store, and when one is not the second toggle changes nothing,
    so the project stays at its date-derived status. *)
Theorem toggle_status_twice (now : date) (db : Database) (project_id : Z)
    (project : Project.t) :
  projects db !! project_id = Some project ->
  Project.status project = "Completed" ->
  let every_milestone_completed :=
    forall mid m, milestones db !! mid = Some m -> Milestone.project_id m = project_id ->
                  Milestone.status m = "Completed" in
  let once := snd (serve (toggle_status now project_id) db) in
  let twice := snd (serve (toggle_status now project_id) once) in
  (every_milestone_completed -> twice = db)
  /\ (~ every_milestone_completed -> twice = once).
Proof.
  intros Hp Hs every once twice. subst once twice.
  rewrite (toggle_status_completed now db project_id project Hp Hs). cbn [snd].
  set (auto := Project.set_status (automatic_status_spec project now) project).
  set (db1 := mkDatabase (<[project_id := auto]> (projects db)) (milestones db)).
  assert (Hp1 : projects db1 !! project_id = Some auto) by apply lookup_insert_eq.
  assert (Hs1 : Project.status auto <> "Completed").
  { subst auto. unfold automatic_status_spec. simpl. repeat case_decide; discriminate. }
  rewrite (toggle_status_not_completed now db1 project_id auto Hp1 Hs1). cbn [snd].
  assert (Hiff : all_completed now now (Project_milestones db1 project_id) = true <-> every).
  { rewrite all_completed_true. subst every. split.
    - intros H mid m Hm Hpid. apply (get_milestone_status_completed now m (Some now)).
      apply (H mid m), in_Project_milestones. done.
    - intros H mid m Hin. apply in_Project_milestones in Hin as [Hm Hpid].
      apply get_milestone_status_completed. eauto. }
  destruct (all_completed now now (Project_milestones db1 project_id)).
  - split; [| intros Hno; exfalso; apply Hno; by apply Hiff].
    intros _. subst db1 auto. cbn [projects milestones].
    rewrite insert_insert_eq. destruct db as [P M]. simpl in *. f_equal.
    apply insert_id. rewrite Hp. f_equal. destruct project. simpl in *. by subst.
  - split; [| done]. intros He. apply Hiff in He. discriminate.
Qed.

Lemma toggle_status_twice_witness :
  snd (serve (toggle_status d2024_08_01 1)
         (snd (serve (toggle_status d2024_08_01 1) db_finished)))
  = db_finished.
Proof.
  refine (proj1 (toggle_status_twice d2024_08_01 db_finished 1 project_finished _ _) _).
  - reflexivity.
  - reflexivity.
  - assert (Hall : map_Forall (fun _ m => Milestone.status m = "Completed")
                     (milestones db_finished))
      by (apply (bool_decide_unpack _); vm_compute; exact I).
    intros mid m Hm _. exact (Hall mid m Hm).
Defined.

(** ** What the routes do not write *)

Ltac split_option :=
  repeat match goal with
         | |- context [match ?o with Some _ => _ | None => _ end] => destruct o eqn:?
         end.

(** X11. A route other than the two pages changes the store only when
    it answers with a redirect: a GET, an unknown id, a date that does
    not parse, a failed check or a duplicate name leaves every row as
    it was. *)
Theorem no_redirect_no_write (strip_title : string -> string) (now : date)
    (db : Database) (op : Operation) :
  is_page op = false ->
  (forall endpoint id,
      fst (serve (app strip_title now op) db) <> redirect endpoint id) ->
  snd (serve (app strip_title now op) db) = db.
Proof.
  intros Hpage Hno.
  destruct (serve (app strip_title now op) db) as [r db'] eqn:Hrun. cbn [fst snd] in *.
  assert (Hgoal : (exists endpoint id, r = redirect endpoint id) \/ db' = db);
    [| destruct Hgoal as [(endpoint & id & ->) | ->]; [by destruct (Hno endpoint id) | done]].
  clear Hno. revert Hrun.
  destruct op as [| project_id | project_id
                 | [[| form] | project_id [| form] | project_id [| form]
                   | milestone_id [| form]]
                 | project_id | milestone_id | milestone_id status];
    try discriminate Hpage;
    unfold app, route, toggle_status, add_project, edit_project, add_milestone,
      edit_milestone, delete_project, delete_milestone, update_milestone_status,
      delete_project_row, delete_milestone_row;
    split_view; split_option; split_view; simpl;
    intros [= <- <-]; eauto.
Qed.

Lemma no_redirect_no_write_witness :
  snd (serve (app ascii_strip_title d2024_08_01
                (Write (EditMilestone 2 (POST form_too_early)))) db_one)
  = db_one.
Proof.
  apply (no_redirect_no_write ascii_strip_title d2024_08_01 db_one
           (Write (EditMilestone 2 (POST form_too_early)))).
  - reflexivity.
  - intros endpoint id. vm_compute. discriminate.
Defined.

(** X12. A route called with an id that is not in the store answers
    404 and writes nothing; [edit_milestone] does so too when the
    milestone exists and its project does not. *)
Theorem missing_target_404 (strip_title : string -> string) (now : date)
    (db : Database) (op : Operation) :
  target_missing db op ->
  serve (app strip_title now op) db = (abort 404, db).
Proof.
  destruct op as [| project_id | project_id
                 | [request | project_id request | project_id request
                   | milestone_id request]
                 | project_id | milestone_id | milestone_id status];
    cbn [target_missing]; try tauto;
    unfold app, route, toggle_status, view_project, edit_project, add_milestone,
      edit_milestone, delete_project, delete_milestone, update_milestone_status;
    run_view.
  all: try (intros ->; reflexivity).
  destruct (milestones db !! milestone_id) as [m |]; [| reflexivity].
  run_view. intros ->. reflexivity.
Qed.

Lemma missing_target_404_witness :
  serve (app ascii_strip_title d2024_08_01 (DeleteProject 7)) db_one = (abort 404, db_one).
Proof.
  apply (missing_target_404 ascii_strip_title d2024_08_01 db_one (DeleteProject 7)).
  reflexivity.
Defined.

(** X13. The second range check of [edit_project] (line 378) can never
    fire: no create or edit request is ever answered with its
    message. *)
Theorem end_before_start_never_reported (strip_title : string -> string) (db : Database)
    (op : WriteOperation) (template : string) :
  fst (serve (route strip_title op) db)
  <> render_template template (Some ProjectEndBeforeStart).
Proof.
  destruct op as [[| form] | project_id [| form] | project_id [| form]
                 | milestone_id [| form]];
    unfold route, add_project, edit_project, add_milestone, edit_milestone;
    split_view; simpl; try discriminate.
  all: exfalso.
  all: repeat match goal with
         | H : (_ >? _) = _ |- _ => rewrite Z.gtb_ltb in H
         | H : (_ <? _) = true |- _ => apply Z.ltb_lt in H
         | H : (_ <? _) = false |- _ => apply Z.ltb_ge in H
         end; lia.
Qed.

(** ** New rows *)

Lemma map_fold_max_bound {A : Type} (table : gmap Z A) (k : Z) :
  is_Some (table !! k) -> k <= map_fold (fun k _ acc => Z.max k acc) 0 table.
Proof.
  revert k.
  apply (map_fold_weak_ind
           (fun r (m : gmap Z A) => forall k, is_Some (m !! k) -> k <= r)).
  - intros k [x Hx]. by rewrite lookup_empty in Hx.
  - intros i x m r _ IH k Hk.
    destruct (decide (k = i)) as [-> | Hne]; [lia |].
    rewrite lookup_insert_ne in Hk by done. specialize (IH k Hk). lia.
Qed.

(** The key of a new row is not in the table. *)
Lemma next_id_fresh {A : Type} (table : gmap Z A) : table !! next_id table = None.
Proof.
  destruct (table !! next_id table) as [x |] eqn:Hx; [| done].
  exfalso.
  assert (Hb : next_id table <= map_fold (fun k _ acc => Z.max k acc) 0 table).
  { apply map_fold_max_bound. by rewrite Hx. }
  unfold next_id in Hb. lia.
Qed.

(** X14. [add_project] with a name no project has and two dates that
    parse adds exactly one project, under a key that was free, with the
    status 'Not Completed'; every project and milestone that was there
    is kept as it was. *)
Theorem add_project_effect (strip_title : string -> string) (db : Database)
    (form : ProjectForm) (start_date end_date : date) :
  form_start_date form = Some start_date ->
  form_end_date form = Some end_date ->
  name_free (projects db) (to_title_case strip_title (form_project_name form)) ->
  let id := next_id (projects db) in
  let row :=
    Project.mk (to_title_case strip_title (form_project_name form))
      (to_title_case strip_title (form_client_name form))
      start_date end_date "Not Completed" in
  let db' := snd (serve (add_project strip_title (POST form)) db) in
  fst (serve (add_project strip_title (POST form)) db) = redirect "dashboard" None
  /\ projects db !! id = None
  /\ projects db' !! id = Some row
  /\ (forall j, j <> id -> projects db' !! j = projects db !! j)
  /\ size (projects db') = S (size (projects db))
  /\ milestones db' = milestones db.
Proof.
  intros Hs He Hfree id row db'. subst id row db'.
  apply Project_first_by_name_None in Hfree.
  rewrite (add_project_accepts_any_range strip_title db form start_date end_date Hs He Hfree).
  cbn [fst snd projects milestones].
  pose proof (next_id_fresh (projects db)) as Hfresh.
  repeat split.
  - exact Hfresh.
  - apply lookup_insert_eq.
  - intros j Hj. by rewrite lookup_insert_ne.
  - by apply map_size_insert_None.
Qed.

Lemma add_project_effect_witness :
  fst (serve (add_project ascii_strip_title (POST form_backwards)) db_one)
  = redirect "dashboard" None
  /\ size (projects (snd (serve (add_project ascii_strip_title (POST form_backwards))
                            db_one)))
     = 2%nat.
Proof.
  destruct (add_project_effect ascii_strip_title db_one form_backwards
              d2024_12_31 d2024_01_01 eq_refl eq_refl) as (Hr & _ & _ & _ & Hsize & _).
  - apply Project_first_by_name_None. reflexivity.
  - split; [exact Hr | exact Hsize].
Defined.

(** The store and the response of a create that passes the checks. *)
Lemma add_milestone_run (strip_title : string -> string) (db : Database)
    (project_id : Z) (project : Project.t) (form : MilestoneForm)
    (start_date end_date : date) :
  projects db !! project_id = Some project ->
  form_startdate form = Some start_date ->
  form_enddate form = Some end_date ->
  milestone_validation_spec project start_date end_date = None ->
  serve (add_milestone strip_title project_id (POST form)) db
  = (redirect "view_project" (Some project_id),
     mkDatabase (projects db)
       (<[next_id (milestones db) :=
            Milestone.mk project_id (to_title_case strip_title (form_milestonename form))
              start_date end_date (form_status form)
              (default "Medium" (form_priority form))]> (milestones db))).
Proof.
  intros Hp Hs He Hvalid. unfold add_milestone. run_view. rewrite Hp, Hs, He. run_view.
  rewrite milestone_validation_code, Hvalid. run_view. reflexivity.
Qed.

Lemma milestone_validation_nested (project : Project.t) (start_date end_date : date) :
  milestone_validation_spec project start_date end_date = None
  <-> Project.start_date project <= start_date
      /\ start_date <= end_date
      /\ end_date <= Project.end_date project.
Proof.
  unfold milestone_validation_spec. repeat case_decide; split; try discriminate; try lia.
  reflexivity.
Qed.

(** X15. [add_milestone] accepts a submission exactly when its dates
    lie within the project's, start not after end; it then adds one
    milestone under a key that was free, with the submitted status and
    the priority 'Medium' when none was sent, keeps every other row,
    and does not touch the project, whatever its status. *)
Theorem add_milestone_effect (strip_title : string -> string) (db : Database)
    (project_id : Z) (project : Project.t) (form : MilestoneForm)
    (start_date end_date : date) :
  projects db !! project_id = Some project ->
  form_startdate form = Some start_date ->
  form_enddate form = Some end_date ->
  let k := next_id (milestones db) in
  let row :=
    Milestone.mk project_id (to_title_case strip_title (form_milestonename form))
      start_date end_date (form_status form) (default "Medium" (form_priority form)) in
  let response := fst (serve (add_milestone strip_title project_id (POST form)) db) in
  let db' := snd (serve (add_milestone strip_title project_id (POST form)) db) in
  (response = redirect "view_project" (Some project_id) <-> nested_in project row)
  /\ (nested_in project row ->
      milestones db !! k = None
      /\ milestones db' !! k = Some row
      /\ (forall j, j <> k -> milestones db' !! j = milestones db !! j)
      /\ projects db' = projects db).
Proof.
  intros Hp Hs He k row response db'. subst k row response db'.
  unfold nested_in. cbn [Milestone.start_date Milestone.end_date].
  rewrite <- milestone_validation_nested.
  destruct (milestone_validation_spec project start_date end_date) as [e |] eqn:Hvalid.
  - split; [| discriminate]. split; [| discriminate].
    unfold add_milestone. run_view. rewrite Hp, Hs, He. run_view.
    rewrite milestone_validation_code, Hvalid.
    destruct e; run_view; discriminate.
  - rewrite (add_milestone_run strip_title db project_id project form start_date end_date
               Hp Hs He Hvalid).
    cbn [fst snd projects milestones]. split; [done |]. intros _.
    repeat split.
    + apply next_id_fresh.
    + apply lookup_insert_eq.
    + intros j Hj. by rewrite lookup_insert_ne.
Qed.

Lemma add_milestone_effect_witness :
  fst (serve (add_milestone ascii_strip_title 1 (POST form_reopen)) db_one)
  = redirect "view_project" (Some 1).
Proof.
  destruct (add_milestone_effect ascii_strip_title db_one 1 project_P form_reopen
              d2024_01_01 d2024_06_30 eq_refl eq_refl eq_refl) as [Hiff _].
  apply Hiff. vm_compute. repeat split; discriminate.
Defined.

(** ** Edits *)

(** The store and the response of a milestone edit that passes the
    checks. *)
Lemma edit_milestone_run (strip_title : string -> string) (db : Database)
    (milestone_id : Z) (milestone : Milestone.t) (project : Project.t)
    (form : MilestoneForm) (start_date end_date : date) :
  milestones db !! milestone_id = Some milestone ->
  projects db !! Milestone.project_id milestone = Some project ->
  form_startdate form = Some start_date ->
  form_enddate form = Some end_date ->
  milestone_validation_spec project start_date end_date = None ->
  serve (edit_milestone strip_title milestone_id (POST form)) db
  = (redirect "view_project" (Some (Milestone.project_id milestone)),
     mkDatabase
       (if String.eqb (Milestone.status milestone) "Completed"
           && negb (String.eqb (form_status form) "Completed")
        then <[Milestone.project_id milestone := Project.set_status "Not Completed" project]>
               (projects db)
        else projects db)
       (<[milestone_id :=
            Milestone.mk (Milestone.project_id milestone)
              (to_title_case strip_title (form_milestonename form))
              start_date end_date (form_status form)
              (default "Medium" (form_priority form))]> (milestones db))).
Proof.
  intros Hm Hp Hs He Hvalid.
  unfold edit_milestone. run_view. rewrite Hm. run_view. rewrite Hp, Hs, He. run_view.
  rewrite milestone_validation_code, Hvalid. run_view.
  rewrite (alter_as_insert _ _ _ _ Hm), !alter_insert_eq.
  destruct (String.eqb (Milestone.status milestone) "Completed"
            && negb (String.eqb (form_status form) "Completed")); run_view.
  - by rewrite (alter_as_insert _ _ _ _ Hp).
  - reflexivity.
Qed.



(** The store and the response of [edit_project], by the two checks. *)
Lemma edit_project_run (strip_title : string -> string) (db : Database)
    (project_id : Z) (project : Project.t) (form : ProjectForm)
    (start_date end_date : date) :
  projects db !! project_id = Some project ->
  form_start_date form = Some start_date ->
  form_end_date form = Some end_date ->
  let name := to_title_case strip_title (form_project_name form) in
  serve (edit_project strip_title project_id (POST form)) db
  = if decide (name <> Project.project_name project /\ ~ name_free (projects db) name)
    then (raise "RuntimeError", db)
    else if decide (start_date > end_date)
    then (render_template "edit_project.html" (Some ProjectStartAfterEnd), db)
    else (redirect "view_project" (Some project_id),
          mkDatabase
            (<[project_id :=
                 Project.mk name (to_title_case strip_title (form_client_name form))
                   start_date end_date (Project.status project)]> (projects db))
            (milestones db)).
Proof.
  intros Hp Hs He name. subst name.
  unfold edit_project. run_view. rewrite Hp. run_view.
  rewrite eqb_string_decide.
  set (name := to_title_case strip_title (form_project_name form)).
  destruct (decide (name = Project.project_name project)) as [E | E].
  - rewrite (bool_decide_eq_true_2 _ E). run_view. rewrite Hs, He. run_view.
    rewrite decide_False by tauto.
    rewrite Z.gtb_ltb.
    destruct (Z.ltb_spec end_date start_date); [by rewrite decide_True by lia |].
    rewrite decide_False by lia.
    destruct (Z.ltb_spec end_date start_date); [lia |]. run_view.
    rewrite (alter_as_insert _ _ _ _ Hp), !alter_insert_eq. reflexivity.
  - rewrite (bool_decide_eq_false_2 _ E). run_view.
    destruct (Project_first_by_name db name) as [row |] eqn:Hrow; run_view.
    + rewrite decide_True; [reflexivity |]. split; [done |].
      intros Hfree. apply Project_first_by_name_None in Hfree. congruence.
    + apply Project_first_by_name_None in Hrow.
      rewrite decide_False by tauto.
      rewrite Hs, He. run_view. rewrite Z.gtb_ltb.
      destruct (Z.ltb_spec end_date start_date); [by rewrite decide_True by lia |].
      rewrite decide_False by lia.
      destruct (Z.ltb_spec end_date start_date); [lia |]. run_view.
      rewrite (alter_as_insert _ _ _ _ Hp), !alter_insert_eq. reflexivity.
Qed.

(** X17. [edit_project] with dates that parse is accepted exactly when
    the normalised name is the project's own or no project's, and the
    start date is not after the end date. It then stores the name, the
    client and the two dates and keeps the status; the milestones are
    neither checked against the new dates nor changed. *)
Theorem edit_project_effect (strip_title : string -> string) (db : Database)
    (project_id : Z) (project : Project.t) (form : ProjectForm)
    (start_date end_date : date) :
  projects db !! project_id = Some project ->
  form_start_date form = Some start_date ->
  form_end_date form = Some end_date ->
  let name := to_title_case strip_title (form_project_name form) in
  let accepted :=
    (name = Project.project_name project \/ name_free (projects db) name)
    /\ start_date <= end_date in
  let response := fst (serve (edit_project strip_title project_id (POST form)) db) in
  let db' := snd (serve (edit_project strip_title project_id (POST form)) db) in
  (response = redirect "view_project" (Some project_id) <-> accepted)
  /\ (accepted ->
      db' = mkDatabase
              (<[project_id :=
                   Project.mk name (to_title_case strip_title (form_client_name form))
                     start_date end_date (Project.status project)]> (projects db))
              (milestones db))
  /\ (~ accepted -> db' = db).
Proof.
  intros Hp Hs He name accepted response db'. subst accepted response db'.
  pose proof (edit_project_run strip_title db project_id project form start_date end_date
                Hp Hs He) as Hrun.
  cbv zeta in Hrun. fold name in Hrun. rewrite Hrun. clear Hrun.
  destruct (decide (name <> Project.project_name project
                    /\ ~ name_free (projects db) name)) as [[Hne Hused] | Hok].
  - cbn [fst snd]. repeat split; try discriminate; try tauto.
  - assert (Hname : name = Project.project_name project \/ name_free (projects db) name).
    { destruct (decide (name = Project.project_name project)); [by left |].
      right. intros j q Hq Hn. apply Hok. split; [done |].
      intros Hfree. exact (Hfree j q Hq Hn). }
    destruct (decide (start_date > end_date)) as [Hgt | Hle]; cbn [fst snd].
    + repeat split; try discriminate; try tauto; intros [_ H]; lia.
    + repeat split; try tauto; try lia.
Qed.

Lemma edit_project_effect_witness :
  snd (serve (edit_project ascii_strip_title 1 (POST form_backwards)) db_one) = db_one.
Proof.
  destruct (edit_project_effect ascii_strip_title db_one 1 project_P form_backwards
              d2024_12_31 d2024_01_01 eq_refl eq_refl eq_refl) as (_ & _ & Hno).
  apply Hno. intros [_ Hle]. vm_compute in Hle. by apply Hle.
Defined.

(** ** Deleting *)

Lemma delete_project_run (db : Database) (project_id : Z) (project : Project.t) :
  projects db !! project_id = Some project ->
  serve (delete_project project_id) db
  = (redirect "dashboard" None,
     mkDatabase (delete project_id (projects db))
       (filter (fun km => Milestone.project_id km.2 <> project_id) (milestones db))).
Proof.
  intros Hp. unfold delete_project, delete_project_row. run_view. rewrite Hp.
  run_view. reflexivity.
Qed.

Lemma delete_milestone_run (db : Database) (milestone_id : Z) (milestone : Milestone.t) :
  milestones db !! milestone_id = Some milestone ->
  serve (delete_milestone milestone_id) db
  = (redirect "view_project" (Some (Milestone.project_id milestone)),
     mkDatabase (projects db) (delete milestone_id (milestones db))).
Proof.
  intros Hm. unfold delete_milestone, delete_milestone_row. run_view. rewrite Hm.
  run_view. reflexivity.
Qed.

(** X18. [delete_project] removes the project together with all its
    milestones, so none is left pointing at it, and removes nothing
    else: the other projects and the milestones of other projects are
    as before. *)
Theorem delete_project_effect (db : Database) (project_id : Z) (project : Project.t) :
  projects db !! project_id = Some project ->
  let db' := snd (serve (delete_project project_id) db) in
  projects db' !! project_id = None
  /\ (forall j, j <> project_id -> projects db' !! j = projects db !! j)
  /\ (forall mid m, milestones db' !! mid = Some m
                    <-> milestones db !! mid = Some m
                        /\ Milestone.project_id m <> project_id).
Proof.
  intros Hp db'. subst db'. rewrite (delete_project_run db project_id project Hp).
  cbn [snd projects milestones]. split; [| split].
  - apply lookup_delete_eq.
  - intros j Hj. by rewrite lookup_delete_ne.
  - intros mid m. by rewrite map_lookup_filter_Some.
Qed.

Lemma delete_project_effect_witness :
  projects (snd (serve (delete_project 1) db_one)) !! 1 = None
  /\ milestones (snd (serve (delete_project 1) db_one)) = ∅.
Proof.
  destruct (delete_project_effect db_one 1 project_P eq_refl) as (Hgone & _ & _).
  split; [exact Hgone | reflexivity].
Defined.

(** X19. A milestone that [add_milestone] has just created is removed
    again by [delete_milestone] on its id, which redirects to the
    project's page and leaves the store exactly as it was before the
    two requests. *)
Theorem add_then_delete_milestone (strip_title : string -> string) (db : Database)
    (project_id : Z) (project : Project.t) (form : MilestoneForm)
    (start_date end_date : date) :
  projects db !! project_id = Some project ->
  form_startdate form = Some start_date ->
  form_enddate form = Some end_date ->
  milestone_validation_spec project start_date end_date = None ->
  serve (delete_milestone (next_id (milestones db)))
    (snd (serve (add_milestone strip_title project_id (POST form)) db))
  = (redirect "view_project" (Some project_id), db).
Proof.
  intros Hp Hs He Hvalid.
  rewrite (add_milestone_run strip_title db project_id project form start_date end_date
             Hp Hs He Hvalid). cbn [snd].
  erewrite delete_milestone_run by apply lookup_insert_eq.
  cbn [projects milestones Milestone.project_id].
  rewrite delete_insert_id by apply next_id_fresh.
  by destruct db.
Qed.

Lemma add_then_delete_milestone_witness :
  serve (delete_milestone (next_id (milestones db_one)))
    (snd (serve (add_milestone ascii_strip_title 1 (POST form_reopen)) db_one))
  = (redirect "view_project" (Some 1), db_one).
Proof.
  apply (add_then_delete_milestone ascii_strip_title db_one 1 project_P form_reopen
           d2024_01_01 d2024_06_30); reflexivity.
Defined.

(** X20. In a store where every milestone has its project, a project
    that [add_project] has just created is removed again by
    [delete_project] on its id, and the store is exactly as it was
    before the two requests. *)
Theorem add_then_delete_project (strip_title : string -> string) (db : Database)
    (form : ProjectForm) (start_date end_date : date) :
  referential_integrity db ->
  form_start_date form = Some start_date ->
  form_end_date form = Some end_date ->
  name_free (projects db) (to_title_case strip_title (form_project_name form)) ->
  serve (delete_project (next_id (projects db)))
    (snd (serve (add_project strip_title (POST form)) db))
  = (redirect "dashboard" None, db).
Proof.
  intros Hint Hs He Hfree. apply Project_first_by_name_None in Hfree.
  rewrite (add_project_accepts_any_range strip_title db form start_date end_date
             Hs He Hfree). cbn [snd].
  erewrite delete_project_run by apply lookup_insert_eq.
  cbn [projects milestones].
  rewrite delete_insert_id by apply next_id_fresh.
  rewrite map_filter_id; [by destruct db |].
  intros mid m Hm. simpl. intros Hpid.
  destruct (Hint mid m Hm) as [p Hp].
  rewrite Hpid, next_id_fresh in Hp. discriminate.
Qed.

Lemma add_then_delete_project_witness :
  serve (delete_project (next_id (projects db_one)))
    (snd (serve (add_project ascii_strip_title (POST form_backwards)) db_one))
  = (redirect "dashboard" None, db_one).
Proof.
  apply (add_then_delete_project ascii_strip_title db_one form_backwards
           d2024_12_31 d2024_01_01).
  - apply (bool_decide_unpack
             (map_Forall (fun _ m => is_Some (projects db_one !! Milestone.project_id m))
                (milestones db_one))).
    vm_compute. exact I.
  - reflexivity.
  - reflexivity.
  - apply Project_first_by_name_None. reflexivity.
Defined.

(** ** Setting a milestone's status *)



(** ** The name check *)

(** X22. For a name that is not empty, [check_project_exists] reports
    a project exactly when [add_project], given the same name and two
    dates that parse, stores nothing and stops at its [flash] call, and
    reports none exactly when [add_project] stores the project and
    redirects; the id it reports is the least id of the projects of
    that normalised name, and the check writes nothing. *)
Theorem check_project_exists_agrees (strip_title : string -> string) (db : Database)
    (form : ProjectForm) (start_date end_date : date) :
  form_project_name form <> "" ->
  form_start_date form = Some start_date ->
  form_end_date form = Some end_date ->
  let name := to_title_case strip_title (form_project_name form) in
  let reply :=
    check_project_exists strip_title (Some (form_project_name form)) (mkSession db db) in
  snd reply = mkSession db db
  /\ ((exists id, fst reply = inr (exists_true name id))
      <-> serve (add_project strip_title (POST form)) db = (raise "RuntimeError", db))
  /\ (fst reply = inr exists_false
      <-> fst (serve (add_project strip_title (POST form)) db) = redirect "dashboard" None)
  /\ (forall id, fst reply = inr (exists_true name id) ->
                 (exists p, projects db !! id = Some p /\ Project.project_name p = name)
                 /\ forall j q, projects db !! j = Some q ->
                                Project.project_name q = name -> id <= j).
Proof.
  intros Hname Hs He name reply. subst reply.
  unfold check_project_exists, add_project. cbn [default from_option Datatypes.id].
  rewrite eqb_string_decide, (bool_decide_eq_false_2 _ Hname). run_view.
  rewrite Hs, He. run_view. fold name.
  destruct (Project_first_by_name db name) as [[id p] |] eqn:Hrow; run_view.
  - pose proof (Project_first_by_name_Some _ _ _ _ Hrow) as [Hp Hn].
    split; [reflexivity |]. split; [| split].
    + split; [reflexivity |]. intros _. by exists id.
    + split; discriminate.
    + intros id' [= <-]. split; [by exists p |].
      intros j q Hq Hqn. exact (Project_first_by_name_least _ _ _ _ _ _ Hrow Hq Hqn).
  - split; [reflexivity |]. split; [| split].
    + split; [intros [id [=]] | discriminate].
    + split; reflexivity.
    + intros id [=].
Qed.

Lemma check_project_exists_agrees_witness :
  projects db_namesakes !! 2 = Some project_P
  /\ projects db_namesakes !! 3 = Some project_P
  /\ fst (check_project_exists ascii_strip_title (Some "acme SITE")
            (mkSession db_namesakes db_namesakes))
     = inr (exists_true "Acme Site" 2)
  /\ serve (add_project ascii_strip_title (POST form_rename)) db_namesakes
     = (raise "RuntimeError", db_namesakes).
Proof.
  pose proof (check_project_exists_agrees ascii_strip_title db_namesakes
                form_rename d2024_01_01 d2024_06_30) as H.
  cbv zeta in H.
  destruct H as (_ & [Hdup _] & _ & _);
    [vm_compute; discriminate | reflexivity | reflexivity |].
  split; [reflexivity |]. split; [reflexivity |]. split; [reflexivity |].
  apply Hdup. exists 2. reflexivity.
Defined.

(** An empty or absent name is never reported, also when a project
    with the empty name is stored. *)
Lemma check_project_exists_empty (strip_title : string -> string) (s : Session)
    (name : option string) :
  default "" name = "" ->
  check_project_exists strip_title name s = (inr exists_false, s).
Proof. intros Hn. unfold check_project_exists. by rewrite Hn. Qed.

(** ** Every request is one of the listed effects *)

Lemma same_names_insert (P : gmap Z Project.t) (id : Z) (p p' : Project.t) :
  P !! id = Some p ->
  Project.project_name p' = Project.project_name p ->
  same_names P (<[id := p']> P).
Proof.
  intros Hp Hname j. destruct (decide (j = id)) as [-> | Hne].
  - by rewrite lookup_insert_eq, Hp.
  - rewrite lookup_insert_ne by done. by destruct (P !! j).
Qed.

Lemma same_names_fmap (P : gmap Z Project.t) (f : Project.t -> Project.t) :
  (forall p, Project.project_name (f p) = Project.project_name p) ->
  same_names P (f <$> P).
Proof. intros Hf j. rewrite lookup_fmap. destruct (P !! j); simpl; [apply Hf | done]. Qed.

Lemma same_parents_insert (M : gmap Z Milestone.t) (k : Z) (m m' : Milestone.t) :
  M !! k = Some m ->
  Milestone.project_id m' = Milestone.project_id m ->
  same_parents M (<[k := m']> M).
Proof.
  intros Hm Hpid j. destruct (decide (j = k)) as [-> | Hne].
  - by rewrite lookup_insert_eq, Hm.
  - rewrite lookup_insert_ne by done. by destruct (M !! j).
Qed.

Lemma same_parents_fmap (M : gmap Z Milestone.t) (f : Milestone.t -> Milestone.t) :
  (forall m, Milestone.project_id (f m) = Milestone.project_id m) ->
  same_parents M (f <$> M).
Proof. intros Hf j. rewrite lookup_fmap. destruct (M !! j); simpl; [apply Hf | done]. Qed.

Lemma Effect_status (db : Database) (id : Z) (p : Project.t) (v : string) :
  projects db !! id = Some p ->
  Effect db (mkDatabase (<[id := Project.set_status v p]> (projects db)) (milestones db)).
Proof. intros Hp. apply Effect_projects_kept. by apply (same_names_insert _ _ p). Qed.

Lemma dashboard_effect (now : date) (db : Database) :
  Effect db (snd (serve (dashboard now) db)).
Proof.
  destruct (dashboard_run now db) as (stats & ->). cbn [snd].
  eapply Effect_then.
  - apply (Effect_projects_kept db (recompute_project now <$> projects db)).
    apply same_names_fmap. intros p. unfold recompute_project. by case_decide.
  - refine (Effect_milestones_kept
              (mkDatabase (recompute_project now <$> projects db) (milestones db))
              ((fun m => if decide (is_Some (projects db !! Milestone.project_id m))
                         then flag_overdue now m else m) <$> milestones db) _).
    apply same_parents_fmap. intros m. case_decide; [| done].
    apply flag_overdue_project_id.
Qed.

Lemma toggle_status_effect (now : date) (db : Database) (project_id : Z) :
  Effect db (snd (serve (toggle_status now project_id) db)).
Proof.
  destruct (projects db !! project_id) as [p |] eqn:Hp.
  - destruct (decide (Project.status p = "Completed")) as [E | E].
    + rewrite (toggle_status_completed now db project_id p Hp E). by apply Effect_status.
    + rewrite (toggle_status_not_completed now db project_id p Hp E). cbn [snd].
      destruct (all_completed _ _ _); [by apply Effect_status | apply Effect_none].
  - rewrite (toggle_status_missing now db project_id Hp). apply Effect_none.
Qed.

Lemma view_project_is_effect (now : date) (db : Database) (project_id : Z) :
  Effect db (snd (serve (view_project now project_id) db)).
Proof.
  destruct (projects db !! project_id) as [p |] eqn:Hp.
  - rewrite (view_project_run now db project_id p Hp). cbn [snd].
    apply Effect_milestones_kept, same_parents_fmap. intros m. by case_decide.
  - unfold view_project. run_view. rewrite Hp. apply Effect_none.
Qed.

Lemma route_effect (strip_title : string -> string) (db : Database) (op : WriteOperation) :
  Effect db (snd (serve (route strip_title op) db)).
Proof.
  destruct op as [[| form] | project_id [| form] | project_id [| form]
                 | milestone_id [| form]]; cbn [route].
  - apply Effect_none.
  - unfold add_project. split_view; cbn [snd]; try apply Effect_none.
    apply Effect_project_added; [apply next_id_fresh |].
    by apply Project_first_by_name_None.
  - unfold edit_project. split_view; apply Effect_none.
  - destruct (projects db !! project_id) as [p |] eqn:Hp;
      [| unfold edit_project; run_view; rewrite Hp; apply Effect_none].
    destruct (form_start_date form) as [s |] eqn:Hs;
      [| unfold edit_project; split_view; first [apply Effect_none | exfalso; congruence]].
    destruct (form_end_date form) as [e |] eqn:He;
      [| unfold edit_project; split_view; first [apply Effect_none | exfalso; congruence]].
    pose proof (edit_project_run strip_title db project_id p form s e Hp Hs He) as Hrun.
    cbv zeta in Hrun. rewrite Hrun.
    destruct (decide _) as [_ | Hok]; [apply Effect_none |].
    destruct (decide (s > e)); [apply Effect_none |]. cbn [snd].
    apply (Effect_project_edited db project_id p); [exact Hp |]. cbn [Project.project_name].
    destruct (decide (to_title_case strip_title (form_project_name form)
                      = Project.project_name p)); [by left |].
    right. intros j q Hq Hn. apply Hok. split; [done |].
    intros Hfree. exact (Hfree j q Hq Hn).
  - unfold add_milestone. split_view; apply Effect_none.
  - destruct (projects db !! project_id) as [p |] eqn:Hp;
      [| unfold add_milestone; run_view; rewrite Hp; apply Effect_none].
    destruct (form_startdate form) as [s |] eqn:Hs;
      [| unfold add_milestone; split_view; first [apply Effect_none | exfalso; congruence]].
    destruct (form_enddate form) as [e |] eqn:He;
      [| unfold add_milestone; split_view; first [apply Effect_none | exfalso; congruence]].
    destruct (milestone_validation_spec p s e) as [err |] eqn:Hvalid.
    + unfold add_milestone. run_view. rewrite Hp, Hs, He. run_view.
      rewrite milestone_validation_code, Hvalid. destruct err; apply Effect_none.
    + rewrite (add_milestone_run strip_title db project_id p form s e Hp Hs He Hvalid).
      apply Effect_milestone_added; [apply next_id_fresh | simpl; by rewrite Hp].
  - unfold edit_milestone. split_view; apply Effect_none.
  - destruct (milestones db !! milestone_id) as [m |] eqn:Hm;
      [| unfold edit_milestone; run_view; rewrite Hm; apply Effect_none].
    destruct (projects db !! Milestone.project_id m) as [p |] eqn:Hp;
      [| unfold edit_milestone; run_view; rewrite Hm; run_view; rewrite Hp; apply Effect_none].
    destruct (form_startdate form) as [s |] eqn:Hs;
      [| unfold edit_milestone; split_view; first [apply Effect_none | exfalso; congruence]].
    destruct (form_enddate form) as [e |] eqn:He;
      [| unfold edit_milestone; split_view; first [apply Effect_none | exfalso; congruence]].
    destruct (milestone_validation_spec p s e) as [err |] eqn:Hvalid.
    + unfold edit_milestone. run_view. rewrite Hm. run_view. rewrite Hp, Hs, He. run_view.
      rewrite milestone_validation_code, Hvalid. destruct err; apply Effect_none.
    + rewrite (edit_milestone_run strip_title db milestone_id m p form s e
                 Hm Hp Hs He Hvalid). cbn [snd].
      match goal with |- Effect _ (mkDatabase _ (<[_ := ?r]> _)) => set (row := r) end.
      apply (Effect_then db (mkDatabase (projects db) (<[milestone_id := row]> (milestones db)))).
      * apply (Effect_milestones_kept db).
        by apply (same_parents_insert (milestones db) milestone_id m).
      * destruct (_ && _); [| apply Effect_none].
        match goal with
        | |- Effect ?d _ => by apply (Effect_status d (Milestone.project_id m) p)
        end.
Qed.

(** Whatever the request, the store after it is reached by the listed
    effects. *)
Lemma app_effect (strip_title : string -> string) (now : date) (db : Database)
    (op : Operation) :
  Effect db (snd (serve (app strip_title now op) db)).
Proof.
  destruct op as [| project_id | project_id | op | project_id | milestone_id
                 | milestone_id status]; cbn [app].
  - apply dashboard_effect.
  - apply toggle_status_effect.
  - apply view_project_is_effect.
  - apply route_effect.
  - destruct (projects db !! project_id) as [p |] eqn:Hp.
    + rewrite (delete_project_run db project_id p Hp). apply Effect_project_deleted.
    + unfold delete_project. run_view. rewrite Hp. apply Effect_none.
  - destruct (milestones db !! milestone_id) as [m |] eqn:Hm.
    + rewrite (delete_milestone_run db milestone_id m Hm). apply Effect_milestone_deleted.
    + unfold delete_milestone. run_view. rewrite Hm. apply Effect_none.
  - destruct (milestones db !! milestone_id) as [m |] eqn:Hm.
    + unfold update_milestone_status. run_view. rewrite Hm. run_view.
      destruct status as [v |]; [| apply Effect_none].
      destruct (negb (String.eqb v "")); run_view; [| apply Effect_none].
      rewrite (alter_as_insert _ _ _ _ Hm).
      apply Effect_milestones_kept. by apply (same_parents_insert (milestones db) milestone_id m).
    + unfold update_milestone_status. run_view. rewrite Hm. apply Effect_none.
Qed.

Lemma Effect_unique_names (db db' : Database) :
  Effect db db' -> unique_project_names db -> unique_project_names db'.
Proof.
  induction 1 as [db | db P' Hsame | db M' _ | db id p p' Hp Hname | db id p Hp Hfree
                 | db k m _ _ | db id | db k | db db1 db2 _ IH1 _ IH2];
    intros Hu; try exact Hu; try (by auto).
  - intros i j p q Hi Hj Hn. cbn [projects] in *.
    pose proof (Hsame i) as Hsi. pose proof (Hsame j) as Hsj.
    rewrite Hi in Hsi. rewrite Hj in Hsj.
    destruct (projects db !! i) as [p0 |] eqn:Hpi; [| done].
    destruct (projects db !! j) as [q0 |] eqn:Hqj; [| done].
    apply (Hu i j p0 q0 Hpi Hqj). congruence.
  - intros i j q1 q2. cbn [projects].
    destruct (decide (i = id)) as [-> | Hi]; destruct (decide (j = id)) as [-> | Hj];
      rewrite ?lookup_insert_eq, ?lookup_insert_ne by done; try done.
    + intros [= <-] Hq2 Hn. destruct Hname as [Hsame | Hfree].
      * symmetry. apply (Hu j id q2 p Hq2 Hp). congruence.
      * by destruct (Hfree j q2 Hq2).
    + intros Hq1 [= <-] Hn. destruct Hname as [Hsame | Hfree].
      * apply (Hu i id q1 p Hq1 Hp). congruence.
      * by destruct (Hfree i q1 Hq1).
    + apply Hu.
  - intros i j q1 q2. cbn [projects].
    destruct (decide (i = id)) as [-> | Hi]; destruct (decide (j = id)) as [-> | Hj];
      rewrite ?lookup_insert_eq, ?lookup_insert_ne by done; try done.
    + intros [= <-] Hq2 Hn. by destruct (Hfree j q2 Hq2).
    + intros Hq1 [= <-] Hn. by destruct (Hfree i q1 Hq1).
    + apply Hu.
  - intros i j q1 q2. cbn [projects].
    rewrite !lookup_delete_Some. intros [_ Hi] [_ Hj]. by apply Hu.
Qed.

Lemma Effect_referential_integrity (db db' : Database) :
  Effect db db' -> referential_integrity db -> referential_integrity db'.
Proof.
  induction 1 as [db | db P' Hsame | db M' Hsame | db id p p' Hp _ | db id p _ _
                 | db k m _ Hparent | db id | db k | db db1 db2 _ IH1 _ IH2];
    intros Hint; try exact Hint; try (by auto).
  - intros mid m Hm. cbn [projects milestones] in *.
    destruct (Hint mid m Hm) as [p Hp]. pose proof (Hsame (Milestone.project_id m)) as Hs.
    rewrite Hp in Hs. by destruct (P' !! Milestone.project_id m).
  - intros mid m' Hm'. cbn [projects milestones] in *.
    pose proof (Hsame mid) as Hs. rewrite Hm' in Hs.
    destruct (milestones db !! mid) as [m |] eqn:Hm; [| done].
    rewrite Hs. by apply (Hint mid m).
  - intros mid m Hm. cbn [projects milestones] in *.
    apply lookup_insert_is_Some'. right. by apply (Hint mid m).
  - intros mid m Hm. cbn [projects milestones] in *.
    apply lookup_insert_is_Some'. right. by apply (Hint mid m).
  - intros mid m'. cbn [projects milestones].
    destruct (decide (mid = k)) as [-> | Hne].
    + rewrite lookup_insert_eq. by intros [= <-].
    + rewrite lookup_insert_ne by done. apply Hint.
  - intros mid m Hm. cbn [projects milestones] in *.
    apply map_lookup_filter_Some in Hm as [Hm Hpid]. simpl in Hpid.
    rewrite lookup_delete_ne by done. by apply (Hint mid m).
  - intros mid m Hm. cbn [projects milestones] in *.
    apply lookup_delete_Some in Hm as [_ Hm]. by apply (Hint mid m).
Qed.

(** X23. No request makes two projects share a name: if the names in
    the store are pairwise different before a request, they are after
    it, whatever the route and its outcome. *)
Theorem unique_project_names_kept (strip_title : string -> string) (now : date)
    (db : Database) (op : Operation) :
  unique_project_names db ->
  unique_project_names (snd (serve (app strip_title now op) db)).
Proof. apply Effect_unique_names, app_effect. Qed.

(** X24. No request leaves a milestone without its project: if every
    milestone's [project_id] is the id of a stored project before a
    request, it is after it, whatever the route and its outcome. *)
Theorem referential_integrity_kept (strip_title : string -> string) (now : date)
    (db : Database) (op : Operation) :
  referential_integrity db ->
  referential_integrity (snd (serve (app strip_title now op) db)).
Proof. apply Effect_referential_integrity, app_effect. Qed.

Lemma unique_project_names_kept_witness :
  unique_project_names
    (snd (serve (app ascii_strip_title d2024_08_01 (Write (AddProject (POST form_backwards))))
            db_one)).
Proof.
  apply (unique_project_names_kept ascii_strip_title d2024_08_01 db_one
           (Write (AddProject (POST form_backwards)))).
  intros i j p q Hi Hj _. unfold db_one in Hi, Hj. cbn [projects] in Hi, Hj.
  apply lookup_singleton_Some in Hi as [<- _].
  apply lookup_singleton_Some in Hj as [<- _].
  reflexivity.
Defined.

Lemma referential_integrity_kept_witness :
  referential_integrity
    (snd (serve (app ascii_strip_title d2024_08_01 (DeleteProject 1)) db_one)).
Proof.
  apply (referential_integrity_kept ascii_strip_title d2024_08_01 db_one (DeleteProject 1)).
  apply (bool_decide_unpack
           (map_Forall (fun _ m => is_Some (projects db_one !! Milestone.project_id m))
              (milestones db_one))).
  vm_compute. exact I.
Defined.

(** ** Percentages *)

Lemma completed_count_none (milestones : list Milestone.t) :
  Forall (fun m => Milestone.status m <> "Completed") milestones ->
  completed_count milestones = 0.
Proof.
  intros Hall. unfold completed_count.
  induction Hall as [| m l Hm _ IH]; [reflexivity |].
  simpl. apply String.eqb_neq in Hm. rewrite Hm. exact IH.
Qed.

Lemma completed_count_bounds (milestones : list Milestone.t) :
  0 <= completed_count milestones <= Z.of_nat (length milestones).
Proof.
  unfold completed_count. split; [lia |].
  apply inj_le. induction milestones as [| m l IH]; simpl; [lia |].
  destruct (String.eqb (Milestone.status m) "Completed"); simpl; lia.
Qed.

Lemma calculate_completion_percentage_counts (milestones : list Milestone.t) :
  milestones <> [] ->
  calculate_completion_percentage milestones
  = truncated_percentage (completed_count milestones) (Z.of_nat (length milestones)).
Proof. intros Hne. by destruct milestones. Qed.

(** X25. With every milestone Completed, both computations of the
    percentage give exactly 100 (for fewer than 2^53 milestones). *)
Theorem all_completed_gives_100 (milestones : list Milestone.t) :
  milestones <> [] ->
  Z.of_nat (length milestones) < 2 ^ 53 ->
  Forall (fun m => Milestone.status m = "Completed") milestones ->
  calculate_completion_percentage milestones = Some 100
  /\ view_completion_percentage (completed_count milestones)
       (Z.of_nat (length milestones)) = Some 100.
Proof. apply completion_percentage_all_completed. Qed.

Lemma all_completed_gives_100_witness :
  calculate_completion_percentage [milestone_done; milestone_done] = Some 100.
Proof.
  apply (all_completed_gives_100 [milestone_done; milestone_done]).
  - discriminate.
  - reflexivity.
  - repeat constructor.
Defined.

(** X26. With no milestone Completed, both computations of the
    percentage give exactly 0 (for fewer than 2^53 milestones). *)
Theorem none_completed_gives_0 (milestones : list Milestone.t) :
  milestones <> [] ->
  Z.of_nat (length milestones) < 2 ^ 53 ->
  Forall (fun m => Milestone.status m <> "Completed") milestones ->
  calculate_completion_percentage milestones = Some 0
  /\ view_completion_percentage (completed_count milestones)
       (Z.of_nat (length milestones)) = Some 0.
Proof.
  intros Hne Hlen Hnone.
  rewrite (calculate_completion_percentage_counts milestones Hne).
  rewrite (completed_count_none milestones Hnone).
  unfold truncated_percentage, view_completion_percentage.
  destruct milestones as [| m0 l]; [done |].
  set (n := Z.of_nat (length (m0 :: l))) in *.
  assert (Hpos : 0 < n) by (subst n; simpl; lia).
  destruct n as [| p | p] eqn:Hn; try lia.
  assert (Hd : Zpos (digits2_pos p) <= 53) by (apply digits2_pos_below; lia).
  destruct (float_of_int_finite p Hd) as (m & e & Hfin).
  unfold int_truediv. rewrite Hfin.
  split; [| destruct (Z.gtb_spec (Zpos p) 0); [| lia]]; vm_compute; reflexivity.
Qed.

Lemma none_completed_gives_0_witness :
  calculate_completion_percentage [milestone_M; milestone_M; milestone_M] = Some 0.
Proof.
  apply (none_completed_gives_0 [milestone_M; milestone_M; milestone_M]).
  - discriminate.
  - reflexivity.
  - repeat constructor; discriminate.
Defined.

Lemma percentage_close_upto_spec (bound : nat) (c t : Z) :
  percentage_close_upto bound = true ->
  0 < t <= Z.of_nat bound -> 0 <= c <= t ->
  percentage_close c t = true.
Proof.
  unfold percentage_close_upto. intros Hall Ht Hc.
  rewrite forallb_forall in Hall.
  assert (Hin : In (Z.to_nat t) (seq 1 bound)) by (apply in_seq; lia).
  specialize (Hall _ Hin). rewrite forallb_forall in Hall.
  assert (Hin' : In (Z.to_nat c) (seq 0 (S (Z.to_nat t)))) by (apply in_seq; lia).
  specialize (Hall _ Hin'). by rewrite !Z2Nat.id in Hall by lia.
Qed.

Lemma percentage_close_200 : percentage_close_upto 200 = true.
Proof. vm_compute. reflexivity. Qed.

(** X27. For a project with at most 200 milestones, whatever their
    statuses: [calculate_completion_percentage] returns the floor of
    the exact percentage or one less, within 0..100, and the percentage
    of [view_project] is an integer nearest to the exact percentage. *)
Theorem completion_percentage_close (milestones : list Milestone.t) :
  milestones <> [] ->
  (length milestones <= 200)%nat ->
  let c := completed_count milestones in
  let t := Z.of_nat (length milestones) in
  exists a b,
    calculate_completion_percentage milestones = Some a
    /\ view_completion_percentage c t = Some b
    /\ (a = 100 * c / t \/ a = 100 * c / t - 1)
    /\ 0 <= a <= 100
    /\ Z.abs (2 * (b * t - 100 * c)) <= t.
Proof.
  intros Hne Hlen c t. subst c t.
  rewrite (calculate_completion_percentage_counts milestones Hne).
  pose proof (completed_count_bounds milestones) as Hc.
  assert (Ht : 0 < Z.of_nat (length milestones) <= Z.of_nat 200).
  { destruct milestones; [done |]. simpl length in *. lia. }
  pose proof (percentage_close_upto_spec 200 _ _ percentage_close_200 Ht Hc) as Hclose.
  unfold percentage_close in Hclose.
  destruct (truncated_percentage _ _) as [a |]; [| discriminate].
  destruct (view_completion_percentage _ _) as [b |]; [| discriminate].
  exists a, b.
  repeat match goal with
         | H : _ && _ = true |- _ => apply andb_true_iff in H as [? ?]
         | H : _ || _ = true |- _ => apply orb_true_iff in H
         end.
  repeat split; try reflexivity; lia.
Qed.

Lemma completion_percentage_close_witness :
  exists a b,
    calculate_completion_percentage fifty_milestones = Some a
    /\ view_completion_percentage (completed_count fifty_milestones)
         (Z.of_nat (length fifty_milestones)) = Some b
    /\ (a = 100 * completed_count fifty_milestones / Z.of_nat (length fifty_milestones)
        \/ a = 100 * completed_count fifty_milestones / Z.of_nat (length fifty_milestones) - 1)
    /\ 0 <= a <= 100
    /\ Z.abs (2 * (b * Z.of_nat (length fifty_milestones)
                   - 100 * completed_count fifty_milestones))
       <= Z.of_nat (length fifty_milestones).
Proof.
  apply (completion_percentage_close fifty_milestones).
  - discriminate.
  - vm_compute. repeat constructor.
Defined.

(** ** The counters of the dashboard *)

Lemma filter_as_bool {A : Type} (Q : A -> Prop) `{!forall x, Decision (Q x)}
    (test : A -> bool) (l : list A) :
  (forall x, test x = true <-> Q x) ->
  filter Q l = List.filter test l.
Proof.
  intros Hq. induction l as [| x l IH]; [reflexivity |].
  rewrite filter_cons. simpl. rewrite IH.
  destruct (decide (Q x)) as [Hx | Hx].
  - apply Hq in Hx. by rewrite Hx.
  - destruct (test x) eqn:E; [| done]. by apply Hq in E.
Qed.

(** Counting the rows of a table through its list of rows. *)
Lemma count_rows_table {A : Type} (Q : Z * A -> Prop) `{!forall x, Decision (Q x)}
    (test : Z * A -> bool) (table : gmap Z A) :
  (forall x, test x = true <-> Q x) ->
  count_rows test (map_to_list table) = count_where Q table.
Proof.
  intros Hq. unfold count_rows, count_where. f_equal.
  rewrite (map_filter_alt Q table), (filter_as_bool Q test _ Hq).
  rewrite map_size_list_to_map; [done |].
  apply NoDup_fst_filter, NoDup_fst_map_to_list.
Qed.

Lemma count_rows_fmap {A B : Type} (f : A -> B) (test : B -> bool) (l : list A) :
  count_rows test (f <$> l) = count_rows (fun x => test (f x)) l.
Proof.
  unfold count_rows. f_equal.
  induction l as [| x l IH]; [reflexivity |].
  rewrite fmap_cons. simpl. destruct (test (f x)); simpl; by rewrite IH.
Qed.

Lemma count_rows_ext {A : Type} (test1 test2 : A -> bool) (l : list A) :
  (forall x, test1 x = test2 x) -> count_rows test1 l = count_rows test2 l.
Proof.
  intros H. unfold count_rows. f_equal. f_equal.
  induction l as [| x l IH]; [reflexivity |]. simpl. by rewrite H, IH.
Qed.

Lemma count_rows_filter {A : Type} (test1 test2 : A -> bool) (l : list A) :
  count_rows test1 (List.filter test2 l) = count_rows (fun x => test2 x && test1 x) l.
Proof.
  unfold count_rows. f_equal.
  induction l as [| x l IH]; [reflexivity |]. simpl.
  destruct (test2 x); simpl; [destruct (test1 x); simpl |]; by rewrite IH.
Qed.

(** The rows counted for the projects of a list with distinct keys are
    the rows whose project is in the list. *)
Lemma count_rows_cons {A : Type} (test : A -> bool) (x : A) (l : list A) :
  count_rows test (x :: l) = (if test x then 1 else 0) + count_rows test l.
Proof. unfold count_rows. cbn [List.filter]. destruct (test x); cbn [length]; lia. Qed.

Lemma count_rows_partition {A : Type} (parent : A -> Z) (test : A -> bool)
    (ks : list Z) (l : list A) :
  NoDup ks ->
  foldr (fun k a => count_rows (fun x => (parent x =? k) && test x) l + a) 0 ks
  = count_rows (fun x => bool_decide (parent x ∈ ks) && test x) l.
Proof.
  intros Hnd. induction Hnd as [| k ks Hk _ IH]; cbn [foldr].
  - induction l as [| x l IHl]; [reflexivity |].
    rewrite count_rows_cons, <- IHl.
    rewrite bool_decide_eq_false_2 by apply not_elem_of_nil. reflexivity.
  - rewrite IH. clear IH.
    induction l as [| x l IHl]; [reflexivity |].
    rewrite !count_rows_cons, <- IHl.
    destruct (Z.eqb_spec (parent x) k) as [E | E].
    + rewrite (bool_decide_eq_true_2 (parent x ∈ k :: ks)) by (rewrite E; left).
      rewrite (bool_decide_eq_false_2 (parent x ∈ ks)) by (by rewrite E).
      cbn [andb]. destruct (test x); lia.
    + destruct (decide (parent x ∈ ks)) as [Hin | Hin].
      * rewrite (bool_decide_eq_true_2 (parent x ∈ k :: ks)) by (by right).
        rewrite (bool_decide_eq_true_2 _ Hin).
        cbn [andb]. destruct (test x); lia.
      * rewrite (bool_decide_eq_false_2 (parent x ∈ k :: ks))
          by (rewrite elem_of_cons; tauto).
        rewrite (bool_decide_eq_false_2 _ Hin). cbn [andb]. lia.
Qed.

Lemma count_rows_nil {A : Type} (test : A -> bool) : count_rows test [] = 0.
Proof. reflexivity. Qed.

Lemma tally_milestones_total (l : list (Z * Milestone.t)) (stats : DashboardStats) :
  foldl (fun a (r : Z * Milestone.t) => tally_milestone r.2 a) stats l
  = mkStats (active_projects stats) (overdue_count stats)
      (completed_milestones stats
       + count_rows (fun r => String.eqb (Milestone.status r.2) "Completed") l)
      (pending_milestones stats
       + count_rows (fun r => negb (String.eqb (Milestone.status r.2) "Completed")) l).
Proof.
  revert stats. induction l as [| [k m] l IH]; intros stats.
  - rewrite !count_rows_nil. destruct stats. cbn. f_equal; lia.
  - cbn [foldl]. rewrite IH, !count_rows_cons. unfold tally_milestone. cbn [snd].
    destruct (String.eqb (Milestone.status m) "Completed");
      cbn [negb active_projects overdue_count completed_milestones pending_milestones];
      f_equal; lia.
Qed.

Lemma tally_project_one (db : Database) (stats : DashboardStats) (k : Z)
    (p : Project.t) :
  tally_project db stats (k, p)
  = mkStats
      (active_projects stats
       + if negb (String.eqb (Project.status p) "Completed") then 1 else 0)
      (overdue_count stats + if String.eqb (Project.status p) "Overdue" then 1 else 0)
      (completed_milestones stats
       + count_rows (fun r => (Milestone.project_id r.2 =? k)
                              && String.eqb (Milestone.status r.2) "Completed")
           (map_to_list (milestones db)))
      (pending_milestones stats
       + count_rows (fun r => (Milestone.project_id r.2 =? k)
                              && negb (String.eqb (Milestone.status r.2) "Completed"))
           (map_to_list (milestones db))).
Proof.
  unfold tally_project. cbn [fst snd].
  rewrite tally_milestones_total. unfold Project_milestones.
  rewrite !count_rows_filter. cbv beta.
  destruct (String.eqb (Project.status p) "Completed");
    destruct (String.eqb (Project.status p) "Overdue");
    cbn [negb active_projects overdue_count completed_milestones pending_milestones];
    f_equal; lia.
Qed.

Lemma tally_projects_total (db : Database) (l : list (Z * Project.t))
    (stats : DashboardStats) :
  foldl (tally_project db) stats l
  = mkStats
      (active_projects stats
       + count_rows (fun r => negb (String.eqb (Project.status r.2) "Completed")) l)
      (overdue_count stats
       + count_rows (fun r => String.eqb (Project.status r.2) "Overdue") l)
      (completed_milestones stats
       + foldr (fun k a =>
                  count_rows (fun r => (Milestone.project_id r.2 =? k)
                                       && String.eqb (Milestone.status r.2) "Completed")
                    (map_to_list (milestones db)) + a) 0 l.*1)
      (pending_milestones stats
       + foldr (fun k a =>
                  count_rows (fun r => (Milestone.project_id r.2 =? k)
                                       && negb (String.eqb (Milestone.status r.2)
                                                  "Completed"))
                    (map_to_list (milestones db)) + a) 0 l.*1).
Proof.
  revert stats. induction l as [| [k p] l IH]; intros stats.
  - rewrite !count_rows_nil. destruct stats. cbn. f_equal; lia.
  - cbn [foldl]. rewrite IH, tally_project_one, !count_rows_cons, fmap_cons.
    cbn [foldr fst snd active_projects overdue_count completed_milestones
           pending_milestones].
    f_equal; lia.
Qed.

Lemma flag_overdue_completed (today : date) (m : Milestone.t) :
  String.eqb (Milestone.status (flag_overdue today m)) "Completed"
  = String.eqb (Milestone.status m) "Completed".
Proof.
  unfold flag_overdue.
  destruct (Milestone.end_date m <? today); [| reflexivity].
  destruct (String.eqb (Milestone.status m) "Completed") eqn:E; simpl; [exact E | reflexivity].
Qed.

(** Flagging milestones does not change what is counted. *)
Lemma tally_project_flagged (today : date) (P : gmap Z Project.t)
    (M : gmap Z Milestone.t) (Q : Milestone.t -> Prop) `{!forall m, Decision (Q m)}
    (stats : DashboardStats) (row : Z * Project.t) :
  tally_project
    (mkDatabase P ((fun m => if decide (Q m) then flag_overdue today m else m) <$> M))
    stats row
  = tally_project (mkDatabase P M) stats row.
Proof.
  destruct row as [k p]. rewrite !tally_project_one. cbn [milestones].
  rewrite map_to_list_fmap, !count_rows_fmap.
  f_equal; f_equal; apply count_rows_ext; intros [i m]; cbn [prod_map fst snd id];
    (destruct (decide (Q m)); [| reflexivity]);
    by rewrite flag_overdue_project_id, flag_overdue_completed.
Qed.

Lemma foldl_pointwise {A B : Type} (f g : A -> B -> A) (a : A) (l : list B) :
  (forall a x, f a x = g a x) -> foldl f a l = foldl g a l.
Proof.
  intros H. revert a. induction l as [| x l IH]; intros a; [reflexivity |].
  simpl. by rewrite H, IH.
Qed.

(** The second loop: its counters are the replayed ones. *)
Lemma dashboard_second_loop_counters (today : date) (l : list (Z * Project.t))
    (stats : DashboardStats) (s : Session) :
  NoDup l.*1 ->
  store s = objects s ->
  fst (for_each l stats (dashboard_count_project today) s)
  = inr (foldl (tally_project (objects s)) stats l).
Proof.
  revert stats s.
  induction l as [| [k p] l IH]; intros stats s Hnd Hs; [reflexivity |].
  rewrite fmap_cons, NoDup_cons in Hnd. destruct Hnd as [Hk Hnd].
  cbn [for_each foldl]. unfold mbind at 1, View_bind at 1.
  unfold dashboard_count_project at 1. run_view.
  match goal with |- context [for_each (Project_milestones (objects s) k) ?a _ s] =>
    destruct (milestone_loop_project (flag_overdue today) tally_milestone
                (dashboard_count_milestone today)
                (dashboard_count_milestone_run today) k a s) as (M1 & Hrun & ->)
  end.
  rewrite Hrun. run_view.
  match goal with |- context [for_each l ?a _ ?s1] =>
    specialize (IH a s1 Hnd eq_refl);
    destruct (for_each l a (dashboard_count_project today) s1) as [r s2]
  end.
  cbn [fst] in *. rewrite IH. cbn [fst objects]. f_equal.
  apply foldl_pointwise. intros a row. destruct s as [st [P M]].
  cbn [objects projects milestones].
  apply (tally_project_flagged today P M (fun m => Milestone.project_id m = k)).
Qed.

Lemma dashboard_second_loop_stats (today : date) (l : list (Z * Project.t))
    (stats : DashboardStats) (s : Session) :
  NoDup l.*1 ->
  store s = objects s ->
  for_each l stats (dashboard_count_project today) s
  = (inr (foldl (tally_project (objects s)) stats l),
     let db' :=
       mkDatabase (projects (objects s))
         ((fun m => if decide (Milestone.project_id m ∈ l.*1)
                    then flag_overdue today m else m) <$> milestones (objects s)) in
     mkSession db' db').
Proof.
  intros Hnd Hs.
  pose proof (dashboard_second_loop_counters today l stats s Hnd Hs) as Hc.
  destruct (dashboard_second_loop_store today l stats s Hnd Hs) as (stats' & Hrun).
  rewrite Hrun in Hc |- *. cbn [fst] in Hc. by rewrite Hc.
Qed.

Lemma recompute_project_not_completed (today : date) (p : Project.t) :
  negb (String.eqb (Project.status (recompute_project today p)) "Completed") = true
  <-> Project.status p <> "Completed".
Proof.
  unfold recompute_project. rewrite negb_true_iff, String.eqb_neq.
  destruct (decide (Project.status p = "Completed")) as [E | E]; [tauto |].
  split; [done |]. intros _.
  unfold automatic_status_spec. simpl. repeat case_decide; discriminate.
Qed.

Lemma recompute_project_overdue (today : date) (p : Project.t) :
  String.eqb (Project.status (recompute_project today p)) "Overdue" = true
  <-> Project.status p <> "Completed" /\ Project.end_date p < today.
Proof.
  unfold recompute_project. rewrite String.eqb_eq.
  destruct (decide (Project.status p = "Completed")) as [E | E].
  - rewrite E. split; [discriminate | tauto].
  - unfold automatic_status_spec. simpl.
    repeat case_decide;
      (split; [first [discriminate | intros _; split; [done | lia]]
              | first [done | intros [_ Hlt]; lia]]).
Qed.

(** X28. The numbers on the dashboard: the number of projects; the
    number of projects that are not Completed; among them the number
    of those past their end date; and, over the milestones of existing
    projects, the number stored as Completed and the number not, as
    they were stored before this pass flags any of them Overdue. *)
Theorem dashboard_counters (now : date) (db : Database) :
  fst (serve (dashboard now) db)
  = render_dashboard (Z.of_nat (size (projects db)))
      (mkStats
         (count_where (fun kp => Project.status kp.2 <> "Completed") (projects db))
         (count_where (fun kp => Project.status kp.2 <> "Completed"
                                 /\ Project.end_date kp.2 < now) (projects db))
         (count_where (fun km => is_Some (projects db !! Milestone.project_id km.2)
                                 /\ Milestone.status km.2 = "Completed") (milestones db))
         (count_where (fun km => is_Some (projects db !! Milestone.project_id km.2)
                                 /\ Milestone.status km.2 <> "Completed") (milestones db))).
Proof.
  unfold dashboard. run_view.
  destruct (dashboard_first_loop now (map_to_list (projects db)) (mkSession db db))
    as (P' & -> & Hlook).
  { apply NoDup_fst_map_to_list. }
  { intros id p Hin. simpl. by apply elem_of_map_to_list, list_elem_of_In. }
  run_view.
  assert (HP : P' = recompute_project now <$> projects db).
  { apply map_eq. intros i. rewrite Hlook, lookup_fmap. simpl.
    destruct (decide (i ∈ (map_to_list (projects db)).*1)) as [Hin | Hin]; [done |].
    destruct (projects db !! i) as [p |] eqn:Hp; [| done].
    exfalso. apply Hin. apply list_elem_of_fmap. exists (i, p).
    split; [done | by apply elem_of_map_to_list]. }
  subst P'.
  rewrite dashboard_second_loop_stats; [| apply NoDup_fst_map_to_list | reflexivity].
  cbn [fst objects]. rewrite length_map_to_list. f_equal.
  rewrite tally_projects_total.
  cbn [active_projects overdue_count completed_milestones pending_milestones milestones].
  rewrite !Z.add_0_l.
  assert (Hkeys : forall i, i ∈ (map_to_list (recompute_project now <$> projects db)).*1
                            <-> is_Some (projects db !! i)).
  { intros i. rewrite list_elem_of_fmap. split.
    - intros ([k p] & -> & Hin). apply elem_of_map_to_list in Hin.
      rewrite lookup_fmap in Hin. simpl.
      destruct (projects db !! k); [by eexists | discriminate].
    - intros [p Hp]. exists (i, recompute_project now p). split; [done |].
      apply elem_of_map_to_list. by rewrite lookup_fmap, Hp. }
  rewrite !count_rows_partition by apply NoDup_fst_map_to_list.
  rewrite map_to_list_fmap, !count_rows_fmap.
  f_equal.
  - apply count_rows_table. intros [k p]. cbn [prod_map fst snd id].
    apply recompute_project_not_completed.
  - apply count_rows_table. intros [k p]. cbn [prod_map fst snd id].
    apply recompute_project_overdue.
  - apply count_rows_table. intros [k m]. cbn [snd].
    rewrite andb_true_iff, bool_decide_eq_true, String.eqb_eq.
    rewrite <- map_to_list_fmap, Hkeys. reflexivity.
  - apply count_rows_table. intros [k m]. cbn [snd].
    rewrite andb_true_iff, bool_decide_eq_true, negb_true_iff, String.eqb_neq.
    rewrite <- map_to_list_fmap, Hkeys. reflexivity.
Qed.

(** ** Completed projects and their milestones *)

Lemma add_project_outcome (strip_title : string -> string) (db : Database)
    (request : Request ProjectForm) :
  let db' := snd (serve (add_project strip_title request) db) in
  db' = db
  \/ exists row, Project.status row = "Not Completed"
                 /\ db' = mkDatabase (<[next_id (projects db) := row]> (projects db))
                            (milestones db).
Proof.
  destruct request as [| form]; unfold add_project; split_view; cbn [snd];
    try (by left).
  right. eexists. split; [| reflexivity]. reflexivity.
Qed.

Lemma edit_project_outcome (strip_title : string -> string) (db : Database)
    (project_id : Z) (request : Request ProjectForm) :
  let db' := snd (serve (edit_project strip_title project_id request) db) in
  db' = db
  \/ exists p p', projects db !! project_id = Some p
                  /\ Project.status p' = Project.status p
                  /\ db' = mkDatabase (<[project_id := p']> (projects db)) (milestones db).
Proof.
  cbv zeta.
  destruct (projects db !! project_id) as [p |] eqn:Hp;
    [| left; unfold edit_project; run_view; by rewrite Hp].
  destruct request as [| form]; [left; unfold edit_project; run_view; by rewrite Hp |].
  destruct (form_start_date form) as [s |] eqn:Hs;
    [| left; unfold edit_project; split_view; first [reflexivity | exfalso; congruence]].
  destruct (form_end_date form) as [e |] eqn:He;
    [| left; unfold edit_project; split_view; first [reflexivity | exfalso; congruence]].
  pose proof (edit_project_run strip_title db project_id p form s e Hp Hs He) as Hrun.
  cbv zeta in Hrun. rewrite Hrun.
  destruct (decide _); [by left |]. destruct (decide (s > e)); [by left |].
  right. eexists p, _. split; [done |]. split; [| reflexivity]. reflexivity.
Qed.

Lemma edit_milestone_outcome (strip_title : string -> string) (db : Database)
    (milestone_id : Z) (request : Request MilestoneForm) :
  let db' := snd (serve (edit_milestone strip_title milestone_id request) db) in
  db' = db
  \/ exists m p row,
       milestones db !! milestone_id = Some m
       /\ projects db !! Milestone.project_id m = Some p
       /\ Milestone.project_id row = Milestone.project_id m
       /\ db' = mkDatabase
                  (if String.eqb (Milestone.status m) "Completed"
                      && negb (String.eqb (Milestone.status row) "Completed")
                   then <[Milestone.project_id m := Project.set_status "Not Completed" p]>
                          (projects db)
                   else projects db)
                  (<[milestone_id := row]> (milestones db)).
Proof.
  cbv zeta.
  destruct (milestones db !! milestone_id) as [m |] eqn:Hm;
    [| left; unfold edit_milestone; run_view; by rewrite Hm].
  destruct (projects db !! Milestone.project_id m) as [p |] eqn:Hp;
    [| left; unfold edit_milestone; run_view; rewrite Hm; run_view; by rewrite Hp].
  destruct request as [| form];
    [left; unfold edit_milestone; run_view; rewrite Hm; run_view; by rewrite Hp |].
  destruct (form_startdate form) as [s |] eqn:Hs;
    [| left; unfold edit_milestone; split_view; first [reflexivity | exfalso; congruence]].
  destruct (form_enddate form) as [e |] eqn:He;
    [| left; unfold edit_milestone; split_view; first [reflexivity | exfalso; congruence]].
  destruct (milestone_validation_spec p s e) as [err |] eqn:Hvalid.
  - left. unfold edit_milestone. run_view. rewrite Hm. run_view. rewrite Hp, Hs, He.
    run_view. rewrite milestone_validation_code, Hvalid. by destruct err.
  - right.
    rewrite (edit_milestone_run strip_title db milestone_id m p form s e Hm Hp Hs He Hvalid).
    exists m, p,
      (Milestone.mk (Milestone.project_id m)
         (to_title_case strip_title (form_milestonename form)) s e (form_status form)
         (default "Medium" (form_priority form))).
    repeat split; first [reflexivity | assumption].
Qed.

Lemma completion_consistent_dashboard (now : date) (db : Database) :
  completion_consistent db -> completion_consistent (snd (serve (dashboard now) db)).
Proof.
  intros Hc. destruct (dashboard_run now db) as (stats & ->). cbn [snd].
  intros id p' mid m'. cbn [projects milestones]. rewrite !lookup_fmap.
  destruct (projects db !! id) as [p |] eqn:Hp; [| discriminate].
  destruct (milestones db !! mid) as [m |] eqn:Hm; [| discriminate].
  simpl. intros [= <-] Hs [= <-] Hpid.
  assert (Hps : Project.status p = "Completed").
  { unfold recompute_project in Hs. destruct (decide (Project.status p = "Completed"));
      [done |]. exfalso. revert Hs. unfold automatic_status_spec. simpl.
    repeat case_decide; discriminate. }
  assert (Hpm : Milestone.project_id m = id).
  { rewrite <- Hpid. case_decide; [| done]. by rewrite flag_overdue_project_id. }
  pose proof (Hc id p mid m Hp Hps Hm Hpm) as Hms.
  apply String.eqb_eq. case_decide; [| by apply String.eqb_eq].
  rewrite flag_overdue_completed. by apply String.eqb_eq.
Qed.

Lemma completion_consistent_toggle (now : date) (db : Database) (project_id : Z) :
  completion_consistent db ->
  completion_consistent (snd (serve (toggle_status now project_id) db)).
Proof.
  intros Hc.
  destruct (projects db !! project_id) as [p |] eqn:Hp;
    [| by rewrite (toggle_status_missing now db project_id Hp)].
  destruct (decide (Project.status p = "Completed")) as [E | E].
  - rewrite (toggle_status_completed now db project_id p Hp E). cbn [snd].
    intros id q mid m. cbn [projects milestones].
    destruct (decide (id = project_id)) as [-> | Hne].
    + rewrite lookup_insert_eq. intros [= <-]. unfold automatic_status_spec. simpl.
      repeat case_decide; discriminate.
    + rewrite lookup_insert_ne by done. apply Hc.
  - rewrite (toggle_status_not_completed now db project_id p Hp E). cbn [snd].
    destruct (all_completed now now (Project_milestones db project_id)) eqn:Hall;
      [| exact Hc].
    intros id q mid m. cbn [projects milestones].
    destruct (decide (id = project_id)) as [-> | Hne].
    + rewrite lookup_insert_eq. intros _ _ Hm Hpid.
      apply (get_milestone_status_completed now m (Some now)).
      apply (proj1 (all_completed_true now now _) Hall mid m).
      by apply in_Project_milestones.
    + rewrite lookup_insert_ne by done. apply Hc.
Qed.

Lemma completion_consistent_view (now : date) (db : Database) (project_id : Z) :
  completion_consistent db ->
  completion_consistent (snd (serve (view_project now project_id) db)).
Proof.
  intros Hc.
  destruct (projects db !! project_id) as [p |] eqn:Hp;
    [| unfold view_project; run_view; by rewrite Hp].
  rewrite (view_project_run now db project_id p Hp). cbn [snd].
  intros id q mid m'. cbn [projects milestones]. rewrite lookup_fmap.
  destruct (milestones db !! mid) as [m |] eqn:Hm; [| discriminate].
  simpl. intros Hq Hs [= <-] Hpid.
  assert (Hpm : Milestone.project_id m = id) by (rewrite <- Hpid; by case_decide).
  pose proof (Hc id q mid m Hq Hs Hm Hpm) as Hms.
  case_decide; [| done]. unfold refresh_milestone. simpl.
  by apply get_milestone_status_completed.
Qed.

Lemma completion_consistent_route (strip_title : string -> string) (db : Database)
    (op : WriteOperation) :
  writes_status_unchecked (Write op) = false ->
  completion_consistent db ->
  completion_consistent (snd (serve (route strip_title op) db)).
Proof.
  intros Hop Hc.
  destruct op as [request | project_id request | project_id request
                 | milestone_id request]; cbn [route]; try discriminate Hop.
  - destruct (add_project_outcome strip_title db request) as [-> | (row & Hrow & ->)];
      [exact Hc |].
    intros id q mid m. cbn [projects milestones].
    destruct (decide (id = next_id (projects db))) as [-> | Hne].
    + rewrite lookup_insert_eq. intros [= <-]. rewrite Hrow. discriminate.
    + rewrite lookup_insert_ne by done. apply Hc.
  - destruct (edit_project_outcome strip_title db project_id request)
      as [-> | (p & p' & Hp & Hst & ->)]; [exact Hc |].
    intros id q mid m. cbn [projects milestones].
    destruct (decide (id = project_id)) as [-> | Hne].
    + rewrite lookup_insert_eq. intros [= <-] Hs. apply (Hc project_id p); congruence.
    + rewrite lookup_insert_ne by done. apply Hc.
  - destruct (edit_milestone_outcome strip_title db milestone_id request)
      as [-> | (m0 & p & row & Hm0 & Hp & Hrow & ->)]; [exact Hc |].
    intros id q mid m. cbn [projects milestones].
    destruct (String.eqb_spec (Milestone.status m0) "Completed") as [Hold | Hold];
      destruct (String.eqb_spec (Milestone.status row) "Completed") as [Hnew | Hnew];
      cbn [andb negb].
    + intros Hq Hs. destruct (decide (mid = milestone_id)) as [-> | Hne].
      * rewrite lookup_insert_eq. by intros [= <-].
      * rewrite lookup_insert_ne by done. by apply (Hc id q).
    + destruct (decide (id = Milestone.project_id m0)) as [-> | Hid].
      * rewrite lookup_insert_eq. intros [= <-]. discriminate.
      * rewrite lookup_insert_ne by done. intros Hq Hs.
        destruct (decide (mid = milestone_id)) as [-> | Hne].
        -- rewrite lookup_insert_eq. intros [= <-]. congruence.
        -- rewrite lookup_insert_ne by done. by apply (Hc id q).
    + intros Hq Hs. destruct (decide (mid = milestone_id)) as [-> | Hne].
      * rewrite lookup_insert_eq. by intros [= <-].
      * rewrite lookup_insert_ne by done. by apply (Hc id q).
    + intros Hq Hs. destruct (decide (mid = milestone_id)) as [-> | Hne].
      * rewrite lookup_insert_eq. intros [= <-] Hpid. exfalso. apply Hold.
        apply (Hc id q milestone_id m0 Hq Hs Hm0). congruence.
      * rewrite lookup_insert_ne by done. by apply (Hc id q).
Qed.

(** X29. Completion as an invariant: if every Completed project
    has only Completed milestones before a request, it has after it,
    for every route but the two that write a milestone's status
    without looking at the project, [add_milestone] and
    [update_milestone_status]. *)
Theorem completion_consistent_kept (strip_title : string -> string) (now : date)
    (db : Database) (op : Operation) :
  writes_status_unchecked op = false ->
  completion_consistent db ->
  completion_consistent (snd (serve (app strip_title now op) db)).
Proof.
  intros Hop Hc.
  destruct op as [| project_id | project_id | op | project_id | milestone_id
                 | milestone_id status]; cbn [app]; try discriminate Hop.
  - by apply completion_consistent_dashboard.
  - by apply completion_consistent_toggle.
  - by apply completion_consistent_view.
  - by apply completion_consistent_route.
  - destruct (projects db !! project_id) as [p |] eqn:Hp;
      [| unfold delete_project; run_view; by rewrite Hp].
    rewrite (delete_project_run db project_id p Hp). cbn [snd].
    intros id q mid m. cbn [projects milestones].
    rewrite lookup_delete_Some, map_lookup_filter_Some.
    intros [_ Hq] Hs [Hm _] Hpid. by apply (Hc id q mid m).
  - destruct (milestones db !! milestone_id) as [m0 |] eqn:Hm0;
      [| unfold delete_milestone; run_view; by rewrite Hm0].
    rewrite (delete_milestone_run db milestone_id m0 Hm0). cbn [snd].
    intros id q mid m. cbn [projects milestones].
    rewrite lookup_delete_Some. intros Hq Hs [_ Hm] Hpid. by apply (Hc id q mid m).
Qed.

Lemma completion_consistent_kept_witness :
  completion_consistent
    (snd (serve (app ascii_strip_title d2024_08_01
                   (Write (EditMilestone 1 (POST form_reopen)))) db_finished)).
Proof.
  apply (completion_consistent_kept ascii_strip_title d2024_08_01 db_finished
           (Write (EditMilestone 1 (POST form_reopen)))).
  - reflexivity.
  - intros id p mid m _ _ Hm _.
    assert (Hall : map_Forall (fun _ m => Milestone.status m = "Completed")
                     (milestones db_finished))
      by (apply (bool_decide_unpack _); vm_compute; exact I).
    exact (Hall mid m Hm).
Defined.

(** X30. The two other routes do break it: on a Completed project,
    [add_milestone] with a status other than Completed and dates that
    pass, and [update_milestone_status] with such a status on one of
    its milestones, leave the project Completed with a milestone that
    is not. *)
Theorem completion_consistent_broken (strip_title : string -> string) (db : Database)
    (project_id : Z) (project : Project.t) :
  projects db !! project_id = Some project ->
  Project.status project = "Completed" ->
  (forall form start_date end_date,
      form_startdate form = Some start_date ->
      form_enddate form = Some end_date ->
      milestone_validation_spec project start_date end_date = None ->
      form_status form <> "Completed" ->
      ~ completion_consistent
          (snd (serve (add_milestone strip_title project_id (POST form)) db)))
  /\ (forall milestone_id m v,
         milestones db !! milestone_id = Some m ->
         Milestone.project_id m = project_id ->
         v <> "" -> v <> "Completed" ->
         ~ completion_consistent
             (snd (serve (update_milestone_status milestone_id (Some v)) db))).
Proof.
  intros Hp Hs. split.
  - intros form s e Hfs Hfe Hvalid Hstatus Hc.
    rewrite (add_milestone_run strip_title db project_id project form s e
               Hp Hfs Hfe Hvalid) in Hc. cbn [snd] in Hc.
    apply Hstatus.
    exact (Hc project_id project (next_id (milestones db)) _ Hp Hs
             (lookup_insert_eq _ _ _) eq_refl).
  - intros milestone_id m v Hm Hpid Hv Hnot Hc.
    unfold update_milestone_status in Hc. revert Hc. run_view. rewrite Hm. run_view.
    rewrite eqb_string_decide, (bool_decide_eq_false_2 _ Hv). run_view.
    rewrite (alter_as_insert _ _ _ _ Hm). intros Hc.
    apply Hnot.
    exact (Hc project_id project milestone_id _ Hp Hs (lookup_insert_eq _ _ _) Hpid).
Qed.

Lemma completion_consistent_broken_witness :
  ~ completion_consistent
      (snd (serve (update_milestone_status 1 (Some "In Progress")) db_finished)).
Proof.
  refine (proj2 (completion_consistent_broken ascii_strip_title db_finished 1
                   project_finished _ _) 1 milestone_done "In Progress" _ _ _ _);
    try reflexivity; discriminate.
Defined.

(** ** Worked instances *)

Lemma dashboard_normalises_witness :
  exists e, Project.status (recompute_project d2024_08_01 project_P) = status_label e.
Proof.
  apply (proj1 (dashboard_normalises d2024_08_01 db_one) 1
           (recompute_project d2024_08_01 project_P)).
  vm_compute. reflexivity.
Defined.

Lemma toggle_status_frame_witness :
  projects db_pair !! 2 = Some project_finished
  /\ projects (snd (serve (toggle_status d2024_08_01 2) db_pair)) !! 2
     = Some (Project.mk "Acme Launch" "Acme Corp" d2024_01_01 d2024_06_30 "Overdue")
  /\ projects (snd (serve (toggle_status d2024_08_01 2) db_pair)) !! 1 = Some project_P
  /\ milestones (snd (serve (toggle_status d2024_08_01 2) db_pair)) = milestones db_pair.
Proof.
  destruct (toggle_status_frame d2024_08_01 db_pair 2) as (Hm & Hother & Hkept & _).
  split; [reflexivity |]. split; [| split].
  - destruct (Hkept project_finished eq_refl) as (v & Hrow).
    rewrite Hrow. vm_compute in Hrow. by injection Hrow as <-.
  - rewrite (Hother 1) by discriminate. reflexivity.
  - exact Hm.
Defined.

Lemma end_before_start_never_reported_witness :
  fst (serve (route ascii_strip_title (EditProject 1 (POST form_backwards))) db_one)
  <> render_template "edit_project.html" (Some ProjectEndBeforeStart).
Proof.
  apply (end_before_start_never_reported ascii_strip_title db_one
           (EditProject 1 (POST form_backwards)) "edit_project.html").
Defined.
